(** * ai-digest: the scoring, categorisation and selection pipeline

    A shallow embedding of the four scripts of the repository

      - [src/collect_articles.py]   (module [CollectArticles])
      - [src/analyze_articles.py]   (module [AnalyzeArticles])
      - [analyze_today.py]          (module [AnalyzeToday])
      - [filter_and_generate.py]    (module [FilterAndGenerate])

    Articles are Python dictionaries read from JSON: they are finite maps
    from string keys to Python values.  Python exceptions are an explicit
    error result.  The functions of the Python standard library whose
    behaviour is not written in the repository ([str.lower], [repr],
    [datetime.fromisoformat]) are the fields of a [Runtime] class: every
    theorem holds for every runtime, and a reference runtime for ASCII
    text is used to evaluate the scripts on concrete inputs. *)

From Stdlib Require Import ZArith String Ascii List Floats Uint63 Lia Bool.
From stdpp Require Import base option list gmap strings pretty sorting.

Local Open Scope Z_scope.

(** ** Python values and exceptions *)

#[local] Set Warnings "-register-all".

Inductive pyval : Type :=
  | PNone
  | PBool (b : bool)
  | PInt (z : Z)
  | PFloat (f : float)
  | PStr (s : string)
  | PList (l : list pyval)
  | PDict (kvs : list (string * pyval)).

(** An article (and a feed entry) is a [dict] with string keys. *)
Abbreviation article := (gmap string pyval).

Inductive exn : Type :=
  | AttributeError
  | TypeError
  | ValueError
  | KeyError
  | OverflowError.

Inductive result (A : Type) : Type :=
  | Ok (a : A)
  | Raise (e : exn).
Arguments Ok {A} a.
Arguments Raise {A} e.

(** Sequencing: the first exception raised ends the computation. *)
Definition bind {A B} (r : result A) (k : A -> result B) : result B :=
  match r with
  | Ok a => k a
  | Raise e => Raise e
  end.

Notation "'let*' x ':=' r 'in' k" := (bind r (fun x => k))
  (at level 10, x pattern, r at level 100, k at level 200).

(** [try: ... except: handler] around a computation. *)
Definition try_except {A} (r : result A) (handler : A) : A :=
  match r with
  | Ok a => a
  | Raise _ => handler
  end.

(** A timestamp is a number of microseconds since the epoch.  A [datetime]
    is either naive (a wall clock reading without a zone) or aware (an
    instant together with the offset of its zone from UTC). *)
Inductive datetime : Type :=
  | Naive (wall : Z)
  | Aware (instant utcoffset : Z).

(** The part of the Python runtime the scripts call and do not define. *)
Class Runtime : Type := {
  (** [str.lower] *)
  lower : string -> string;
  (** [repr] of a value that is not a string (used by [str(...)]) *)
  repr : pyval -> string;
  (** [datetime.fromisoformat]; [None] when it raises [ValueError] *)
  fromisoformat : string -> option datetime
}.

(** ** Strings *)

(** [needle in hay] for two strings. *)
Fixpoint str_contains (needle hay : string) : bool :=
  String.prefix needle hay ||
  match hay with
  | EmptyString => false
  | String _ rest => str_contains needle rest
  end.

(** [s.replace(c, new)] for a one-character pattern [c]. *)
Fixpoint replace_char (c : ascii) (new : string) (s : string) : string :=
  match s with
  | EmptyString => EmptyString
  | String d rest =>
      if Ascii.eqb c d then new +:+ replace_char c new rest
      else String d (replace_char c new rest)
  end.

(** [sum(1 for kw in keywords if kw in content)] *)
Definition count_matches (keywords : list string) (content : string) : Z :=
  Z.of_nat (length (List.filter (fun kw => str_contains kw content) keywords)).

(** [any(kw in content for kw in keywords)] *)
Definition any_match (keywords : list string) (content : string) : bool :=
  existsb (fun kw => str_contains kw content) keywords.

Section PythonValues.
Context {RT : Runtime}.

(** [d.get(key, dflt)] *)
Definition get (d : article) (key : string) (dflt : pyval) : pyval :=
  default dflt (d !! key).

(** [v.lower()]: only strings have the method. *)
Definition py_lower (v : pyval) : result string :=
  match v with
  | PStr s => Ok (lower s)
  | _ => Raise AttributeError
  end.

(** [str(v)] *)
Definition py_str (v : pyval) : string :=
  match v with
  | PStr s => s
  | _ => repr v
  end.

(** [needle in v] for a string [needle]: substring test on a string,
    membership in a list, key membership in a dict, [TypeError] on a
    value that is not iterable. *)
Definition py_in (needle : string) (v : pyval) : result bool :=
  match v with
  | PStr s => Ok (str_contains needle s)
  | PList l =>
      Ok (existsb (fun x => match x with
                            | PStr s => String.eqb s needle
                            | _ => false
                            end) l)
  | PDict kvs => Ok (existsb (fun kv => String.eqb (fst kv) needle) kvs)
  | _ => Raise TypeError
  end.

(** The truth value of an object. *)
Definition truthy (v : pyval) : bool :=
  match v with
  | PNone => false
  | PBool b => b
  | PInt z => negb (z =? 0)
  | PFloat f => negb (PrimFloat.eqb f PrimFloat.zero)
  | PStr s => negb (String.eqb s "")
  | PList l => match l with [] => false | _ => true end
  | PDict kvs => match kvs with [] => false | _ => true end
  end.
End PythonValues.

(** [d[key]] on a dictionary: [KeyError] for a missing key. *)
Definition py_getitem (d : article) (key : string) : result pyval :=
  match d !! key with
  | Some v => Ok v
  | None => Raise KeyError
  end.

(** The first [n] characters of a string. *)
Fixpoint str_take (n : nat) (s : string) : string :=
  match n, s with
  | S m, String c rest => String c (str_take m rest)
  | _, _ => EmptyString
  end.

(** [v[:n]]: a prefix of a string or of a list; the other values cannot
    be sliced.  (A dictionary takes the slice for a key: [TypeError] as
    long as slices are not hashable, before Python 3.12, and [KeyError]
    since.  The scripts slice titles only, after the scorer has called
    [lower] on them.) *)
Definition py_slice_to (n : nat) (v : pyval) : result pyval :=
  match v with
  | PStr s => Ok (PStr (str_take n s))
  | PList l => Ok (PList (take n l))
  | _ => Raise TypeError
  end.

(** A run of a script that writes its result before it is done: the
    file it leaves behind, if it gets to write it, and the way it ends. *)
Record run (F : Type) : Type := Run {
  file : option F;
  outcome : result unit
}.
Arguments Run {F} file outcome.
Arguments file {F} r.
Arguments outcome {F} r.

(** ** Numbers: [int] and [float] *)

(** A score is an [int] or a [float]. *)
Inductive pynum : Type :=
  | NInt (z : Z)
  | NFloat (f : float).

(** Conversion of an [int] to a [float]; exact below [2^53] in absolute
    value, which covers every integer the scripts mix with a float. *)
Definition float_of_Z (z : Z) : float :=
  if z <? 0 then PrimFloat.opp (PrimFloat.of_uint63 (Uint63.of_Z (- z)))
  else PrimFloat.of_uint63 (Uint63.of_Z z).

Definition to_float (x : pynum) : float :=
  match x with
  | NInt z => float_of_Z z
  | NFloat f => f
  end.

(** [x < y] *)
Definition py_ltb (x y : pynum) : bool :=
  match x, y with
  | NInt a, NInt b => a <? b
  | _, _ => PrimFloat.ltb (to_float x) (to_float y)
  end.

(** [x >= y] *)
Definition py_geb (x y : pynum) : bool :=
  match x, y with
  | NInt a, NInt b => b <=? a
  | _, _ => PrimFloat.leb (to_float y) (to_float x)
  end.

(** [min(x, y)]: the first argument unless the second is smaller. *)
Definition py_min (x y : pynum) : pynum :=
  if py_ltb y x then y else x.

(** The [float] that the literal [0.3] denotes. *)
Definition float_0_3 : float := 0x1.3333333333333p-2%float.

(** [x * y] for an [int] and a [float]. *)
Definition py_mul_float (x : Z) (y : float) : float :=
  PrimFloat.mul (float_of_Z x) y.

(** ** Dates *)

Definition us_per_hour : Z := 3600000000.
Definition us_per_day : Z := 86400000000.

(** [datetime.min] and [datetime.max] in UTC, in microseconds. *)
Definition datetime_min : Z := -62135596800000000.
Definition datetime_max : Z := 253402300799999999.

(** [now - timedelta(hours=hours)]: the [timedelta] constructor raises
    [OverflowError] beyond 999999999 days, and so does a subtraction that
    leaves the years 1 to 9999. *)
Definition cutoff_time (now hours : Z) : result Z :=
  let days := (hours * us_per_hour) / us_per_day in
  if (days <? -999999999) || (999999999 <? days) then Raise OverflowError
  else
    let cutoff := now - hours * us_per_hour in
    if (cutoff <? datetime_min) || (datetime_max <? cutoff)
    then Raise OverflowError
    else Ok cutoff.

(** ** [list.sort(key=..., reverse=True)]

    Python's sort is stable, also with [reverse=True]: elements with equal
    keys keep the order of the input.  It compares keys with [<] only.  For
    keys that are totally ordered the stable descending arrangement is
    unique; [sort_desc] computes it by insertion. *)
Section Sort.
Context {A K : Type} (key : A -> K) (ltb : K -> K -> bool).

Fixpoint insert_desc (x : A) (l : list A) : list A :=
  match l with
  | [] => [x]
  | y :: rest =>
      if ltb (key x) (key y) then y :: insert_desc x rest
      else x :: y :: rest
  end.

Definition sort_desc (l : list A) : list A :=
  foldr insert_desc [] l.
End Sort.

(** ** The selection walk, as a function on lists

    The three selection loops walk the sorted list with a counter of the
    arXiv articles kept so far: [cap_filter p cap count l] keeps every
    element outside [p] and the elements in [p] while the counter is below
    [cap].  The loops are related to it below. *)
Fixpoint cap_filter {A} (p : A -> bool) (cap count : nat) (l : list A)
  : list A :=
  match l with
  | [] => []
  | x :: rest =>
      if p x then
        if (cap <=? count)%nat then cap_filter p cap count rest
        else x :: cap_filter p cap (S count) rest
      else x :: cap_filter p cap count rest
  end.

(** ** [src/analyze_articles.py] *)

Module AnalyzeArticles.
Section Script.
Context {RT : Runtime}.

(** [is_recent(published, hours)], called at the instant [now].  The bare
    [except] turns every exception into [False]: the [AttributeError] of
    a value without [replace], the [ValueError] of the parser, the
    [TypeError] of comparing a naive with an aware datetime and the
    [OverflowError] of the subtraction. *)
Definition is_recent (now : Z) (published : pyval) (hours : Z) : bool :=
  match published with
  | PStr s =>
      match fromisoformat (replace_char "Z" "+00:00" s) with
      | Some (Aware pub_date _) =>
          try_except
            (let* cutoff := cutoff_time now hours in Ok (cutoff <=? pub_date))
            false
      | Some (Naive _) => false
      | None => false
      end
  | _ => false
  end.

Definition production_keywords : list string :=
  ["production"; "deployment"; "case study"; "real-world"; "enterprise";
   "customer"; "implementation"; "using"; "how to"; "practical";
   "langsmith"; "langgraph"; "servicenow"; "company"].

Definition agent_keywords : list string :=
  ["agent"; "agentic"; "autonomous"; "tool use"; "tool calling";
   "mcp"; "model context protocol"; "multi-agent"; "orchestration";
   "reasoning"; "planning"; "workflow"].

Definition framework_keywords : list string :=
  ["framework"; "library"; "sdk"; "api"; "tool"; "platform";
   "langchain"; "autogen"; "crewai"; "anthropic"; "openai"].

(** The first lines of [score_article] and of [categorize_article]:
    the text of the article and whether its link is an arXiv one. *)
Definition read_fields (a : article) : result (string * bool) :=
  let* title := py_lower (get a "title" (PStr "")) in
  let* summary :=
    py_lower (get a "summary" (get a "description" (PStr ""))) in
  let link := get a "link" (get a "url" (PStr "")) in
  let content := title +:+ " " +:+ summary in
  let* is_arxiv := py_in "arxiv.org" link in
  Ok (content, is_arxiv).

(** The body of [score_article] after the fields are read. *)
Definition score_content (content : string) (is_arxiv : bool)
  : pynum * string :=
  let agent_matches := count_matches agent_keywords content in
  if agent_matches =? 0 then (NInt 0, "Not relevant to AI agents")
  else
    let score := Z.min (agent_matches * 15) 40 in
    let reasons := ["agent keywords (" +:+ pretty agent_matches +:+ ")"] in
    let production_matches := count_matches production_keywords content in
    let '(score, reasons) :=
      if 0 <? production_matches
      then (score + Z.min (production_matches * 20) 50,
            reasons ++ ["production focus (" +:+ pretty production_matches
                        +:+ ")"])
      else (score, reasons) in
    let framework_matches := count_matches framework_keywords content in
    let '(score, reasons) :=
      if 0 <? framework_matches
      then (score + Z.min (framework_matches * 10) 30,
            reasons ++ ["framework/tool (" +:+ pretty framework_matches
                        +:+ ")"])
      else (score, reasons) in
    let '(score, reasons) :=
      if is_arxiv then
        if production_matches =? 0
        then (py_min (NFloat (py_mul_float score float_0_3)) (NInt 40),
              reasons ++ ["arXiv penalty (research paper)"])
        else (NInt score, reasons ++ ["arXiv with production relevance"])
      else (NInt score, reasons) in
    (py_min score (NInt 100), String.concat "; " reasons).

Definition score_article (a : article) : result (pynum * string) :=
  let* (content, is_arxiv) := read_fields a in
  Ok (score_content content is_arxiv).

Definition production_indicators : list string :=
  ["production"; "deployment"; "case study"; "customer"; "enterprise";
   "real-world"; "implementation"].
Definition framework_indicators : list string :=
  ["framework"; "library"; "sdk"; "api"; "tool"; "release"; "version"].
Definition resource_indicators : list string :=
  ["guide"; "tutorial"; "how to"; "documentation"; "learning"].
Definition analysis_indicators : list string :=
  ["trend"; "analysis"; "survey"; "benchmark"; "comparison"; "review"].

Definition categorize_content (content : string) (is_arxiv : bool)
  : string :=
  if any_match production_indicators content then "Production Use Cases"
  else if any_match framework_indicators content && negb is_arxiv
  then "Frameworks & Tools"
  else if any_match resource_indicators content then "Developer Resources"
  else if any_match analysis_indicators content then "Trends & Analysis"
  else "Research & Breakthroughs".

Definition categorize_article (a : article) (score : pynum)
  : result string :=
  let* (content, is_arxiv) := read_fields a in
  Ok (categorize_content content is_arxiv).

(** An element of [scored_articles]. *)
Record item : Type := Item {
  it_article : article;
  it_score : pynum;
  it_reason : string;
  it_category : string
}.

(** [recent_articles]: the comprehension reads the clock once for each
    article; [clock k] is the reading for the article at position [k]. *)
Fixpoint recent_from (clock : nat -> Z) (k : nat) (articles : list article)
  : list article :=
  match articles with
  | [] => []
  | a :: rest =>
      if is_recent (clock k) (get a "published" (PStr "")) 48
      then a :: recent_from clock (S k) rest
      else recent_from clock (S k) rest
  end.

(** The scoring loop of [main]. *)
Fixpoint score_loop (articles : list article) : result (list item) :=
  match articles with
  | [] => Ok []
  | a :: rest =>
      let* (score, reason) := score_article a in
      if py_geb score (NInt 60) then
        let* category := categorize_article a score in
        let* scored := score_loop rest in
        Ok (Item a score reason category :: scored)
      else score_loop rest
  end.

Definition arxiv_limit : nat := 3.

(** The loop of [main] that applies the arXiv limit, from the state
    ([filtered_articles], [arxiv_count]) it has reached.  The grouping
    [by_category] only feeds the printed report and is left out. *)
Fixpoint limit_loop (filtered_articles : list item) (arxiv_count : nat)
    (scored_articles : list item) : result (list item) :=
  match scored_articles with
  | [] => Ok filtered_articles
  | it :: rest =>
      let a := it_article it in
      let link := get a "link" (get a "url" (PStr "")) in
      let* is_arxiv := py_in "arxiv.org" link in
      if is_arxiv then
        if (arxiv_limit <=? arxiv_count)%nat
        then limit_loop filtered_articles arxiv_count rest
        else limit_loop (filtered_articles ++ [it]) (S arxiv_count) rest
      else limit_loop (filtered_articles ++ [it]) arxiv_count rest
  end.

(** What [main] writes to [filtered_articles.json] (the time stamp
    [generated_at] apart). *)
Record output : Type := Output {
  total_collected : nat;
  recent_articles : nat;
  high_scoring : nat;
  after_arxiv_limit : nat;
  out_arxiv_limit : nat;
  articles : list item
}.

(** [main]: the report it prints before the file is written reads the
    articles with [get] and raises nothing (its grouping by category is
    in the module [Reports]). *)
Definition main (clock : nat -> Z) (collected : list article)
  : result output :=
  let recent := recent_from clock 0 collected in
  let* scored_articles := score_loop recent in
  let scored_articles := sort_desc it_score py_ltb scored_articles in
  let* filtered_articles := limit_loop [] 0 scored_articles in
  Ok (Output (length collected) (length recent) (length scored_articles)
             (length filtered_articles) arxiv_limit filtered_articles).
End Script.
End AnalyzeArticles.

(** ** [analyze_today.py] *)

Module AnalyzeToday.
Section Script.
Context {RT : Runtime}.

Definition agentic_keywords : list string :=
  ["agent"; "agentic"; "autonomous"; "multi-agent"; "tool use";
   "function calling"; "mcp"; "model context protocol";
   "reasoning"; "planning"; "workflow"; "orchestration";
   "tool calling"; "langchain"; "langgraph"; "crewai"].

Definition production_keywords : list string :=
  ["production"; "deployment"; "real-world"; "implementation";
   "case study"; "benchmark"; "framework"; "sdk"; "api";
   "system"; "platform"; "enterprise"; "scale"].

Definition ai_keywords : list string :=
  ["llm"; "large language"; "ai"; "gpt"; "claude"; "gemini"].

Definition developer_keywords : list string :=
  ["developer"; "code"; "programming"; "engineering"].

Definition theory_keywords : list string :=
  ["theoretical"; "mathematical proof"; "convergence"].

(** The first lines of [categorize_article]: the combined text. *)
Definition read_text (a : article) : result string :=
  let* title := py_lower (get a "title" (PStr "")) in
  let description := lower (py_str (get a "description" (PStr ""))) in
  Ok (title +:+ " " +:+ description).

(** The body of [score_article] after the fields are read. *)
Definition score_text (combined url : string) : Z :=
  let score := 0 in
  let matches := count_matches agentic_keywords combined in
  let score := score + Z.min 40 (matches * 15) in
  let score :=
    if any_match production_keywords combined then score + 25 else score in
  let score :=
    if any_match ai_keywords combined then score + 20 else score in
  let score :=
    if any_match developer_keywords combined then score + 10 else score in
  let score :=
    if negb (str_contains "arxiv.org" url) then score + 10 else score in
  let score :=
    if str_contains "arxiv.org" url then
      if any_match theory_keywords combined then score - 15 else score
    else score in
  Z.max 0 (Z.min 100 score).

Definition score_article (a : article) : result Z :=
  let* title := py_lower (get a "title" (PStr "")) in
  let description := lower (py_str (get a "description" (PStr ""))) in
  let* url := py_lower (get a "url" (PStr "")) in
  let combined := title +:+ " " +:+ description in
  Ok (score_text combined url).

(** The four lists [categorize_article] writes in place. *)
Definition production_indicators : list string :=
  ["production"; "deployment"; "real-world"; "case study"].
Definition framework_indicators : list string :=
  ["framework"; "sdk"; "tool"; "library"; "api"].
Definition resource_indicators : list string :=
  ["tutorial"; "guide"; "how to"; "example"].
Definition analysis_indicators : list string :=
  ["trend"; "analysis"; "survey"; "benchmark"].

Definition categorize_text (combined : string) : string :=
  if any_match production_indicators combined
  then "Production Use Cases"
  else if any_match framework_indicators combined
  then "Frameworks & Tools"
  else if any_match resource_indicators combined
  then "Developer Resources"
  else if any_match analysis_indicators combined
  then "Trends & Analysis"
  else "Research & Breakthroughs".

Definition categorize_article (a : article) : result string :=
  let* combined := read_text a in
  Ok (categorize_text combined).

(** An element of [scored]. *)
Record item : Type := Item {
  it_article : article;
  it_score : Z;
  it_category : string
}.

(** The scoring loop of [main]. *)
Fixpoint score_loop (articles : list article) : result (list item) :=
  match articles with
  | [] => Ok []
  | a :: rest =>
      let* score := score_article a in
      if 60 <=? score then
        let* category := categorize_article a in
        let* scored := score_loop rest in
        Ok (Item a score category :: scored)
      else score_loop rest
  end.

Definition max_arxiv : nat := 3.
Definition max_selected : nat := 12.

(** The selection loop of [main], from the state ([selected],
    [arxiv_count]) it has reached. *)
Fixpoint select_loop (selected : list item) (arxiv_count : nat)
    (scored : list item) : result (list item) :=
  match scored with
  | [] => Ok selected
  | it :: rest =>
      if (max_selected <=? length selected)%nat then Ok selected
      else
        let url := get (it_article it) "url" (PStr "") in
        let* is_arxiv := py_in "arxiv.org" url in
        if is_arxiv then
          if (max_arxiv <=? arxiv_count)%nat
          then select_loop selected arxiv_count rest
          else select_loop (selected ++ [it]) (S arxiv_count) rest
        else select_loop (selected ++ [it]) arxiv_count rest
  end.

(** What [main] writes to [filtered_articles.json] (the time stamp
    apart). *)
Record output : Type := Output {
  total_collected : nat;
  high_scoring : nat;
  selected_count : nat;
  out_arxiv_limit : nat;
  articles : list item
}.

(** [main] up to the [json.dump]: the contents of the file. *)
Definition written (collected : list article) : result output :=
  let* scored := score_loop collected in
  let scored := sort_desc it_score Z.ltb scored in
  let* selected := select_loop [] 0 scored in
  Ok (Output (length collected) (length scored) (length selected)
             max_arxiv selected).

(** The report [main] prints once the file is written, over
    [selected[:10]]: it indexes the article with ['title'] and ['url']
    and cuts the title at 70 characters.  What is printed is left out;
    the exceptions are kept. *)
Fixpoint report (top : list item) : result unit :=
  match top with
  | [] => Ok tt
  | it :: rest =>
      let art := it_article it in
      let* title := py_getitem art "title" in
      let* _ := py_slice_to 70 title in
      let* _ := py_getitem art "url" in
      report rest
  end.

Definition main (collected : list article) : run output :=
  match written collected with
  | Raise e => Run None (Raise e)
  | Ok out => Run (Some out) (report (take 10 (articles out)))
  end.
End Script.
End AnalyzeToday.

(** ** [filter_and_generate.py] *)

Module FilterAndGenerate.
Section Script.
Context {RT : Runtime}.

Definition high_value : list string :=
  ["agent"; "agentic"; "autonomous"; "multi-agent"; "tool use";
   "function calling"; "mcp"; "model context protocol";
   "reasoning"; "planning"; "workflow"; "orchestration"].

Definition production_keywords : list string :=
  ["production"; "deployment"; "real-world"; "implementation";
   "case study"; "benchmark"; "framework"; "sdk"; "api";
   "tool"; "application"; "system"; "platform"].

Definition ai_keywords : list string :=
  ["llm"; "large language model"; "gpt"; "claude"; "gemini";
   "ai"; "artificial intelligence"; "neural"; "transformer"].

Definition dev_keywords : list string :=
  ["developer"; "coding"; "programming"; "software";
   "engineering"; "code"; "github"].

Definition theory_only : list string :=
  ["theoretical"; "mathematical proof"; "convergence analysis";
   "formal verification"; "complexity bounds"].

Definition breakthrough_keywords : list string :=
  ["breakthrough"; "novel"; "first"; "new benchmark";
   "state-of-the-art"; "sota"; "outperforms"].

(** The first lines of [score_article] and of [categorize_article]:
    the combined text and the lower-cased url. *)
Definition read_fields (a : article) : result (string * string) :=
  let* title := py_lower (get a "title" (PStr "")) in
  let* description := py_lower (get a "description" (PStr "")) in
  let* url := py_lower (get a "url" (PStr "")) in
  Ok (title +:+ " " +:+ description, url).

(** The body of [score_article] after the fields are read.  A loop
    [for keyword in l: if keyword in combined: score += n; break] adds
    [n] once when some keyword occurs. *)
Definition score_text (combined url : string) : Z :=
  let score := 0 in
  let score :=
    if any_match high_value combined then score + 20 else score in
  let score :=
    if any_match production_keywords combined then score + 15 else score in
  let score :=
    if any_match ai_keywords combined then score + 20 else score in
  let score :=
    if any_match dev_keywords combined then score + 10 else score in
  let score :=
    if negb (str_contains "arxiv.org" url) then score + 10 else score in
  let score :=
    if str_contains "arxiv.org" url then
      if any_match theory_only combined then score - 20 else score
    else score in
  let score :=
    if str_contains "arxiv.org" url then
      if any_match breakthrough_keywords combined then score + 15 else score
    else score in
  Z.max 0 (Z.min 100 score).

Definition score_article (a : article) : result Z :=
  let* (combined, url) := read_fields a in
  Ok (score_text combined url).

(** The four lists [categorize_article] writes in place. *)
Definition production_indicators : list string :=
  ["production"; "deployment"; "real-world"; "case study";
   "implementation"].
Definition framework_indicators : list string :=
  ["framework"; "sdk"; "tool"; "library"; "api"; "platform"].
Definition resource_indicators : list string :=
  ["tutorial"; "guide"; "how to"; "documentation"; "example"].
Definition analysis_indicators : list string :=
  ["trend"; "analysis"; "survey"; "benchmark"; "evaluation"].

(** Priority order matters! *)
Definition categorize_text (combined : string) : string :=
  if any_match production_indicators combined
  then "Production Use Cases"
  else if any_match framework_indicators combined
  then "Frameworks & Tools"
  else if any_match resource_indicators combined
  then "Developer Resources"
  else if any_match analysis_indicators combined
  then "Trends & Analysis"
  else "Research & Breakthroughs".

(** [categorize_article] reads the url and does not use it. *)
Definition categorize_article (a : article) : result string :=
  let* (combined, url) := read_fields a in
  Ok (categorize_text combined).

(** The scoring loop of [main]: a kept article is the input dictionary
    with the keys [relevance_score] and [category] set. *)
Fixpoint score_loop (articles : list article) : result (list article) :=
  match articles with
  | [] => Ok []
  | a :: rest =>
      let* score := score_article a in
      if 60 <=? score then
        let a := <["relevance_score" := PInt score]> a in
        let* category := categorize_article a in
        let a := <["category" := PStr category]> a in
        let* scored_articles := score_loop rest in
        Ok (a :: scored_articles)
      else score_loop rest
  end.

(** The sort key [x['relevance_score']]: [score_loop] stores an [int]
    under that key in every article it keeps. *)
Definition relevance_score (x : article) : Z :=
  match x !! "relevance_score" with
  | Some (PInt z) => z
  | _ => 0
  end.

Definition max_arxiv : nat := 3.
Definition max_selected : nat := 15.

(** The selection loop of [main], from the state ([selected_articles],
    [category_counts], [arxiv_count]) it has reached.  [main] has stored
    a string under [category] in every article of [scored_articles];
    the counts are kept for string categories only. *)
Fixpoint select_loop (selected_articles : list article)
    (category_counts : gmap string Z) (arxiv_count : nat)
    (scored_articles : list article)
  : result (list article * gmap string Z) :=
  match scored_articles with
  | [] => Ok (selected_articles, category_counts)
  | a :: rest =>
      if (max_selected <=? length selected_articles)%nat
      then Ok (selected_articles, category_counts)
      else
        (* the end of the loop body, once the article is accepted *)
        let accept arxiv_count :=
          let selected_articles := selected_articles ++ [a] in
          match a !! "category" with
          | Some (PStr category) =>
              let category_counts :=
                <[category := default 0 (category_counts !! category) + 1]>
                  category_counts in
              select_loop selected_articles category_counts arxiv_count rest
          | Some _ => Raise TypeError
          | None => Raise KeyError
          end in
        let* is_arxiv := py_in "arxiv.org" (get a "url" (PStr "")) in
        if is_arxiv then
          if (max_arxiv <=? arxiv_count)%nat
          then select_loop selected_articles category_counts arxiv_count rest
          else accept (S arxiv_count)
        else accept arxiv_count
  end.

(** What [main] writes to [filtered_articles.json] (the date apart). *)
Record output : Type := Output {
  total_scored : nat;
  selected_count : nat;
  category_distribution : gmap string Z;
  articles : list article
}.

(** [main] up to the [json.dump]: the contents of the file. *)
Definition written (collected : list article) : result output :=
  let* scored_articles := score_loop collected in
  let scored_articles := sort_desc relevance_score Z.ltb scored_articles in
  let* (selected_articles, category_counts) :=
    select_loop [] ∅ 0 scored_articles in
  Ok (Output (length scored_articles) (length selected_articles)
             category_counts selected_articles).

(** The report [main] prints once the file is written, over
    [selected_articles[:10]]: it indexes the article with
    ['relevance_score'], ['title'], ['category'] and ['url'] and cuts the
    title at 80 characters.  What is printed is left out; the exceptions
    are kept. *)
Fixpoint report (top : list article) : result unit :=
  match top with
  | [] => Ok tt
  | a :: rest =>
      let* _ := py_getitem a "relevance_score" in
      let* title := py_getitem a "title" in
      let* _ := py_slice_to 80 title in
      let* _ := py_getitem a "category" in
      let* _ := py_getitem a "url" in
      report rest
  end.

Definition main (collected : list article) : run output :=
  match written collected with
  | Raise e => Run None (Raise e)
  | Ok out => Run (Some out) (report (take 10 (articles out)))
  end.
End Script.
End FilterAndGenerate.

(** ** [src/collect_articles.py] *)

Module CollectArticles.

(** The library calls of the collector.  A feed entry is modelled as a
    plain dictionary. *)
Class FeedRuntime : Type := {
  (** [datetime.fromtimestamp(time.mktime(st), tz=timezone.utc)], as an
      instant *)
  mktime : pyval -> result Z;
  (** [dateutil.parser.parse] *)
  date_parse : pyval -> result datetime;
  (** [datetime.isoformat] *)
  isoformat : datetime -> string
}.

Section Script.
Context {FR : FeedRuntime}.

(** What [feedparser.parse] returns for a feed url. *)
Record parsed_feed : Type := ParsedFeed {
  bozo : bool;
  feed : article;
  entries : list article
}.

Definition date_fields : list string := ["published"; "updated"; "created"].

(** The body of the [try] in [parse_published_date] for a [field] that
    is in the entry. *)
Definition parse_field (entry : article) (field : string) (raw : pyval)
  : result datetime :=
  let parsed_field := field +:+ "_parsed" in
  match entry !! parsed_field with
  | Some st =>
      if truthy st then
        let* instant := mktime st in Ok (Aware instant 0)
      else
        let* dt := date_parse raw in
        Ok (match dt with Naive wall => Aware wall 0 | _ => dt end)
  | None =>
      let* dt := date_parse raw in
      Ok (match dt with Naive wall => Aware wall 0 | _ => dt end)
  end.

Fixpoint parse_fields (entry : article) (fields : list string)
  : option datetime :=
  match fields with
  | [] => None
  | field :: rest =>
      match entry !! field with
      | Some raw =>
          match parse_field entry field raw with
          | Ok dt => Some dt
          | Raise _ => parse_fields entry rest
          end
      | None => parse_fields entry rest
      end
  end.

Definition parse_published_date (entry : article) : option datetime :=
  parse_fields entry date_fields.

(** [tag.term] *)
Definition tag_term (tag : pyval) : result pyval :=
  match tag with
  | PDict kvs =>
      match List.find (fun kv => String.eqb (fst kv) "term") kvs with
      | Some kv => Ok (snd kv)
      | None => Raise AttributeError
      end
  | _ => Raise AttributeError
  end.

Fixpoint tag_terms (tags : list pyval) : result (list pyval) :=
  match tags with
  | [] => Ok []
  | tag :: rest =>
      let* term := tag_term tag in
      let* terms := tag_terms rest in
      Ok (term :: terms)
  end.

(** [[tag.term for tag in tags]] *)
Definition terms_of (tags : pyval) : result (list pyval) :=
  match tags with
  | PList l => tag_terms l
  | PDict kvs => tag_terms (map (fun kv => PStr (fst kv)) kvs)
  | PStr s => if String.eqb s "" then Ok [] else Raise AttributeError
  | _ => Raise TypeError
  end.

(** [article['title'][:60]] in the progress message needs a sequence;
    it raises [TypeError] otherwise. *)
Definition sliceable (title : pyval) : bool :=
  match title with
  | PStr _ | PList _ => true
  | _ => false
  end.

(** One turn of the loop over [feed.entries], up to the [append]:
    [None] is the [continue] of an entry older than the cutoff. *)
Definition fetch_entry (feed_url : string) (parsed : parsed_feed)
    (cutoff_time : Z) (entry : article) : result (option article) :=
  let pub_date := parse_published_date entry in
  let build (date_verified : bool) (pub_date_str : string) :=
    let* tags := terms_of (get entry "tags" (PList [])) in
    let a : article :=
      <["title" := get entry "title" (PStr "No Title")]> $
      <["url" := get entry "link" (PStr "")]> $
      <["published" := PStr pub_date_str]> $
      <["date_verified" := PBool date_verified]> $
      <["description" :=
          get entry "summary" (get entry "description" (PStr ""))]> $
      <["source" := get (feed parsed) "title" (PStr feed_url)]> $
      <["source_url" := PStr feed_url]> $
      <["author" := get entry "author" (PStr "")]> $
      <["tags" := PList tags]> ∅ in
    Ok (Some a) in
  match pub_date with
  | None =>
      (* Still include it, but flag it *)
      build false "Unknown"
  | Some (Naive _) => Raise TypeError
  | Some (Aware instant offset) =>
      if instant <? cutoff_time then Ok None
      else build true (isoformat (Aware instant offset))
  end.

(** The loop of [fetch_articles]: an exception ends it and the articles
    appended so far are returned.  The progress message is printed after
    the [append]. *)
Fixpoint fetch_loop (feed_url : string) (parsed : parsed_feed)
    (cutoff_time : Z) (articles : list article) (todo : list article)
  : list article :=
  match todo with
  | [] => articles
  | entry :: rest =>
      match fetch_entry feed_url parsed cutoff_time entry with
      | Ok (Some a) =>
          if sliceable (get a "title" PNone)
          then fetch_loop feed_url parsed cutoff_time (articles ++ [a]) rest
          else articles ++ [a]
      | Ok None => fetch_loop feed_url parsed cutoff_time articles rest
      | Raise _ => articles
      end
  end.

(** [fetch_articles(feed_url, cutoff_time)]; [fetched] is the outcome of
    [feedparser.parse(feed_url)]. *)
Definition fetch_articles (feed_url : string) (fetched : result parsed_feed)
    (cutoff_time : Z) : list article :=
  match fetched with
  | Ok parsed => fetch_loop feed_url parsed cutoff_time [] (entries parsed)
  | Raise _ => []
  end.

(** The key of the final sort. *)
Definition published_key (x : article) : string :=
  match x !! "published" with
  | Some (PStr s) => if String.eqb s "Unknown" then "" else s
  | _ => ""
  end.

(** What [collect_articles] writes (the time stamps apart). *)
Record output : Type := Output {
  out_hours : Z;
  total_articles : nat;
  articles : list article
}.

(** [collect_articles(hours, config_path, output_path)] at the instant
    [now]; [feeds] lists the configured urls with what the network
    returns for each. *)
Definition collect_articles (now : Z) (hours : Z)
    (feeds : list (string * result parsed_feed)) : result output :=
  let* cutoff_time := cutoff_time now hours in
  let all_articles :=
    concat (map (fun f => fetch_articles (fst f) (snd f) cutoff_time)
                feeds) in
  let all_articles := sort_desc published_key String.ltb all_articles in
  Ok (Output hours (length all_articles) all_articles).

(** [main]: [--hours] was converted by [int]; its default is 24. *)
Definition main (now : Z) (hours : option Z)
    (feeds : list (string * result parsed_feed)) : result output :=
  collect_articles now (default 24 hours) feeds.
End Script.
End CollectArticles.

(** ** The reports of [main]

    The grouping by category that [main] of analyze_articles.py builds in
    its limit loop and prints, and the counts that [main] of
    analyze_today.py computes from its selection and prints. *)

Module Reports.
Section Script.
Context {RT : Runtime}.

(** The limit loop of analyze_articles.py with the grouping
    [by_category], from the state ([by_category], [filtered_articles],
    [arxiv_count]) it has reached. *)
Fixpoint group_loop (by_category : gmap string (list AnalyzeArticles.item))
    (filtered_articles : list AnalyzeArticles.item) (arxiv_count : nat)
    (scored_articles : list AnalyzeArticles.item)
  : result (gmap string (list AnalyzeArticles.item)
            * list AnalyzeArticles.item) :=
  match scored_articles with
  | [] => Ok (by_category, filtered_articles)
  | it :: rest =>
      let a := AnalyzeArticles.it_article it in
      let link := get a "link" (get a "url" (PStr "")) in
      (* the end of the loop body, once the item is accepted *)
      let accept arxiv_count :=
        let category := AnalyzeArticles.it_category it in
        let by_category :=
          match by_category !! category with
          | Some _ => by_category
          | None => <[category := []]> by_category
          end in
        let by_category :=
          <[category := default [] (by_category !! category) ++ [it]]>
            by_category in
        group_loop by_category (filtered_articles ++ [it]) arxiv_count rest in
      let* is_arxiv := py_in "arxiv.org" link in
      if is_arxiv then
        if (AnalyzeArticles.arxiv_limit <=? arxiv_count)%nat
        then group_loop by_category filtered_articles arxiv_count rest
        else accept (S arxiv_count)
      else accept arxiv_count
  end.

Definition category_order : list string :=
  ["Production Use Cases"; "Frameworks & Tools"; "Developer Resources";
   "Trends & Analysis"; "Research & Breakthroughs"].

(** The printed category breakdown: a line for each category of
    [category_order] that is in [by_category], with the length of its
    list. *)
Definition category_breakdown
    (by_category : gmap string (list AnalyzeArticles.item))
  : list (string * nat) :=
  omap (fun category =>
          match by_category !! category with
          | Some items => Some (category, length items)
          | None => None
          end) category_order.

(** The printed top articles: for each category of [category_order] that
    is in [by_category], the first five of its list ([items[:5]]). *)
Definition top_articles
    (by_category : gmap string (list AnalyzeArticles.item))
  : list (string * list AnalyzeArticles.item) :=
  omap (fun category =>
          match by_category !! category with
          | Some items => Some (category, take 5 items)
          | None => None
          end) category_order.

(** [category_counts] of analyze_today.py: the loop over [selected] after
    the selection. *)
Definition category_counts (selected : list AnalyzeToday.item)
  : gmap string Z :=
  fold_left
    (fun counts item =>
       let cat := AnalyzeToday.it_category item in
       <[cat := default 0 (counts !! cat) + 1]> counts)
    selected ∅.
End Script.
End Reports.

(** ** A reference runtime

    The scripts are evaluated on concrete inputs with a runtime for ASCII
    text: [ascii_lower] folds the letters A to Z, [simple_repr] covers
    [None], the booleans and the integers, and [utc_fromisoformat] reads
    [YYYY-MM-DDTHH:MM:SS] and [YYYY-MM-DDTHH:MM:SS+00:00], the second being
    what [isoformat] prints for a UTC datetime without microseconds. *)

Module Reference.

Definition lower_ascii (c : ascii) : ascii :=
  let n := nat_of_ascii c in
  if ((65 <=? n) && (n <=? 90))%nat then ascii_of_nat (n + 32) else c.

Fixpoint ascii_lower (s : string) : string :=
  match s with
  | EmptyString => EmptyString
  | String c rest => String (lower_ascii c) (ascii_lower rest)
  end.

Definition simple_repr (v : pyval) : string :=
  match v with
  | PNone => "None"
  | PBool true => "True"
  | PBool false => "False"
  | PInt z => pretty z
  | PStr s => "'" +:+ s +:+ "'"
  | _ => "<object>"
  end.

Definition digit (c : ascii) : option Z :=
  let n := Z.of_nat (nat_of_ascii c) in
  if (48 <=? n) && (n <=? 57) then Some (n - 48) else None.

(** The number written by a string of decimal digits. *)
Fixpoint digits (acc : Z) (s : list ascii) : option Z :=
  match s with
  | [] => Some acc
  | c :: rest =>
      match digit c with
      | Some d => digits (10 * acc + d) rest
      | None => None
      end
  end.

(** Days from 1970-01-01 to the civil date [y]-[m]-[d]. *)
Definition days_from_civil (y m d : Z) : Z :=
  let y := if m <=? 2 then y - 1 else y in
  let era := y / 400 in
  let yoe := y - era * 400 in
  let doy := (153 * (if 2 <? m then m - 3 else m + 9) + 2) / 5 + d - 1 in
  let doe := yoe * 365 + yoe / 4 - yoe / 100 + doy in
  era * 146097 + doe - 719468.

Definition days_in_month (y m : Z) : Z :=
  if m =? 2 then
    if ((y mod 4 =? 0) && negb (y mod 100 =? 0)) || (y mod 400 =? 0)
    then 29 else 28
  else if (m =? 4) || (m =? 6) || (m =? 9) || (m =? 11) then 30
  else 31.

Definition wall_clock (y mo d h mi sec : Z) : option Z :=
  if (1 <=? y) && (1 <=? mo) && (mo <=? 12) && (1 <=? d)
     && (d <=? days_in_month y mo) && (h <=? 23) && (mi <=? 59)
     && (sec <=? 59)
  then Some ((days_from_civil y mo d * 86400 + h * 3600 + mi * 60 + sec)
             * 1000000)
  else None.

Definition utc_fromisoformat (s : string) : option datetime :=
  match list_ascii_of_string s with
  | y1 :: y2 :: y3 :: y4 :: "-"%char :: m1 :: m2 :: "-"%char :: d1 :: d2
    :: "T"%char :: h1 :: h2 :: ":"%char :: i1 :: i2 :: ":"%char :: s1 :: s2
    :: zone =>
      y ← digits 0 [y1; y2; y3; y4];
      mo ← digits 0 [m1; m2];
      d ← digits 0 [d1; d2];
      h ← digits 0 [h1; h2];
      mi ← digits 0 [i1; i2];
      sec ← digits 0 [s1; s2];
      wall ← wall_clock y mo d h mi sec;
      if String.eqb (string_of_list_ascii zone) "" then Some (Naive wall)
      else if String.eqb (string_of_list_ascii zone) "+00:00"
      then Some (Aware wall 0)
      else None
  | _ => None
  end.

Definition runtime : Runtime :=
  Build_Runtime ascii_lower simple_repr utc_fromisoformat.

(** The collector's library calls, for a machine whose zone is UTC:
    a [struct_time] is the list of its fields, [date_parse] reads the
    formats of [utc_fromisoformat], and [isoformat] prints a datetime
    whose microseconds are zero. *)
Definition mktime (st : pyval) : result Z :=
  match st with
  | PList (PInt y :: PInt mo :: PInt d :: PInt h :: PInt mi :: PInt sec
           :: _) =>
      match wall_clock y mo d h mi sec with
      | Some instant => Ok instant
      | None => Raise OverflowError
      end
  | _ => Raise TypeError
  end.

Definition date_parse (raw : pyval) : result datetime :=
  match raw with
  | PStr s =>
      match utc_fromisoformat s with
      | Some dt => Ok dt
      | None => Raise ValueError
      end
  | _ => Raise TypeError
  end.

(** The civil date of a number of days since 1970-01-01. *)
Definition civil_from_days (z : Z) : Z * Z * Z :=
  let z := z + 719468 in
  let era := z / 146097 in
  let doe := z - era * 146097 in
  let yoe := (doe - doe / 1460 + doe / 36524 - doe / 146096) / 365 in
  let doy := doe - (365 * yoe + yoe / 4 - yoe / 100) in
  let mp := (5 * doy + 2) / 153 in
  let d := doy - (153 * mp + 2) / 5 + 1 in
  let m := if mp <? 10 then mp + 3 else mp - 9 in
  (yoe + era * 400 + (if m <=? 2 then 1 else 0), m, d).

(** [z] in decimal, padded with zeros to [width] digits. *)
Definition pad (width : nat) (z : Z) : string :=
  let digits := pretty z in
  String.concat "" (replicate (width - String.length digits) "0")
  +:+ digits.

Definition format_wall (wall : Z) : string :=
  let seconds := wall / 1000000 in
  let '(y, m, d) := civil_from_days (seconds / 86400) in
  let rest := seconds mod 86400 in
  pad 4 y +:+ "-" +:+ pad 2 m +:+ "-" +:+ pad 2 d +:+ "T"
  +:+ pad 2 (rest / 3600) +:+ ":" +:+ pad 2 (rest mod 3600 / 60) +:+ ":"
  +:+ pad 2 (rest mod 60).

Definition isoformat (dt : datetime) : string :=
  match dt with
  | Naive wall => format_wall wall
  | Aware instant offset =>
      let minutes := Z.abs offset / 60000000 in
      format_wall (instant + offset)
      +:+ (if offset <? 0 then "-" else "+")
      +:+ pad 2 (minutes / 60) +:+ ":" +:+ pad 2 (minutes mod 60)
  end.

Definition feed_runtime : CollectArticles.FeedRuntime :=
  CollectArticles.Build_FeedRuntime mktime date_parse isoformat.
End Reference.

(** ** Sample inputs *)

Module Samples.
(** 2024-05-02T12:00:00 UTC, in microseconds. *)
Definition noon : Z := 1714651200000000.

(** A clock that stands still at [noon]. *)
Definition clock : nat -> Z := fun _ => noon.

(** A feed entry that carries no date. *)
Definition undated_entry : article :=
  <["title" := PStr "Agentic workflow in production deployment"]> $
  <["link" := PStr "https://example.com/blog/agents"]> $
  <["summary" := PStr "How one team runs it."]> ∅.

(** A feed entry dated six hours before [noon]. *)
Definition dated_entry : article :=
  <["title" := PStr "Agentic workflow in production deployment"]> $
  <["link" := PStr "https://example.com/blog/agents"]> $
  <["summary" := PStr "How one team runs it."]> $
  <["published" := PStr "2024-05-02T06:00:00+00:00"]> ∅.

Definition blog_feed (entries : list article) : CollectArticles.parsed_feed :=
  CollectArticles.ParsedFeed false (<["title" := PStr "Example Blog"]> ∅)
                             entries.

Definition feeds (entries : list article)
  : list (string * result CollectArticles.parsed_feed) :=
  [("https://example.com/feed.xml", Ok (blog_feed entries))].

(** What the collector writes for [undated_entry]. *)
Definition unverified_article : article :=
  <["title" := PStr "Agentic workflow in production deployment"]> $
  <["url" := PStr "https://example.com/blog/agents"]> $
  <["published" := PStr "Unknown"]> $
  <["date_verified" := PBool false]> $
  <["description" := PStr "How one team runs it."]> $
  <["source" := PStr "Example Blog"]> $
  <["source_url" := PStr "https://example.com/feed.xml"]> $
  <["author" := PStr ""]> $
  <["tags" := PList []]> ∅.

(** What the collector writes for [dated_entry]. *)
Definition verified_article : article :=
  <["published" := PStr "2024-05-02T06:00:00+00:00"]> $
  <["date_verified" := PBool true]> unverified_article.

(** An industry article without any agent keyword. *)
Definition enterprise_article : article :=
  <["title" := PStr "Enterprise LLM deployment for developers"]> $
  <["description" := PStr ""]> $
  <["url" := PStr "https://example.com/enterprise"]> ∅.

(** An arXiv paper without any agent keyword. *)
Definition novel_paper : article :=
  <["title" := PStr "Novel LLM deployment code"]> $
  <["description" := PStr ""]> $
  <["url" := PStr "https://arxiv.org/abs/2401.00001"]> ∅.

(** An arXiv paper whose only keyword is [agent]. *)
Definition agent_paper : article :=
  <["title" := PStr "agent"]> $
  <["link" := PStr "https://arxiv.org/abs/1"]> ∅.

(** An arXiv paper about a framework. *)
Definition framework_paper : article :=
  <["title" := PStr "A framework for agents"]> $
  <["description" := PStr ""]> $
  <["link" := PStr "https://arxiv.org/abs/2401.00002"]> $
  <["url" := PStr "https://arxiv.org/abs/2401.00002"]> ∅.

(** A strong arXiv paper and a strong industry article, both recent at
    [noon]; [n] tells the copies apart. *)
Definition paper (n : Z) : article :=
  <["title" := PStr "Agentic workflow planning framework for LLM code"]> $
  <["description" := PStr "Used in production."]> $
  <["published" := PStr "2024-05-02T06:00:00+00:00"]> $
  <["author" := PInt n]> $
  <["link" := PStr "https://arxiv.org/abs/2401.00003"]> $
  <["url" := PStr "https://arxiv.org/abs/2401.00003"]> ∅.

Definition post (n : Z) : article :=
  <["title" := PStr "Agentic workflow planning in production"]> $
  <["description" := PStr "LLM code."]> $
  <["published" := PStr "2024-05-02T06:00:00+00:00"]> $
  <["author" := PInt n]> $
  <["link" := PStr "https://example.com/post"]> $
  <["url" := PStr "https://example.com/post"]> ∅.

Definition five_papers_one_post : list article :=
  [paper 1; paper 2; paper 3; paper 4; paper 5; post 6].

(** [paper n] under the url that spells the host as arXiv does. *)
Definition arXiv_paper (n : Z) : article :=
  <["url" := PStr "https://arXiv.org/abs/2401.00003"]> (paper n).

Definition five_arXiv_papers : list article :=
  [arXiv_paper 1; arXiv_paper 2; arXiv_paper 3; arXiv_paper 4;
   arXiv_paper 5].

Definition sixteen_posts : list article :=
  map (fun n => post (Z.of_nat n)) (seq 1 16).

End Samples.

(** * Vocabulary of the properties *)

(** Dictionaries that agree on the keys a function reads. *)

Definition agree_on (keys : list string) (a b : article) : Prop :=
  forall k, k ∈ keys -> a !! k = b !! k.

(** The five category labels. *)
Definition categories : list string :=
  ["Production Use Cases"; "Frameworks & Tools"; "Developer Resources";
   "Trends & Analysis"; "Research & Breakthroughs"].

(** An ordered rule cascade: the label of the first rule that fired, or
    the default. *)
Fixpoint first_match (rules : list (string * bool)) (dflt : string)
  : string :=
  match rules with
  | [] => dflt
  | (label, fired) :: rest => if fired then label else first_match rest dflt
  end.

Section Orders.
Context {A : Type} (key : A -> Z).

(** The order of a list sorted by descending key. *)
Definition desc : relation A := fun x y => key y <= key x.

(** The elements of one key, in the order of the list. *)
Definition with_key (k : Z) (l : list A) : list A :=
  List.filter (fun x => key x =? k) l.
End Orders.

Section Counting.
Context {A : Type} (p : A -> bool).

(** The number of elements of [l] in [p]. *)
Definition count_of (l : list A) : nat := length (List.filter p l).
End Counting.

(** The arXiv penalty of [analyze_articles.py] on the integer score [z]
    is a [float] below 60 that the two [min] leave as it is. *)
Definition penalty_check (z : Z) : bool :=
  let f := py_mul_float z float_0_3 in
  negb (PrimFloat.ltb (float_of_Z 40) f)
  && negb (PrimFloat.ltb (float_of_Z 100) f)
  && negb (PrimFloat.leb (float_of_Z 60) f).

Section AnalyzeArticlesVocabulary.
Context {RT : Runtime}.
Import AnalyzeArticles.

(** The keys [score_article] and [categorize_article] read. *)
Definition A_keys : list string :=
  ["title"; "summary"; "description"; "link"; "url"].

(** The test of the limit loop on an item. *)
Definition A_is_arxiv (it : item) : bool :=
  let a := it_article it in
  try_except
    (py_in "arxiv.org" (get a "link" (get a "url" (PStr "")))) false.

(** The integer a score stands for. *)
Definition A_score_Z (it : item) : Z :=
  match it_score it with
  | NInt z => z
  | NFloat _ => 0
  end.

(** The integer total of [score_content] before the arXiv adjustment. *)
Definition A_raw_score (content : string) : Z :=
  let agent_matches := count_matches agent_keywords content in
  let production_matches := count_matches production_keywords content in
  let framework_matches := count_matches framework_keywords content in
  Z.min (agent_matches * 15) 40
  + (if 0 <? production_matches then Z.min (production_matches * 20) 50
     else 0)
  + (if 0 <? framework_matches then Z.min (framework_matches * 10) 30
     else 0).

(** The records [score_article] accepts. *)
Definition A_well_typed (a : article) : Prop :=
  exists title summary is_arxiv,
    get a "title" (PStr "") = PStr title
    /\ get a "summary" (get a "description" (PStr "")) = PStr summary
    /\ py_in "arxiv.org" (get a "link" (get a "url" (PStr "")))
       = Ok is_arxiv.

(** What the scoring loop keeps. *)
Definition A_scored_item (it : item) : Prop :=
  score_article (it_article it) = Ok (it_score it, it_reason it)
  /\ py_geb (it_score it) (NInt 60) = true
  /\ categorize_article (it_article it) (it_score it) = Ok (it_category it).
End AnalyzeArticlesVocabulary.

Section ScorerVocabulary.
Context {RT : Runtime}.

(** The arXiv test of the scorers of analyze_today.py and
    filter_and_generate.py: [arxiv.org] in the lower-cased url. *)
Definition scored_as_arxiv (a : article) : bool :=
  try_except
    (let* url := py_lower (get a "url" (PStr "")) in
     Ok (str_contains "arxiv.org" url))
    false.
End ScorerVocabulary.

Section AnalyzeTodayVocabulary.
Context {RT : Runtime}.
Import AnalyzeToday.

(** The test of the selection loop on an item. *)
Definition T_is_arxiv (it : item) : bool :=
  try_except (py_in "arxiv.org" (get (it_article it) "url" (PStr ""))) false.

(** The records [score_article] accepts. *)
Definition T_well_typed (a : article) : Prop :=
  exists title url,
    get a "title" (PStr "") = PStr title /\ get a "url" (PStr "") = PStr url.

(** What the scoring loop keeps. *)
Definition T_scored_item (it : item) : Prop :=
  score_article (it_article it) = Ok (it_score it)
  /\ 60 <= it_score it
  /\ categorize_article (it_article it) = Ok (it_category it).
End AnalyzeTodayVocabulary.

Section FilterAndGenerateVocabulary.
Context {RT : Runtime}.
Import FilterAndGenerate.

(** The keys [score_article] and [categorize_article] read. *)
Definition F_keys : list string := ["title"; "description"; "url"].

(** The test of the selection loop on an article. *)
Definition F_is_arxiv (a : article) : bool :=
  try_except (py_in "arxiv.org" (get a "url" (PStr ""))) false.

(** The records [score_article] accepts. *)
Definition F_well_typed (a : article) : Prop :=
  exists title description url,
    get a "title" (PStr "") = PStr title
    /\ get a "description" (PStr "") = PStr description
    /\ get a "url" (PStr "") = PStr url.

(** The article [main] appends to [scored_articles] for the input [a]. *)
Definition F_scored_from (a x : article) : Prop :=
  exists score cat,
    score_article a = Ok score
    /\ 60 <= score
    /\ categorize_article a = Ok cat
    /\ x = <["category" := PStr cat]> (<["relevance_score" := PInt score]> a).
End FilterAndGenerateVocabulary.

(** Whether [main] of filter_and_generate.py stored the category [cat] in
    the article [x]. *)
Definition has_category (cat : string) (x : article) : bool :=
  match x !! "category" with
  | Some (PStr c) => String.eqb c cat
  | _ => false
  end.

(** Whether the collector's sort puts the article [x] under the empty
    key, as it does for an article without a verified date. *)
Definition undated (x : article) : bool :=
  String.eqb (CollectArticles.published_key x) "".

(** The nine keys of an article the collector writes. *)
Definition collected_keys : list string :=
  ["title"; "url"; "published"; "date_verified"; "description"; "source";
   "source_url"; "author"; "tags"].

Section CollectorVocabulary.
Context {FR : CollectArticles.FeedRuntime}.
Import CollectArticles.

(** The invariant of the articles the collector writes. *)
Definition collected_ok (feed_url : string) (cutoff : Z) (a : article)
  : Prop :=
  dom a = list_to_set collected_keys
  /\ a !! "source_url" = Some (PStr feed_url)
  /\ ((a !! "date_verified" = Some (PBool false)
       /\ a !! "published" = Some (PStr "Unknown"))
      \/ (exists instant offset,
            a !! "date_verified" = Some (PBool true)
            /\ a !! "published"
               = Some (PStr (isoformat (Aware instant offset)))
            /\ cutoff <= instant)).

End CollectorVocabulary.

(** Whether an item of analyze_articles.py, resp. analyze_today.py, is in
    the category [cat]. *)
Definition A_in_category (cat : string) (it : AnalyzeArticles.item) : bool :=
  String.eqb (AnalyzeArticles.it_category it) cat.

Definition T_in_category (cat : string) (it : AnalyzeToday.item) : bool :=
  String.eqb (AnalyzeToday.it_category it) cat.

(** The sum of a list of integers. *)
Definition sum_list (l : list Z) : Z := foldr Z.add 0 l.


(** * Properties *)

(** ** Exceptions *)

Lemma bind_Ok {A B} (r : result A) (k : A -> result B) (b : B) :
  bind r k = Ok b -> exists a, r = Ok a /\ k a = Ok b.
Proof.
  destruct r as [a|e]; simpl; [|discriminate].
  intros Hk. exists a. split; [reflexivity|exact Hk].
Qed.

(** Decompose a successful run into its successful steps. *)
Ltac inv_bind H :=
  let x := fresh "x" in
  let Hx := fresh "Hx" in
  apply bind_Ok in H; destruct H as (x & Hx & H).

(** A run on a sample is evaluated once.  [Hfact] is a [match] on the run
    that is [False] when it raises: [name_run] names the result [out],
    with the equation [Hrun] of the run, and leaves in [Hfact] the fact
    about [out]. *)
Ltac name_run Hfact out Hrun :=
  match type of Hfact with
  | match ?run with Ok _ => _ | Raise _ => False end =>
      let r := fresh "r" in
      remember run as r eqn:Hrun; symmetry in Hrun;
      destruct r as [out|]; [|contradiction]
  end.

Tactic Notation "evaluated" constr(fact) "as" ident(out)
    "from" ident(Hrun) "by" ident(Hfact) :=
  assert (Hfact : fact)
    by (vm_compute; repeat split; first [reflexivity | lia]);
  name_run Hfact out Hrun.

(** ** The stable descending sort *)

Section SortFacts.
Context {A K : Type} (key : A -> K) (ltb : K -> K -> bool).

Lemma insert_desc_perm (x : A) (l : list A) :
  insert_desc key ltb x l ≡ₚ x :: l.
Proof.
  induction l as [|y l IH]; simpl; [reflexivity|].
  destruct (ltb (key x) (key y)); [|reflexivity].
  rewrite IH. apply Permutation_swap.
Qed.

Lemma sort_desc_perm (l : list A) : sort_desc key ltb l ≡ₚ l.
Proof.
  induction l as [|x l IH]; simpl; [reflexivity|].
  rewrite insert_desc_perm. by rewrite IH.
Qed.

Lemma sort_desc_elem_of (x : A) (l : list A) :
  x ∈ sort_desc key ltb l <-> x ∈ l.
Proof. by rewrite sort_desc_perm. Qed.

Lemma sort_desc_length (l : list A) :
  length (sort_desc key ltb l) = length l.
Proof. by rewrite sort_desc_perm. Qed.

(** Sorting only looks at the comparisons between keys of the list. *)
Lemma insert_desc_ext {K'} (key' : A -> K') (ltb' : K' -> K' -> bool)
    (x : A) (l : list A) :
  (forall y, y ∈ l -> ltb (key x) (key y) = ltb' (key' x) (key' y)) ->
  insert_desc key ltb x l = insert_desc key' ltb' x l.
Proof.
  induction l as [|y l IH]; simpl; intros Hext; [reflexivity|].
  rewrite <- (Hext y) by left.
  destruct (ltb (key x) (key y)); [|reflexivity].
  f_equal. apply IH. intros z Hz. apply Hext. by right.
Qed.

Lemma sort_desc_ext {K'} (key' : A -> K') (ltb' : K' -> K' -> bool)
    (l : list A) :
  (forall x y, x ∈ l -> y ∈ l ->
     ltb (key x) (key y) = ltb' (key' x) (key' y)) ->
  sort_desc key ltb l = sort_desc key' ltb' l.
Proof.
  induction l as [|x l IH]; simpl; intros Hext; [reflexivity|].
  rewrite <- IH by (intros; apply Hext; by right).
  apply insert_desc_ext. intros y Hy. apply Hext; [by left|].
  right. by apply (proj1 (sort_desc_elem_of y l)).
Qed.
End SortFacts.

Section SortZ.
Context {A : Type} (key : A -> Z).

#[local] Instance desc_trans : Transitive (desc key).
Proof. unfold desc. intros x y z ? ?. lia. Qed.

Lemma insert_desc_sorted (x : A) (l : list A) :
  Sorted (desc key) l -> Sorted (desc key) (insert_desc key Z.ltb x l).
Proof.
  induction 1 as [|y l Hl IH Hhd]; simpl.
  - repeat constructor.
  - destruct (Z.ltb_spec (key x) (key y)) as [Hlt|Hge].
    + constructor; [exact IH|].
      destruct Hhd as [|z l Hyz]; simpl.
      * constructor. unfold desc. lia.
      * destruct (Z.ltb_spec (key x) (key z)); constructor;
          unfold desc in *; lia.
    + constructor; [by constructor|]. constructor. unfold desc. lia.
Qed.

Lemma sort_desc_sorted (l : list A) : Sorted (desc key) (sort_desc key Z.ltb l).
Proof.
  induction l as [|x l IH]; simpl; [constructor|].
  by apply insert_desc_sorted.
Qed.

Lemma insert_desc_with_key (k : Z) (x : A) (l : list A) :
  with_key key k (insert_desc key Z.ltb x l) = with_key key k (x :: l).
Proof.
  induction l as [|y l IH]; [reflexivity|].
  cbn [insert_desc].
  destruct (Z.ltb_spec (key x) (key y)) as [Hlt|Hge]; [|reflexivity].
  unfold with_key in *. cbn [List.filter] in *. rewrite IH.
  destruct (Z.eqb_spec (key x) k), (Z.eqb_spec (key y) k);
    try reflexivity; lia.
Qed.

(** Stability: sorting does not reorder the elements of equal key. *)
Lemma sort_desc_stable (k : Z) (l : list A) :
  with_key key k (sort_desc key Z.ltb l) = with_key key k l.
Proof.
  induction l as [|x l IH]; [reflexivity|].
  cbn [sort_desc foldr]. rewrite insert_desc_with_key.
  unfold with_key in *. cbn [List.filter]. fold (sort_desc key Z.ltb l).
  by rewrite IH.
Qed.

Lemma with_key_sublist (k : Z) (l1 l2 : list A) :
  l1 `sublist_of` l2 -> with_key key k l1 `sublist_of` with_key key k l2.
Proof.
  induction 1 as [|x l1 l2 _ IH|x l1 l2 _ IH]; unfold with_key in *;
    cbn [List.filter].
  - constructor.
  - destruct (key x =? k); [by constructor|exact IH].
  - destruct (key x =? k); [by constructor|exact IH].
Qed.

Lemma sorted_sublist (l1 l2 : list A) :
  l1 `sublist_of` l2 -> Sorted (desc key) l2 -> Sorted (desc key) l1.
Proof.
  intros Hsub Hs. apply Sorted_StronglySorted in Hs; [|apply _].
  apply StronglySorted_Sorted.
  induction Hsub as [|x l1 l2 Hsub IH|x l1 l2 Hsub IH].
  - constructor.
  - apply StronglySorted_inv in Hs as [Hs Hall]. constructor; [auto|].
    eapply Forall_impl; [|intros y Hy; exact Hy].
    apply list.Forall_forall. intros y Hy.
    apply (proj1 (list.Forall_forall _ _) Hall).
    by eapply elem_of_sublist.
  - apply StronglySorted_inv in Hs as [Hs _]. auto.
Qed.
End SortZ.

(** ** The capped walk *)

Section CapFacts.
Context {A : Type} (p : A -> bool).

Lemma count_of_app (l1 l2 : list A) :
  count_of p (l1 ++ l2) = (count_of p l1 + count_of p l2)%nat.
Proof. unfold count_of. by rewrite List.filter_app, length_app. Qed.

Lemma count_of_sublist (l1 l2 : list A) :
  l1 `sublist_of` l2 -> (count_of p l1 <= count_of p l2)%nat.
Proof.
  unfold count_of.
  induction 1 as [|x l1 l2 _ IH|x l1 l2 _ IH]; simpl;
    [lia| |]; destruct (p x); simpl; lia.
Qed.

Lemma count_of_perm (l1 l2 : list A) :
  l1 ≡ₚ l2 -> count_of p l1 = count_of p l2.
Proof.
  unfold count_of.
  induction 1 as [|x l1 l2 _ IH|x y l|l1 l2 l3 _ IH1 _ IH2]; simpl.
  - reflexivity.
  - destruct (p x); simpl; lia.
  - destruct (p x), (p y); reflexivity.
  - lia.
Qed.

Lemma cap_filter_sublist (cap count : nat) (l : list A) :
  cap_filter p cap count l `sublist_of` l.
Proof.
  revert count. induction l as [|x l IH]; intros count; simpl.
  - constructor.
  - destruct (p x); [destruct (cap <=? count)%nat|];
      by constructor.
Qed.

(** The walk keeps as many elements of [p] as the cap leaves room for. *)
Lemma cap_filter_count (cap count : nat) (l : list A) :
  count_of p (cap_filter p cap count l)
  = Nat.min (cap - count) (count_of p l).
Proof.
  unfold count_of. revert count.
  induction l as [|x l IH]; intros count; simpl; [lia|].
  destruct (p x) eqn:Hp.
  - destruct (Nat.leb_spec cap count) as [Hle|Hlt]; simpl.
    + rewrite IH. lia.
    + rewrite Hp. simpl. rewrite IH. lia.
  - simpl. rewrite Hp. apply IH.
Qed.

(** An element outside [p] is never skipped. *)
Lemma cap_filter_keeps (cap count : nat) (l : list A) (x : A) :
  x ∈ l -> p x = false -> x ∈ cap_filter p cap count l.
Proof.
  revert count. induction l as [|y l IH]; intros count Hin Hp.
  - by apply elem_of_nil in Hin.
  - apply elem_of_cons in Hin as [->|Hin]; simpl.
    + rewrite Hp. left.
    + destruct (p y); [destruct (cap <=? count)%nat|];
        auto using list_elem_of_further.
Qed.

(** Below the cap nothing is skipped. *)
Lemma cap_filter_all (cap count : nat) (l : list A) :
  (count_of p l + count <= cap)%nat -> cap_filter p cap count l = l.
Proof.
  unfold count_of. revert count.
  induction l as [|x l IH]; intros count Hle; simpl in *; [reflexivity|].
  destruct (p x); simpl in *.
  - destruct (Nat.leb_spec cap count); [lia|].
    f_equal. apply IH. lia.
  - f_equal. by apply IH.
Qed.

(** The walk skips the elements of [p] beyond the cap and nothing
    else. *)
Lemma cap_filter_length (cap count : nat) (l : list A) :
  (length (cap_filter p cap count l) + (count_of p l - (cap - count))
   = length l)%nat.
Proof.
  unfold count_of. revert count.
  induction l as [|x l IH]; intros count; simpl; [lia|].
  destruct (p x) eqn:Hp; simpl.
  - destruct (Nat.leb_spec cap count) as [Hle|Hlt]; simpl.
    + specialize (IH count). lia.
    + specialize (IH (S count)). lia.
  - specialize (IH count). lia.
Qed.

Lemma count_of_take_cap_filter (n cap : nat) (l : list A) :
  (count_of p (take n (cap_filter p cap 0 l)) <= cap)%nat.
Proof.
  etransitivity; [apply count_of_sublist, sublist_take|].
  rewrite cap_filter_count. lia.
Qed.

Lemma elem_of_take_or_full (n : nat) (l : list A) (x : A) :
  x ∈ l -> x ∈ take n l \/ length (take n l) = n.
Proof.
  intros Hin. destruct (Nat.le_gt_cases (length l) n) as [Hle|Hgt].
  - left. by rewrite take_ge.
  - right. rewrite length_take. lia.
Qed.
End CapFacts.

(** ** [analyze_today.py] *)

Section AnalyzeTodayFacts.
Context {RT : Runtime}.
Import AnalyzeToday.

Lemma T_score_text_range (combined url : string) :
  0 <= score_text combined url <= 100.
Proof. unfold score_text. lia. Qed.

Lemma T_score_article_range (a : article) (score : Z) :
  score_article a = Ok score -> 0 <= score <= 100.
Proof.
  unfold score_article. intros H. inv_bind H. inv_bind H.
  injection H as <-. apply T_score_text_range.
Qed.

Lemma T_score_article_total (a : article) :
  T_well_typed a <-> exists score, score_article a = Ok score.
Proof.
  unfold T_well_typed, score_article. split.
  - intros (title & url & -> & ->). simpl. eauto.
  - intros [score H]. inv_bind H. inv_bind H.
    destruct (get a "title" (PStr "")); try discriminate.
    destruct (get a "url" (PStr "")); try discriminate. eauto.
Qed.


Lemma T_score_loop_spec (collected : list article) (scored : list item) :
  score_loop collected = Ok scored ->
  Forall T_scored_item scored
  /\ map it_article scored `sublist_of` collected.
Proof.
  revert scored. induction collected as [|a rest IH]; intros scored H.
  - injection H as <-. split; constructor.
  - cbn [score_loop] in H. inv_bind H.
    destruct (Z.leb_spec 60 x) as [Hge|Hlt].
    + inv_bind H. inv_bind H. injection H as <-.
      destruct (IH _ Hx1) as [Hall Hsub]. split.
      * constructor; [|exact Hall]. by repeat split.
      * simpl. by constructor.
    + destruct (IH _ H) as [Hall Hsub]. split; [exact Hall|].
      by constructor.
Qed.


(** The selection loop is the capped walk, cut at [max_selected]. *)
Lemma T_select_loop_spec (selected : list item) (arxiv_count : nat)
    (scored result : list item) :
  select_loop selected arxiv_count scored = Ok result ->
  result = selected ++
    take (max_selected - length selected)
         (cap_filter T_is_arxiv max_arxiv arxiv_count scored).
Proof.
  revert selected arxiv_count.
  induction scored as [|it rest IH]; intros selected arxiv_count H.
  - injection H as <-. cbn [cap_filter]. by rewrite take_nil, app_nil_r.
  - cbn [select_loop] in H.
    destruct (Nat.leb_spec max_selected (length selected)) as [Hfull|Hroom].
    { injection H as <-.
      replace (max_selected - length selected)%nat with 0%nat by lia.
      by rewrite take_0, app_nil_r. }
    inv_bind H. cbn [cap_filter]. unfold T_is_arxiv at 1. rewrite Hx.
    cbn [try_except].
    assert (Hstep : forall tail : list item,
      (selected ++ [it]) ++
        take (max_selected - length (selected ++ [it])) tail
      = selected ++ take (max_selected - length selected) (it :: tail)).
    { intros tail. rewrite length_app. simpl.
      replace (max_selected - length selected)%nat
        with (S (max_selected - (length selected + 1)))%nat by lia.
      by rewrite <- app_assoc. }
    destruct x.
    + destruct (max_arxiv <=? arxiv_count)%nat; [by apply IH|].
      apply IH in H. by rewrite H, Hstep.
    + apply IH in H. by rewrite H, Hstep.
Qed.


(** The file holds the first [max_selected] elements of the capped walk
    over the scored articles, sorted by descending score. *)
Lemma T_written_spec (collected : list article) (out : output) :
  written collected = Ok out ->
  exists scored,
    score_loop collected = Ok scored
    /\ articles out =
         take max_selected
           (cap_filter T_is_arxiv max_arxiv 0
              (sort_desc it_score Z.ltb scored)).
Proof.
  unfold written. intros H. inv_bind H. inv_bind H. injection H as <-.
  exists x. split; [exact Hx|]. simpl.
  apply T_select_loop_spec in Hx0. by rewrite Hx0.
Qed.

End AnalyzeTodayFacts.

Lemma agree_on_get (keys : list string) (a b : article) (k : string)
    (dflt : pyval) :
  agree_on keys a b -> k ∈ keys -> get a k dflt = get b k dflt.
Proof. intros Hagree Hk. unfold get. by rewrite (Hagree k Hk). Qed.

Lemma agree_on_insert (keys : list string) (a : article) (k : string)
    (v : pyval) :
  k ∉ keys -> agree_on keys a (<[k := v]> a).
Proof.
  intros Hk k' Hk'. rewrite lookup_insert_ne; [reflexivity|].
  intros ->. by apply Hk.
Qed.

Lemma agree_on_trans (keys : list string) (a b c : article) :
  agree_on keys a b -> agree_on keys b c -> agree_on keys a c.
Proof. intros Hab Hbc k Hk. by rewrite (Hab k Hk), (Hbc k Hk). Qed.

Lemma agree_on_weaken (keys keys' : list string) (a b : article) :
  keys' ⊆ keys -> agree_on keys a b -> agree_on keys' a b.
Proof. intros Hsub Hagree k Hk. apply Hagree. by apply Hsub. Qed.

(** Membership of a literal key in a literal list of keys. *)
Ltac key_in :=
  repeat (first [apply list_elem_of_here | apply list_elem_of_further]).

(** ** [filter_and_generate.py] *)

Section FilterAndGenerateFacts.
Context {RT : Runtime}.
Import FilterAndGenerate.

Lemma F_read_fields_agree (a b : article) :
  agree_on F_keys a b -> read_fields a = read_fields b.
Proof.
  intros Hagree. unfold read_fields.
  rewrite (agree_on_get F_keys a b "title") by (done || key_in).
  rewrite (agree_on_get F_keys a b "description") by (done || key_in).
  by rewrite (agree_on_get F_keys a b "url") by (done || key_in).
Qed.

Lemma F_score_article_agree (a b : article) :
  agree_on F_keys a b -> score_article a = score_article b.
Proof.
  intros H. unfold score_article. by rewrite (F_read_fields_agree a b).
Qed.

Lemma F_categorize_article_agree (a b : article) :
  agree_on F_keys a b -> categorize_article a = categorize_article b.
Proof.
  intros H. unfold categorize_article. by rewrite (F_read_fields_agree a b).
Qed.

Lemma F_score_text_range (combined url : string) :
  0 <= score_text combined url <= 100.
Proof. unfold score_text. lia. Qed.

Lemma F_score_article_range (a : article) (score : Z) :
  score_article a = Ok score -> 0 <= score <= 100.
Proof.
  unfold score_article. intros H. inv_bind H. destruct x.
  injection H as <-. apply F_score_text_range.
Qed.

Lemma F_read_fields_total (a : article) :
  F_well_typed a <-> exists fields, read_fields a = Ok fields.
Proof.
  unfold F_well_typed, read_fields. split.
  - intros (title & description & url & -> & -> & ->). simpl. eauto.
  - intros [fields H]. inv_bind H. inv_bind H. inv_bind H.
    destruct (get a "title" (PStr "")); try discriminate.
    destruct (get a "description" (PStr "")); try discriminate.
    destruct (get a "url" (PStr "")); try discriminate. eauto 6.
Qed.

Lemma F_score_article_total (a : article) :
  F_well_typed a <-> exists score, score_article a = Ok score.
Proof.
  rewrite F_read_fields_total. unfold score_article. split.
  - intros [[combined url] ->]. simpl. eauto.
  - intros [score H]. inv_bind H. eauto.
Qed.

Lemma F_scored_from_agree (a x : article) :
  F_scored_from a x -> agree_on F_keys a x.
Proof.
  intros (score & cat & _ & _ & _ & ->).
  eapply agree_on_trans; apply agree_on_insert;
    unfold F_keys; rewrite !elem_of_cons, elem_of_nil;
    intros [?|[?|[?|[]]]]; discriminate.
Qed.



Lemma F_scored_from_is_arxiv (a x : article) :
  F_scored_from a x -> F_is_arxiv x = F_is_arxiv a.
Proof.
  intros H%F_scored_from_agree. unfold F_is_arxiv.
  by rewrite (agree_on_get F_keys a x "url") by (done || key_in).
Qed.

Lemma F_score_loop_spec (collected scored : list article) :
  score_loop collected = Ok scored ->
  exists kept, kept `sublist_of` collected
               /\ Forall2 F_scored_from kept scored.
Proof.
  revert scored. induction collected as [|a rest IH]; intros scored H.
  - injection H as <-. exists []. split; constructor.
  - cbn [score_loop] in H. inv_bind H.
    destruct (Z.leb_spec 60 x) as [Hge|Hlt].
    + inv_bind H. inv_bind H. injection H as <-.
      destruct (IH _ Hx1) as (kept & Hsub & Hall).
      exists (a :: kept). split; [by constructor|].
      constructor; [|exact Hall]. exists x, x0. repeat split; try done.
      rewrite <- Hx0. apply F_categorize_article_agree.
      apply agree_on_insert. unfold F_keys.
      rewrite !elem_of_cons, elem_of_nil.
      intros [?|[?|[?|[]]]]; discriminate.
    + destruct (IH _ H) as (kept & Hsub & Hall).
      exists kept. split; [by constructor|exact Hall].
Qed.


(** The selection loop is the capped walk, cut at [max_selected]. *)
Lemma F_select_loop_spec (selected : list article)
    (counts : gmap string Z) (arxiv_count : nat)
    (scored : list article) (result : list article * gmap string Z) :
  select_loop selected counts arxiv_count scored = Ok result ->
  result.1 = selected ++
    take (max_selected - length selected)
         (cap_filter F_is_arxiv max_arxiv arxiv_count scored).
Proof.
  revert selected counts arxiv_count.
  induction scored as [|a rest IH]; intros selected counts arxiv_count H.
  - injection H as <-. cbn [cap_filter]. by rewrite take_nil, app_nil_r.
  - cbn [select_loop] in H.
    destruct (Nat.leb_spec max_selected (length selected)) as [Hfull|Hroom].
    { injection H as <-.
      replace (max_selected - length selected)%nat with 0%nat by lia.
      by rewrite take_0, app_nil_r. }
    inv_bind H. cbn [cap_filter]. unfold F_is_arxiv at 1. rewrite Hx.
    cbn [try_except].
    assert (Hstep : forall tail : list article,
      (selected ++ [a]) ++
        take (max_selected - length (selected ++ [a])) tail
      = selected ++ take (max_selected - length selected) (a :: tail)).
    { intros tail. rewrite length_app. simpl.
      replace (max_selected - length selected)%nat
        with (S (max_selected - (length selected + 1)))%nat by lia.
      by rewrite <- app_assoc. }
    destruct x.
    + destruct (max_arxiv <=? arxiv_count)%nat; [by eapply IH|].
      destruct (a !! "category") as [[]|]; try discriminate.
      apply IH in H. by rewrite H, Hstep.
    + destruct (a !! "category") as [[]|]; try discriminate.
      apply IH in H. by rewrite H, Hstep.
Qed.


(** The file holds the first [max_selected] elements of the capped walk
    over the scored articles, sorted by descending score. *)
Lemma F_written_spec (collected : list article) (out : output) :
  written collected = Ok out ->
  exists scored,
    score_loop collected = Ok scored
    /\ articles out =
         take max_selected
           (cap_filter F_is_arxiv max_arxiv 0
              (sort_desc relevance_score Z.ltb scored)).
Proof.
  unfold written. intros H. inv_bind H. inv_bind H. destruct x0.
  injection H as <-.
  exists x. split; [exact Hx|]. simpl.
  apply F_select_loop_spec in Hx0. simpl in Hx0. by rewrite Hx0.
Qed.

End FilterAndGenerateFacts.

(** ** [src/analyze_articles.py] *)

Lemma penalty_check_70 (z : Z) : 0 <= z <= 70 -> penalty_check z = true.
Proof.
  intros Hz.
  assert (Hall : forallb penalty_check (map Z.of_nat (seq 0 71)) = true)
    by (vm_compute; reflexivity).
  rewrite forallb_forall in Hall. apply Hall.
  apply in_map_iff. exists (Z.to_nat z). split; [lia|].
  apply in_seq. lia.
Qed.

Lemma penalty_is_float (z : Z) :
  0 <= z <= 70 ->
  py_min (py_min (NFloat (py_mul_float z float_0_3)) (NInt 40)) (NInt 100)
  = NFloat (py_mul_float z float_0_3)
  /\ py_geb (NFloat (py_mul_float z float_0_3)) (NInt 60) = false.
Proof.
  intros Hz%penalty_check_70. unfold penalty_check in Hz.
  apply andb_true_iff in Hz as [Hz H60].
  apply andb_true_iff in Hz as [H40 H100].
  apply negb_true_iff in H40, H100, H60.
  unfold py_min, py_ltb, py_geb, to_float.
  rewrite H40. rewrite H100. by rewrite H60.
Qed.

Section AnalyzeArticlesFacts.
Context {RT : Runtime}.
Import AnalyzeArticles.

Lemma A_read_fields_agree (a b : article) :
  agree_on A_keys a b -> read_fields a = read_fields b.
Proof.
  intros Hagree. unfold read_fields.
  rewrite (agree_on_get A_keys a b "title") by (done || key_in).
  rewrite (agree_on_get A_keys a b "description") by (done || key_in).
  rewrite (agree_on_get A_keys a b "summary") by (done || key_in).
  rewrite (agree_on_get A_keys a b "url") by (done || key_in).
  by rewrite (agree_on_get A_keys a b "link") by (done || key_in).
Qed.

Lemma count_matches_nonneg (keywords : list string) (content : string) :
  0 <= count_matches keywords content.
Proof. unfold count_matches. lia. Qed.

(** The score as a function of the three counts. *)
Lemma A_score_content_cases (content : string) (is_arxiv : bool) :
  (score_content content is_arxiv).1 =
    if count_matches agent_keywords content =? 0 then NInt 0
    else if is_arxiv && (count_matches production_keywords content =? 0)
    then py_min (py_min (NFloat (py_mul_float (A_raw_score content)
                                              float_0_3))
                        (NInt 40)) (NInt 100)
    else py_min (NInt (A_raw_score content)) (NInt 100).
Proof.
  unfold score_content, A_raw_score.
  destruct (count_matches agent_keywords content =? 0); [reflexivity|].
  destruct (Z.ltb_spec 0 (count_matches production_keywords content))
    as [Hp|Hp];
    destruct (0 <? count_matches framework_keywords content);
    destruct is_arxiv; cbn [fst snd andb];
    destruct (Z.eqb_spec (count_matches production_keywords content) 0)
      as [Hp0|Hp0]; cbn [fst];
    rewrite ?Z.add_0_r; try reflexivity; try lia.
  all: pose proof (count_matches_nonneg production_keywords content); lia.
Qed.

Lemma A_raw_score_range (content : string) :
  count_matches agent_keywords content <> 0 ->
  15 <= A_raw_score content <= 120.
Proof.
  intros Hagent. unfold A_raw_score.
  pose proof (count_matches_nonneg agent_keywords content).
  pose proof (count_matches_nonneg production_keywords content).
  pose proof (count_matches_nonneg framework_keywords content).
  destruct (0 <? count_matches production_keywords content);
    destruct (0 <? count_matches framework_keywords content); lia.
Qed.

Lemma A_raw_score_no_production (content : string) :
  count_matches production_keywords content = 0 ->
  0 <= A_raw_score content <= 70.
Proof.
  intros Hp. unfold A_raw_score. rewrite Hp.
  pose proof (count_matches_nonneg agent_keywords content).
  pose proof (count_matches_nonneg framework_keywords content).
  destruct (0 <? count_matches framework_keywords content);
    cbn [Z.ltb Z.compare]; lia.
Qed.

(** Off the penalty branch the score is an integer between 0 and 100. *)
Lemma A_score_content_int (content : string) (is_arxiv : bool) :
  is_arxiv && (count_matches production_keywords content =? 0)
           && negb (count_matches agent_keywords content =? 0) = false ->
  exists z, (score_content content is_arxiv).1 = NInt z /\ 0 <= z <= 100.
Proof.
  intros Hcase. rewrite A_score_content_cases.
  destruct (Z.eqb_spec (count_matches agent_keywords content) 0)
    as [Ha|Ha]; [exists 0; split; [reflexivity|lia]|].
  rewrite andb_true_r in Hcase. rewrite Hcase.
  pose proof (A_raw_score_range content Ha).
  unfold py_min, py_ltb.
  destruct (Z.ltb_spec 100 (A_raw_score content)); eexists;
    (split; [reflexivity|lia]).
Qed.

(** On the penalty branch the score is a [float] below 60. *)
Lemma A_score_content_float (content : string) :
  count_matches agent_keywords content <> 0 ->
  count_matches production_keywords content = 0 ->
  (score_content content true).1
    = NFloat (py_mul_float (A_raw_score content) float_0_3)
  /\ py_geb (score_content content true).1 (NInt 60) = false.
Proof.
  intros Ha Hp. rewrite A_score_content_cases.
  destruct (Z.eqb_spec (count_matches agent_keywords content) 0);
    [done|].
  rewrite Hp. cbn [andb Z.eqb].
  destruct (penalty_is_float (A_raw_score content)) as [-> H60];
    [by apply A_raw_score_no_production|].
  by split.
Qed.

(** A score of 60 or more is an integer. *)
Lemma A_score_content_kept (content : string) (is_arxiv : bool) :
  py_geb (score_content content is_arxiv).1 (NInt 60) = true ->
  exists z, (score_content content is_arxiv).1 = NInt z /\ 60 <= z <= 100.
Proof.
  intros Hkept.
  destruct (is_arxiv && (count_matches production_keywords content =? 0)
            && negb (count_matches agent_keywords content =? 0))
    eqn:Hcase.
  - apply andb_true_iff in Hcase as [Hcase Ha].
    apply andb_true_iff in Hcase as [-> Hp].
    apply negb_true_iff, Z.eqb_neq in Ha. apply Z.eqb_eq in Hp.
    destruct (A_score_content_float content Ha Hp) as [_ H60].
    congruence.
  - destruct (A_score_content_int content is_arxiv Hcase) as (z & Hz & ?).
    exists z. split; [exact Hz|]. rewrite Hz in Hkept.
    cbn [py_geb] in Hkept. apply Z.leb_le in Hkept. lia.
Qed.

Lemma A_read_fields_total (a : article) :
  A_well_typed a <-> exists fields, read_fields a = Ok fields.
Proof.
  unfold A_well_typed, read_fields. split.
  - intros (title & summary & is_arxiv & -> & -> & ->). simpl. eauto.
  - intros [fields H]. inv_bind H. inv_bind H. inv_bind H.
    destruct (get a "title" (PStr "")); try discriminate.
    destruct (get a "summary" _); try discriminate. eauto 6.
Qed.

Lemma A_scored_item_int (it : item) :
  A_scored_item it -> exists z, it_score it = NInt z /\ 60 <= z <= 100.
Proof.
  intros (Hs & Hkept & _). unfold score_article in Hs. inv_bind Hs.
  destruct x as [content is_arxiv]. injection Hs as Hs.
  assert (Hfst : it_score it = (score_content content is_arxiv).1)
    by by rewrite Hs.
  rewrite Hfst in *. by apply A_score_content_kept.
Qed.

Lemma A_scored_item_well_typed (it : item) :
  A_scored_item it -> A_well_typed (it_article it).
Proof.
  intros (Hs & _ & _). apply A_read_fields_total.
  unfold score_article in Hs. inv_bind Hs. eauto.
Qed.

Lemma A_score_loop_spec (recent : list article) (scored : list item) :
  score_loop recent = Ok scored ->
  Forall A_scored_item scored
  /\ map it_article scored `sublist_of` recent.
Proof.
  revert scored. induction recent as [|a rest IH]; intros scored H.
  - injection H as <-. split; constructor.
  - cbn [score_loop] in H. inv_bind H. destruct x as [score reason].
    destruct (py_geb score (NInt 60)) eqn:Hkept.
    + inv_bind H. inv_bind H. injection H as <-.
      destruct (IH _ Hx1) as [Hall Hsub]. split.
      * constructor; [|exact Hall]. by repeat split.
      * simpl. by constructor.
    + destruct (IH _ H) as [Hall Hsub]. split; [exact Hall|].
      by constructor.
Qed.

Lemma A_score_loop_total (recent : list article) :
  Forall A_well_typed recent ->
  exists scored, score_loop recent = Ok scored.
Proof.
  induction 1 as [|a rest Ha _ [scored IH]]; [by eexists|].
  cbn [score_loop]. unfold score_article, categorize_article.
  destruct (proj1 (A_read_fields_total a) Ha) as [[content is_arxiv] ->].
  cbn [bind]. destruct (score_content content is_arxiv) as [score reason].
  destruct (py_geb score (NInt 60)); [|eauto].
  rewrite IH. cbn [bind]. eauto.
Qed.

(** The limit loop is the capped walk. *)
Lemma A_limit_loop_spec (filtered : list item) (arxiv_count : nat)
    (scored result : list item) :
  limit_loop filtered arxiv_count scored = Ok result ->
  result = filtered ++ cap_filter A_is_arxiv arxiv_limit arxiv_count scored.
Proof.
  revert filtered arxiv_count.
  induction scored as [|it rest IH]; intros filtered arxiv_count H.
  - injection H as <-. cbn [cap_filter]. by rewrite app_nil_r.
  - cbn [limit_loop] in H. inv_bind H. cbn [cap_filter].
    unfold A_is_arxiv at 1. rewrite Hx. cbn [try_except].
    destruct x.
    + destruct (arxiv_limit <=? arxiv_count)%nat; [by apply IH|].
      apply IH in H. by rewrite H, <- app_assoc.
    + apply IH in H. by rewrite H, <- app_assoc.
Qed.

Lemma A_limit_loop_total (filtered : list item) (arxiv_count : nat)
    (scored : list item) :
  Forall (fun it => A_well_typed (it_article it)) scored ->
  exists result, limit_loop filtered arxiv_count scored = Ok result.
Proof.
  intros Hall. revert filtered arxiv_count.
  induction Hall as [|it rest (title & summary & is_arxiv & _ & _ & Hin)
                      _ IH];
    intros filtered arxiv_count; [by eexists|].
  cbn [limit_loop]. rewrite Hin. cbn [bind].
  destruct is_arxiv; [destruct (arxiv_limit <=? arxiv_count)%nat|];
    apply IH.
Qed.

(** On the scored items the sort compares integers. *)
Lemma A_sort_int (scored : list item) :
  Forall A_scored_item scored ->
  sort_desc it_score py_ltb scored = sort_desc A_score_Z Z.ltb scored.
Proof.
  intros Hall. apply sort_desc_ext. intros x y Hx Hy.
  apply (proj1 (list.Forall_forall _ _) Hall) in Hx, Hy.
  apply A_scored_item_int in Hx as (zx & Hzx & _).
  apply A_scored_item_int in Hy as (zy & Hzy & _).
  unfold A_score_Z. by rewrite Hzx, Hzy.
Qed.

Lemma recent_from_sublist (clock : nat -> Z) (k : nat)
    (collected : list article) :
  recent_from clock k collected `sublist_of` collected.
Proof.
  revert k. induction collected as [|a rest IH]; intros k; simpl.
  - constructor.
  - destruct (is_recent _ _ _); by constructor.
Qed.

(** Every article that passes the date filter was found recent at some
    reading of the clock. *)
Lemma recent_from_is_recent (clock : nat -> Z) (k : nat)
    (collected : list article) (a : article) :
  a ∈ recent_from clock k collected ->
  exists now, is_recent now (get a "published" (PStr "")) 48 = true.
Proof.
  revert k. induction collected as [|b rest IH]; intros k; simpl.
  - intros []%elem_of_nil.
  - destruct (is_recent (clock k) (get b "published" (PStr "")) 48)
      eqn:Hrecent; [|by apply IH].
    intros [->|Hin]%elem_of_cons; [eauto|by eapply IH].
Qed.

(** [main] returns the capped walk over the scored recent articles,
    sorted by descending score. *)
Lemma A_main_spec (clock : nat -> Z) (collected : list article)
    (out : output) :
  main clock collected = Ok out ->
  exists scored,
    score_loop (recent_from clock 0 collected) = Ok scored
    /\ articles out =
         cap_filter A_is_arxiv arxiv_limit 0
           (sort_desc it_score py_ltb scored).
Proof.
  unfold main. intros H. inv_bind H. inv_bind H. injection H as <-.
  exists x. split; [exact Hx|]. simpl.
  by apply A_limit_loop_spec in Hx0.
Qed.

Lemma A_main_total (clock : nat -> Z) (collected : list article) :
  Forall A_well_typed collected ->
  exists out, main clock collected = Ok out.
Proof.
  intros Hall. unfold main.
  destruct (A_score_loop_total (recent_from clock 0 collected))
    as [scored Hscored].
  { apply list.Forall_forall. intros a Ha.
    apply (proj1 (list.Forall_forall _ _) Hall).
    eapply elem_of_sublist; [exact Ha|apply recent_from_sublist]. }
  rewrite Hscored. cbn [bind].
  destruct (A_limit_loop_total [] 0 (sort_desc it_score py_ltb scored))
    as [filtered ->]; [|cbn [bind]; eauto].
  apply A_score_loop_spec in Hscored as [Hitems _].
  apply list.Forall_forall. intros it Hit.
  apply sort_desc_elem_of in Hit.
  apply A_scored_item_well_typed.
  by apply (proj1 (list.Forall_forall _ _) Hitems).
Qed.
End AnalyzeArticlesFacts.

(** ** The claims *)

Section Gate.
Context {RT : Runtime}.
Import AnalyzeArticles.

Lemma A_gate_score (a : article) (content : string) (is_arxiv : bool) :
  read_fields a = Ok (content, is_arxiv) ->
  count_matches agent_keywords content = 0 ->
  score_article a = Ok (NInt 0, "Not relevant to AI agents").
Proof.
  intros Hread Hgate. unfold score_article. rewrite Hread. cbn [bind].
  unfold score_content. by rewrite Hgate.
Qed.

(** Every article of the output was scored 60 or more. *)
Lemma A_main_articles_scored (clock : nat -> Z) (collected : list article)
    (out : output) (it : item) :
  main clock collected = Ok out -> it ∈ articles out ->
  A_scored_item it /\ it_article it ∈ recent_from clock 0 collected.
Proof.
  intros (scored & Hscored & ->)%A_main_spec Hit.
  pose proof (elem_of_sublist _ _ _ Hit
    (cap_filter_sublist A_is_arxiv arxiv_limit 0
       (sort_desc it_score py_ltb scored))) as Hsorted.
  apply sort_desc_elem_of in Hsorted.
  apply A_score_loop_spec in Hscored as [Hall Hsub]. split.
  - by apply (proj1 (list.Forall_forall _ _) Hall).
  - eapply elem_of_sublist; [|exact Hsub].
    apply list_elem_of_fmap. eauto.
Qed.

(** C1 (as amended): in analyze_articles.py the agent keywords are a
    gate.  An article whose text contains none of [agent_keywords] is
    scored 0, whatever the other keyword groups find, and is the article
    of no item of the output of any run of [main]. *)
Theorem C1_agent_gate_analyze_articles
    (a : article) (content : string) (is_arxiv : bool) :
  read_fields a = Ok (content, is_arxiv) ->
  count_matches agent_keywords content = 0 ->
  score_article a = Ok (NInt 0, "Not relevant to AI agents")
  /\ forall clock collected out,
       main clock collected = Ok out ->
       forall it, it ∈ articles out -> it_article it <> a.
Proof.
  intros Hread Hgate. split; [by eapply A_gate_score|].
  intros clock collected out Hmain it Hit Heq.
  destruct (A_main_articles_scored _ _ _ _ Hmain Hit)
    as [(Hscore & Hkept & _) _].
  rewrite Heq, (A_gate_score a content is_arxiv Hread Hgate) in Hscore.
  injection Hscore as Hscore _. rewrite <- Hscore in Hkept.
  discriminate.
Qed.
End Gate.

Lemma C1_agent_gate_witness :
  @AnalyzeArticles.read_fields Reference.runtime Samples.enterprise_article
    = Ok ("enterprise llm deployment for developers ", false)
  /\ count_matches AnalyzeArticles.agent_keywords
       "enterprise llm deployment for developers " = 0
  /\ @AnalyzeArticles.score_article Reference.runtime
       Samples.enterprise_article
     = Ok (NInt 0, "Not relevant to AI agents").
Proof.
  split; [vm_compute; reflexivity|]. split; [vm_compute; reflexivity|].
  apply (@C1_agent_gate_analyze_articles Reference.runtime
           Samples.enterprise_article
           "enterprise llm deployment for developers " false);
    vm_compute; reflexivity.
Defined.

(** C1 (as stated) fails in the two other scripts, which have no gate:
    [analyze_today.py] scores an article without any agent keyword 65 and
    selects it, and [filter_and_generate.py] scores an arXiv paper without
    any agent keyword 60 and selects it. *)
Lemma C1_counterexample_no_gate :
  (exists combined out,
     @AnalyzeToday.read_text Reference.runtime Samples.enterprise_article
       = Ok combined
     /\ count_matches AnalyzeToday.agentic_keywords combined = 0
     /\ @AnalyzeToday.score_article Reference.runtime
          Samples.enterprise_article = Ok 65
     /\ @AnalyzeToday.written Reference.runtime [Samples.enterprise_article]
        = Ok out
     /\ AnalyzeToday.it_article <$> AnalyzeToday.articles out
        = [Samples.enterprise_article])
  /\ (exists combined url out,
        @FilterAndGenerate.read_fields Reference.runtime Samples.novel_paper
          = Ok (combined, url)
        /\ any_match FilterAndGenerate.high_value combined = false
        /\ @FilterAndGenerate.score_article Reference.runtime
             Samples.novel_paper = Ok 60
        /\ @FilterAndGenerate.written Reference.runtime [Samples.novel_paper]
           = Ok out
        /\ length (FilterAndGenerate.articles out) = 1%nat).
Proof.
  split.
  - do 2 eexists. repeat split; vm_compute; reflexivity.
  - do 3 eexists. repeat split; vm_compute; reflexivity.
Qed.

Section Range.
Context {RT : Runtime}.
Import AnalyzeArticles.

(** C2 fails in analyze_articles.py: on an arXiv article that passes the
    gate and has no production keyword, [score * 0.3] makes the score a
    [float], although [score_article] is annotated to return an [int].
    The value is three tenths of the integer total and is below 60. *)
Theorem C2_arxiv_penalty_returns_float (a : article) (content : string) :
  read_fields a = Ok (content, true) ->
  count_matches agent_keywords content <> 0 ->
  count_matches production_keywords content = 0 ->
  exists reason,
    score_article a
    = Ok (NFloat (py_mul_float (A_raw_score content) float_0_3), reason).
Proof.
  intros Hread Hagent Hproduction. unfold score_article.
  rewrite Hread. cbn [bind].
  destruct (A_score_content_float content Hagent Hproduction) as [Hf _].
  destruct (score_content content true) as [score reason].
  exists reason. cbn [fst] in Hf. by rewrite Hf.
Qed.
End Range.

Lemma C2_arxiv_penalty_returns_float_witness :
  @AnalyzeArticles.read_fields Reference.runtime Samples.agent_paper
    = Ok ("agent ", true)
  /\ count_matches AnalyzeArticles.agent_keywords "agent " <> 0
  /\ count_matches AnalyzeArticles.production_keywords "agent " = 0
  /\ @AnalyzeArticles.score_article Reference.runtime Samples.agent_paper
     = Ok (NFloat 4.5,
           "agent keywords (1); arXiv penalty (research paper)").
Proof.
  split; [vm_compute; reflexivity|]. split; [vm_compute; discriminate|].
  split; [vm_compute; reflexivity|].
  destruct (@C2_arxiv_penalty_returns_float Reference.runtime
              Samples.agent_paper "agent ") as [reason Hscore];
    [vm_compute; reflexivity|vm_compute; discriminate
    |vm_compute; reflexivity|].
  vm_compute. reflexivity.
Defined.

Section Recency.
Context {RT : Runtime}.
Import AnalyzeArticles.

(** What [is_recent] accepts: a string that parses to an aware datetime
    at or after the cutoff. *)
Lemma A_is_recent_true (now hours : Z) (published : pyval) :
  is_recent now published hours = true ->
  exists s instant offset cutoff,
    published = PStr s
    /\ fromisoformat (replace_char "Z" "+00:00" s)
       = Some (Aware instant offset)
    /\ cutoff_time now hours = Ok cutoff
    /\ cutoff <= instant.
Proof.
  unfold is_recent. intros H.
  destruct published as [| | | |s| |]; try discriminate.
  destruct (fromisoformat _) as [[wall|instant offset]|] eqn:Hiso;
    try discriminate.
  destruct (cutoff_time now hours) as [cutoff|]; [|discriminate].
  cbn [bind try_except] in H. apply Z.leb_le in H.
  by exists s, instant, offset, cutoff.
Qed.

(** C3 fails in analyze_articles.py: [is_recent] answers [False] for a
    [published] value that is absent, empty or does not parse (the bare
    [except] swallows the error), and [main] drops the article before it
    is scored, so it is the article of no item of the output. *)
Theorem C3_unparseable_date_dropped (a : article) :
  (forall s, get a "published" (PStr "") = PStr s ->
             fromisoformat (replace_char "Z" "+00:00" s) = None) ->
  (forall now hours,
     is_recent now (get a "published" (PStr "")) hours = false)
  /\ forall clock collected out,
       main clock collected = Ok out ->
       forall it, it ∈ articles out -> it_article it <> a.
Proof.
  intros Hparse.
  assert (Hnever : forall now hours,
            is_recent now (get a "published" (PStr "")) hours = false).
  { intros now hours.
    destruct (is_recent now (get a "published" (PStr "")) hours)
      eqn:Hrecent; [|reflexivity].
    apply A_is_recent_true in Hrecent
      as (s & instant & offset & cutoff & Hs & Hiso & _).
    rewrite (Hparse s Hs) in Hiso. discriminate. }
  split; [exact Hnever|].
  intros clock collected out Hmain it Hit Heq.
  destruct (A_main_articles_scored _ _ _ _ Hmain Hit) as [_ Hrecent].
  apply recent_from_is_recent in Hrecent as [now Hrecent].
  rewrite Heq, Hnever in Hrecent. discriminate.
Qed.
End Recency.

(** The collector keeps an entry without a date and flags it, the recency
    filter of analyze_articles.py then drops it although it scores 80, and
    analyze_today.py, which has no such filter, selects it. *)
Lemma C3_unparseable_date_dropped_witness :
  (forall s, get Samples.unverified_article "published" (PStr "") = PStr s ->
             @fromisoformat Reference.runtime (replace_char "Z" "+00:00" s)
             = None)
  /\ (CollectArticles.articles <$>
        match @CollectArticles.main Reference.feed_runtime Samples.noon
                (Some 24) (Samples.feeds [Samples.undated_entry]) with
        | Ok out => Some out
        | Raise _ => None
        end) = Some [Samples.unverified_article]
  /\ @AnalyzeArticles.is_recent Reference.runtime Samples.noon
       (get Samples.unverified_article "published" (PStr "")) 48 = false
  /\ @AnalyzeArticles.score_article Reference.runtime
       Samples.unverified_article
     = Ok (NInt 80, "agent keywords (3); production focus (2)")
  /\ (AnalyzeArticles.articles <$>
        match @AnalyzeArticles.main Reference.runtime Samples.clock
                [Samples.unverified_article] with
        | Ok out => Some out
        | Raise _ => None
        end) = Some []
  /\ (fmap AnalyzeToday.it_article <$>
        (AnalyzeToday.articles <$>
           match @AnalyzeToday.written Reference.runtime
                   [Samples.unverified_article] with
           | Ok out => Some out
           | Raise _ => None
           end)) = Some [Samples.unverified_article].
Proof.
  assert (Hparse : forall s,
            get Samples.unverified_article "published" (PStr "") = PStr s ->
            @fromisoformat Reference.runtime (replace_char "Z" "+00:00" s)
            = None).
  { intros s Hs. vm_compute in Hs. injection Hs as <-.
    vm_compute. reflexivity. }
  split; [exact Hparse|]. split; [vm_compute; reflexivity|].
  split.
  { apply (proj1 (@C3_unparseable_date_dropped Reference.runtime
                    Samples.unverified_article Hparse)). }
  repeat split; vm_compute; reflexivity.
Defined.

Section Selection.
Context {RT : Runtime}.

(** X18: the arXiv limit, on the test the selection loop makes: in each
    of the three scripts at most 3 articles whose url, as it is stored,
    contains [arxiv.org] are in the selection, however many were scored
    60 or more, and the walk goes on after a skipped arXiv article: a
    scored article that does not pass the test is selected, unless (in
    the two scripts that have a maximum) the selection is full. *)
Theorem X18_cap_on_stored_url :
  (forall clock collected out,
     AnalyzeArticles.main clock collected = Ok out ->
     (count_of A_is_arxiv (AnalyzeArticles.articles out) <= 3)%nat
     /\ forall scored,
          AnalyzeArticles.score_loop
            (AnalyzeArticles.recent_from clock 0 collected) = Ok scored ->
          count_of A_is_arxiv (AnalyzeArticles.articles out)
          = Nat.min 3 (count_of A_is_arxiv scored)
          /\ forall it, it ∈ scored -> A_is_arxiv it = false ->
                        it ∈ AnalyzeArticles.articles out)
  /\ (forall collected out,
        AnalyzeToday.written collected = Ok out ->
        (count_of T_is_arxiv (AnalyzeToday.articles out) <= 3)%nat
        /\ forall scored,
             AnalyzeToday.score_loop collected = Ok scored ->
             forall it, it ∈ scored -> T_is_arxiv it = false ->
               it ∈ AnalyzeToday.articles out
               \/ length (AnalyzeToday.articles out) = 12%nat)
  /\ (forall collected out,
        FilterAndGenerate.written collected = Ok out ->
        (count_of F_is_arxiv (FilterAndGenerate.articles out) <= 3)%nat
        /\ forall scored,
             FilterAndGenerate.score_loop collected = Ok scored ->
             forall x, x ∈ scored -> F_is_arxiv x = false ->
               x ∈ FilterAndGenerate.articles out
               \/ length (FilterAndGenerate.articles out) = 15%nat).
Proof.
  split; [|split].
  - intros clock collected out (scored & Hscored & ->)%A_main_spec.
    split.
    { rewrite cap_filter_count. unfold AnalyzeArticles.arxiv_limit. lia. }
    intros scored' Hscored'. rewrite Hscored in Hscored'.
    injection Hscored' as <-. split.
    + rewrite cap_filter_count. unfold AnalyzeArticles.arxiv_limit.
      by rewrite (count_of_perm _ _ _ (sort_desc_perm _ _ scored)).
    + intros it Hit Hother. apply cap_filter_keeps; [|exact Hother].
      by apply sort_desc_elem_of.
  - intros collected out (scored & Hscored & ->)%T_written_spec.
    split; [apply count_of_take_cap_filter|].
    intros scored' Hscored'. rewrite Hscored in Hscored'.
    injection Hscored' as <-. intros it Hit Hother.
    apply elem_of_take_or_full, cap_filter_keeps; [|exact Hother].
    by apply sort_desc_elem_of.
  - intros collected out (scored & Hscored & ->)%F_written_spec.
    split; [apply count_of_take_cap_filter|].
    intros scored' Hscored'. rewrite Hscored in Hscored'.
    injection Hscored' as <-. intros x Hx Hother.
    apply elem_of_take_or_full, cap_filter_keeps; [|exact Hother].
    by apply sort_desc_elem_of.
Qed.
End Selection.

Lemma X18_cap_on_stored_url_witness :
  (exists out,
     @AnalyzeArticles.main Reference.runtime Samples.clock
       Samples.five_papers_one_post = Ok out
     /\ (fun it => get (AnalyzeArticles.it_article it) "author" PNone)
          <$> AnalyzeArticles.articles out
        = [PInt 1; PInt 2; PInt 3; PInt 6]
     /\ (count_of A_is_arxiv (AnalyzeArticles.articles out) <= 3)%nat)
  /\ (exists out,
        @AnalyzeToday.written Reference.runtime Samples.five_papers_one_post
          = Ok out
        /\ (fun it => get (AnalyzeToday.it_article it) "author" PNone)
             <$> AnalyzeToday.articles out
           = [PInt 6; PInt 1; PInt 2; PInt 3]
        /\ (count_of T_is_arxiv (AnalyzeToday.articles out) <= 3)%nat)
  /\ (exists out,
        @FilterAndGenerate.written Reference.runtime
          Samples.five_papers_one_post = Ok out
        /\ (fun x => get x "author" PNone) <$> FilterAndGenerate.articles out
           = [PInt 6; PInt 1; PInt 2; PInt 3]
        /\ (count_of F_is_arxiv (FilterAndGenerate.articles out) <= 3)%nat).
Proof.
  pose proof (@X18_cap_on_stored_url Reference.runtime) as (HA & HT & HF).
  split; [|split].
  - evaluated
      (match @AnalyzeArticles.main Reference.runtime Samples.clock
               Samples.five_papers_one_post with
       | Ok out =>
           (fun it => get (AnalyzeArticles.it_article it) "author" PNone)
             <$> AnalyzeArticles.articles out
           = [PInt 1; PInt 2; PInt 3; PInt 6]
       | Raise _ => False
       end) as out from Hrun by Hfact.
    exists out. split; [reflexivity|]. split; [exact Hfact|].
    apply (HA _ _ _ Hrun).
  - evaluated
      (match @AnalyzeToday.written Reference.runtime
               Samples.five_papers_one_post with
       | Ok out =>
           (fun it => get (AnalyzeToday.it_article it) "author" PNone)
             <$> AnalyzeToday.articles out
           = [PInt 6; PInt 1; PInt 2; PInt 3]
       | Raise _ => False
       end) as out from Hrun by Hfact.
    exists out. split; [reflexivity|]. split; [exact Hfact|].
    apply (HT _ _ Hrun).
  - evaluated
      (match @FilterAndGenerate.written Reference.runtime
               Samples.five_papers_one_post with
       | Ok out =>
           (fun x => get x "author" PNone) <$> FilterAndGenerate.articles out
           = [PInt 6; PInt 1; PInt 2; PInt 3]
       | Raise _ => False
       end) as out from Hrun by Hfact.
    exists out. split; [reflexivity|]. split; [exact Hfact|].
    apply (HF _ _ Hrun).
Defined.

(** C4 fails in analyze_today.py and in filter_and_generate.py: the
    scorer looks for [arxiv.org] in the lower-cased url, the selection
    loop in the url as it is stored.  Five papers under
    [https://arXiv.org/...] are scored as arXiv papers (95, resp. 65: the
    10 points of an industry source are not given), none of them counts
    for the limit of 3, and all five are selected. *)
Theorem C4_arxiv_limit_misses_stored_capitals :
  (exists out,
     @AnalyzeToday.written Reference.runtime Samples.five_arXiv_papers
       = Ok out
     /\ (fun it => (AnalyzeToday.it_score it,
                    get (AnalyzeToday.it_article it) "author" PNone,
                    get (AnalyzeToday.it_article it) "url" PNone))
          <$> AnalyzeToday.articles out
        = (fun n => (95, PInt n, PStr "https://arXiv.org/abs/2401.00003"))
            <$> [1; 2; 3; 4; 5]
     /\ count_of (fun it => @scored_as_arxiv Reference.runtime
                              (AnalyzeToday.it_article it))
          (AnalyzeToday.articles out) = 5%nat
     /\ count_of T_is_arxiv (AnalyzeToday.articles out) = 0%nat
     /\ (AnalyzeToday.max_arxiv < length (AnalyzeToday.articles out))%nat)
  /\ (exists out,
        @FilterAndGenerate.written Reference.runtime
          Samples.five_arXiv_papers = Ok out
        /\ (fun x => (FilterAndGenerate.relevance_score x,
                      get x "author" PNone, get x "url" PNone))
             <$> FilterAndGenerate.articles out
           = (fun n => (65, PInt n, PStr "https://arXiv.org/abs/2401.00003"))
               <$> [1; 2; 3; 4; 5]
        /\ count_of (@scored_as_arxiv Reference.runtime)
             (FilterAndGenerate.articles out) = 5%nat
        /\ count_of F_is_arxiv (FilterAndGenerate.articles out) = 0%nat
        /\ (FilterAndGenerate.max_arxiv
            < length (FilterAndGenerate.articles out))%nat).
Proof.
  split.
  - evaluated
      (match @AnalyzeToday.written Reference.runtime
               Samples.five_arXiv_papers with
       | Ok out =>
           (fun it => (AnalyzeToday.it_score it,
                       get (AnalyzeToday.it_article it) "author" PNone,
                       get (AnalyzeToday.it_article it) "url" PNone))
             <$> AnalyzeToday.articles out
           = (fun n => (95, PInt n, PStr "https://arXiv.org/abs/2401.00003"))
               <$> [1; 2; 3; 4; 5]
           /\ count_of (fun it => @scored_as_arxiv Reference.runtime
                                    (AnalyzeToday.it_article it))
                (AnalyzeToday.articles out) = 5%nat
           /\ count_of T_is_arxiv (AnalyzeToday.articles out) = 0%nat
           /\ length (AnalyzeToday.articles out) = 5%nat
       | Raise _ => False
       end) as out from Hrun by Hfact.
    destruct Hfact as (Hsel & Hscored & Hcounted & Hlen).
    exists out. split; [reflexivity|]. repeat split; try assumption.
    rewrite Hlen. unfold AnalyzeToday.max_arxiv. lia.
  - evaluated
      (match @FilterAndGenerate.written Reference.runtime
               Samples.five_arXiv_papers with
       | Ok out =>
           (fun x => (FilterAndGenerate.relevance_score x,
                      get x "author" PNone, get x "url" PNone))
             <$> FilterAndGenerate.articles out
           = (fun n => (65, PInt n, PStr "https://arXiv.org/abs/2401.00003"))
               <$> [1; 2; 3; 4; 5]
           /\ count_of (@scored_as_arxiv Reference.runtime)
                (FilterAndGenerate.articles out) = 5%nat
           /\ count_of F_is_arxiv (FilterAndGenerate.articles out) = 0%nat
           /\ length (FilterAndGenerate.articles out) = 5%nat
       | Raise _ => False
       end) as out from Hrun by Hfact.
    destruct Hfact as (Hsel & Hscored & Hcounted & Hlen).
    exists out. split; [reflexivity|]. repeat split; try assumption.
    rewrite Hlen. unfold FilterAndGenerate.max_arxiv. lia.
Qed.

Section SelectionSize.
Context {RT : Runtime}.

(** C5 (as amended): analyze_today.py selects at most 12 articles and
    filter_and_generate.py at most 15: the selection is the list of the
    scored articles that pass the arXiv cap, in sorted order, cut after
    that many, so the loop stops at the maximum and adds nothing when
    fewer articles pass.  analyze_articles.py has no maximum: it keeps
    every scored article that passes the arXiv cap. *)
Theorem C5_selection_size :
  (forall collected out,
     AnalyzeToday.written collected = Ok out ->
     (length (AnalyzeToday.articles out) <= 12)%nat
     /\ exists scored,
          AnalyzeToday.score_loop collected = Ok scored
          /\ AnalyzeToday.articles out
             = take 12 (cap_filter T_is_arxiv 3 0
                          (sort_desc AnalyzeToday.it_score Z.ltb scored))
          /\ (length (AnalyzeToday.articles out) <= length scored)%nat)
  /\ (forall collected out,
        FilterAndGenerate.written collected = Ok out ->
        (length (FilterAndGenerate.articles out) <= 15)%nat
        /\ exists scored,
             FilterAndGenerate.score_loop collected = Ok scored
             /\ FilterAndGenerate.articles out
                = take 15 (cap_filter F_is_arxiv 3 0
                             (sort_desc FilterAndGenerate.relevance_score
                                        Z.ltb scored))
             /\ (length (FilterAndGenerate.articles out)
                 <= length scored)%nat)
  /\ (forall clock collected out,
        AnalyzeArticles.main clock collected = Ok out ->
        exists scored,
          AnalyzeArticles.score_loop
            (AnalyzeArticles.recent_from clock 0 collected) = Ok scored
          /\ AnalyzeArticles.articles out
             = cap_filter A_is_arxiv 3 0
                 (sort_desc AnalyzeArticles.it_score py_ltb scored)
          /\ (length (AnalyzeArticles.articles out)
              + (count_of A_is_arxiv scored - 3)
              = length scored)%nat).
Proof.
  split; [|split].
  - intros collected out (scored & Hscored & Hout)%T_written_spec.
    unfold AnalyzeToday.max_selected, AnalyzeToday.max_arxiv in Hout.
    split; [rewrite Hout, length_take; lia|].
    exists scored. repeat split; [exact Hscored|exact Hout|].
    rewrite Hout, <- (sort_desc_length AnalyzeToday.it_score Z.ltb scored).
    apply sublist_length. etransitivity; [apply sublist_take|].
    apply cap_filter_sublist.
  - intros collected out (scored & Hscored & Hout)%F_written_spec.
    unfold FilterAndGenerate.max_selected, FilterAndGenerate.max_arxiv
      in Hout.
    split; [rewrite Hout, length_take; lia|].
    exists scored. repeat split; [exact Hscored|exact Hout|].
    rewrite Hout,
      <- (sort_desc_length FilterAndGenerate.relevance_score Z.ltb scored).
    apply sublist_length. etransitivity; [apply sublist_take|].
    apply cap_filter_sublist.
  - intros clock collected out (scored & Hscored & Hout)%A_main_spec.
    unfold AnalyzeArticles.arxiv_limit in Hout.
    exists scored. repeat split; [exact Hscored|exact Hout|].
    rewrite Hout.
    pose proof (cap_filter_length A_is_arxiv 3 0
                  (sort_desc AnalyzeArticles.it_score py_ltb scored))
      as Hlen.
    rewrite sort_desc_length in Hlen.
    rewrite (count_of_perm _ _ _ (sort_desc_perm _ _ scored)) in Hlen.
    lia.
Qed.
End SelectionSize.

Lemma C5_selection_size_witness :
  (exists out,
     @AnalyzeToday.written Reference.runtime Samples.sixteen_posts = Ok out
     /\ length (AnalyzeToday.articles out) = 12%nat
     /\ (length (AnalyzeToday.articles out) <= 12)%nat)
  /\ (exists out,
        @FilterAndGenerate.written Reference.runtime Samples.sixteen_posts
          = Ok out
        /\ length (FilterAndGenerate.articles out) = 15%nat
        /\ (length (FilterAndGenerate.articles out) <= 15)%nat)
  /\ (exists out scored,
        @AnalyzeArticles.main Reference.runtime Samples.clock
          Samples.five_papers_one_post = Ok out
        /\ @AnalyzeArticles.score_loop Reference.runtime
             (@AnalyzeArticles.recent_from Reference.runtime Samples.clock 0
                Samples.five_papers_one_post) = Ok scored
        /\ length scored = 6%nat
        /\ length (AnalyzeArticles.articles out) = 4%nat).
Proof.
  pose proof (@C5_selection_size Reference.runtime) as (HT & HF & HA).
  split; [|split].
  - evaluated
      (match @AnalyzeToday.written Reference.runtime
               Samples.sixteen_posts with
       | Ok out => length (AnalyzeToday.articles out) = 12%nat
       | Raise _ => False
       end) as out from Hrun by Hfact.
    exists out. split; [reflexivity|]. split; [exact Hfact|].
    apply (HT _ _ Hrun).
  - evaluated
      (match @FilterAndGenerate.written Reference.runtime
               Samples.sixteen_posts with
       | Ok out => length (FilterAndGenerate.articles out) = 15%nat
       | Raise _ => False
       end) as out from Hrun by Hfact.
    exists out. split; [reflexivity|]. split; [exact Hfact|].
    apply (HF _ _ Hrun).
  - assert (Hsix :
      match @AnalyzeArticles.score_loop Reference.runtime
              (@AnalyzeArticles.recent_from Reference.runtime Samples.clock 0
                 Samples.five_papers_one_post) with
      | Ok scored => length scored = 6%nat
      | Raise _ => False
      end) by (vm_compute; reflexivity).
    evaluated
      (match @AnalyzeArticles.main Reference.runtime Samples.clock
               Samples.five_papers_one_post with
       | Ok out => length (AnalyzeArticles.articles out) = 4%nat
       | Raise _ => False
       end) as out from Hrun by Hfact.
    destruct (HA _ _ _ Hrun) as (scored & Hscored & _).
    rewrite Hscored in Hsix.
    exists out, scored. split; [reflexivity|]. split; [exact Hscored|].
    split; [exact Hsix|exact Hfact].
Defined.

(** C5 (as stated) fails in analyze_articles.py, which has no maximum:
    of sixteen recent industry articles that score 60 it keeps all
    sixteen, more than the 12 and the 15 of the other scripts. *)
Lemma C5_counterexample_no_maximum :
  exists out,
    @AnalyzeArticles.main Reference.runtime Samples.clock
      Samples.sixteen_posts = Ok out
    /\ length (AnalyzeArticles.articles out) = 16%nat
    /\ (AnalyzeToday.max_selected < 16)%nat
    /\ (FilterAndGenerate.max_selected < 16)%nat.
Proof.
  evaluated
    (match @AnalyzeArticles.main Reference.runtime Samples.clock
             Samples.sixteen_posts with
     | Ok out => length (AnalyzeArticles.articles out) = 16%nat
     | Raise _ => False
     end) as out from Hrun by Hfact.
  exists out. split; [reflexivity|]. split; [exact Hfact|].
  split; vm_compute; lia.
Qed.

Section Order.
Context {RT : Runtime}.

Lemma selection_sorted {A} (key : A -> Z) (p : A -> bool) (n cap : nat)
    (scored : list A) :
  let selection :=
    take n (cap_filter p cap 0 (sort_desc key Z.ltb scored)) in
  Sorted (desc key) selection
  /\ selection `sublist_of` sort_desc key Z.ltb scored
  /\ forall k, with_key key k selection `sublist_of` with_key key k scored.
Proof.
  intros selection.
  assert (Hsub : selection `sublist_of` sort_desc key Z.ltb scored).
  { etransitivity; [apply sublist_take|apply cap_filter_sublist]. }
  split; [|split; [exact Hsub|]].
  - eapply sorted_sublist; [exact Hsub|apply sort_desc_sorted].
  - intros k. rewrite <- (sort_desc_stable key k scored).
    by apply with_key_sublist.
Qed.

(** C6: in each of the three scripts the selection is in descending
    order of score (each article scores at least as much as the next
    one); the articles of equal score are in the order in which they were
    scored, which is the order of the input, because the sort is stable;
    and the walk only removes articles from the sorted list, so it keeps
    that order. *)
Theorem C6_selection_order :
  (forall collected out,
     AnalyzeToday.written collected = Ok out ->
     Sorted (desc AnalyzeToday.it_score) (AnalyzeToday.articles out)
     /\ exists scored,
          AnalyzeToday.score_loop collected = Ok scored
          /\ AnalyzeToday.it_article <$> scored `sublist_of` collected
          /\ AnalyzeToday.articles out
               `sublist_of` sort_desc AnalyzeToday.it_score Z.ltb scored
          /\ forall k,
               with_key AnalyzeToday.it_score k (AnalyzeToday.articles out)
               `sublist_of` with_key AnalyzeToday.it_score k scored)
  /\ (forall collected out,
        FilterAndGenerate.written collected = Ok out ->
        Sorted (desc FilterAndGenerate.relevance_score)
               (FilterAndGenerate.articles out)
        /\ exists kept scored,
             FilterAndGenerate.score_loop collected = Ok scored
             /\ kept `sublist_of` collected
             /\ Forall2 F_scored_from kept scored
             /\ FilterAndGenerate.articles out
                  `sublist_of` sort_desc FilterAndGenerate.relevance_score
                                 Z.ltb scored
             /\ forall k,
                  with_key FilterAndGenerate.relevance_score k
                           (FilterAndGenerate.articles out)
                  `sublist_of`
                  with_key FilterAndGenerate.relevance_score k scored)
  /\ (forall clock collected out,
        AnalyzeArticles.main clock collected = Ok out ->
        Forall (fun it => AnalyzeArticles.it_score it = NInt (A_score_Z it))
               (AnalyzeArticles.articles out)
        /\ Sorted (desc A_score_Z) (AnalyzeArticles.articles out)
        /\ exists scored,
             AnalyzeArticles.score_loop
               (AnalyzeArticles.recent_from clock 0 collected) = Ok scored
             /\ AnalyzeArticles.it_article <$> scored
                  `sublist_of` collected
             /\ AnalyzeArticles.articles out
                  `sublist_of` sort_desc AnalyzeArticles.it_score py_ltb
                                 scored
             /\ forall k,
                  with_key A_score_Z k (AnalyzeArticles.articles out)
                  `sublist_of` with_key A_score_Z k scored).
Proof.
  split; [|split].
  - intros collected out (scored & Hscored & ->)%T_written_spec.
    pose proof (selection_sorted AnalyzeToday.it_score T_is_arxiv
                  AnalyzeToday.max_selected AnalyzeToday.max_arxiv scored)
      as (Hsorted & Hsub & Hties).
    split; [exact Hsorted|]. exists scored.
    destruct (T_score_loop_spec _ _ Hscored) as [_ Horder].
    by repeat split.
  - intros collected out (scored & Hscored & ->)%F_written_spec.
    pose proof (selection_sorted FilterAndGenerate.relevance_score
                  F_is_arxiv FilterAndGenerate.max_selected
                  FilterAndGenerate.max_arxiv scored)
      as (Hsorted & Hsub & Hties).
    split; [exact Hsorted|].
    destruct (F_score_loop_spec _ _ Hscored) as (kept & Hkept & Hfrom).
    exists kept, scored. by repeat split.
  - intros clock collected out (scored & Hscored & ->)%A_main_spec.
    destruct (A_score_loop_spec _ _ Hscored) as [Hitems Horder].
    rewrite (A_sort_int scored Hitems).
    pose proof (selection_sorted A_score_Z A_is_arxiv
                  (length scored) AnalyzeArticles.arxiv_limit scored)
      as (Hsorted & Hsub & Hties).
    rewrite take_ge in Hsorted, Hsub, Hties
      by (rewrite <- (sort_desc_length A_score_Z Z.ltb scored);
          apply sublist_length, cap_filter_sublist).
    split; [|split; [exact Hsorted|]].
    + apply list.Forall_forall. intros it Hit.
      pose proof (elem_of_sublist _ _ _ Hit Hsub) as Hin.
      apply sort_desc_elem_of in Hin.
      apply (proj1 (list.Forall_forall _ _) Hitems) in Hin.
      apply A_scored_item_int in Hin as (z & Hz & _).
      unfold A_score_Z. by rewrite Hz.
    + exists scored. repeat split; try done.
      * etransitivity; [exact Horder|apply recent_from_sublist].
      * by rewrite (A_sort_int scored Hitems).
Qed.
End Order.

Lemma C6_selection_order_witness :
  (exists out,
     @AnalyzeToday.written Reference.runtime Samples.five_papers_one_post
       = Ok out
     /\ (fun it => (AnalyzeToday.it_score it,
                    get (AnalyzeToday.it_article it) "author" PNone))
          <$> AnalyzeToday.articles out
        = [(100, PInt 6); (95, PInt 1); (95, PInt 2); (95, PInt 3)]
     /\ Sorted (desc AnalyzeToday.it_score) (AnalyzeToday.articles out))
  /\ (exists out,
        @FilterAndGenerate.written Reference.runtime
          Samples.five_papers_one_post = Ok out
        /\ (fun x => (FilterAndGenerate.relevance_score x,
                      get x "author" PNone))
             <$> FilterAndGenerate.articles out
           = [(75, PInt 6); (65, PInt 1); (65, PInt 2); (65, PInt 3)]
        /\ Sorted (desc FilterAndGenerate.relevance_score)
                  (FilterAndGenerate.articles out))
  /\ (exists out,
        @AnalyzeArticles.main Reference.runtime Samples.clock
          Samples.five_papers_one_post = Ok out
        /\ (fun it => (AnalyzeArticles.it_score it,
                       get (AnalyzeArticles.it_article it) "author" PNone))
             <$> AnalyzeArticles.articles out
           = [(NInt 70, PInt 1); (NInt 70, PInt 2); (NInt 70, PInt 3);
              (NInt 60, PInt 6)]
        /\ Sorted (desc A_score_Z) (AnalyzeArticles.articles out)).
Proof.
  pose proof (@C6_selection_order Reference.runtime) as (HT & HF & HA).
  split; [|split].
  - evaluated
      (match @AnalyzeToday.written Reference.runtime
               Samples.five_papers_one_post with
       | Ok out =>
           (fun it => (AnalyzeToday.it_score it,
                       get (AnalyzeToday.it_article it) "author" PNone))
             <$> AnalyzeToday.articles out
           = [(100, PInt 6); (95, PInt 1); (95, PInt 2); (95, PInt 3)]
       | Raise _ => False
       end) as out from Hrun by Hfact.
    exists out. split; [reflexivity|]. split; [exact Hfact|].
    apply (HT _ _ Hrun).
  - evaluated
      (match @FilterAndGenerate.written Reference.runtime
               Samples.five_papers_one_post with
       | Ok out =>
           (fun x => (FilterAndGenerate.relevance_score x,
                      get x "author" PNone))
             <$> FilterAndGenerate.articles out
           = [(75, PInt 6); (65, PInt 1); (65, PInt 2); (65, PInt 3)]
       | Raise _ => False
       end) as out from Hrun by Hfact.
    exists out. split; [reflexivity|]. split; [exact Hfact|].
    apply (HF _ _ Hrun).
  - evaluated
      (match @AnalyzeArticles.main Reference.runtime Samples.clock
               Samples.five_papers_one_post with
       | Ok out =>
           (fun it => (AnalyzeArticles.it_score it,
                       get (AnalyzeArticles.it_article it) "author" PNone))
             <$> AnalyzeArticles.articles out
           = [(NInt 70, PInt 1); (NInt 70, PInt 2); (NInt 70, PInt 3);
              (NInt 60, PInt 6)]
       | Raise _ => False
       end) as out from Hrun by Hfact.
    exists out. split; [reflexivity|]. split; [exact Hfact|].
    apply (HA _ _ _ Hrun).
Defined.

Section Categories.
Context {RT : Runtime}.

(** C7 (as amended): in analyze_articles.py an article whose link
    contains [arxiv.org] is never categorized [Frameworks & Tools]; when
    no production indicator matches, it falls through to the later rules
    whatever the framework indicators find. *)
Theorem C7_arxiv_not_framework_analyze_articles
    (a : article) (score : pynum) (content : string) :
  AnalyzeArticles.read_fields a = Ok (content, true) ->
  exists cat,
    AnalyzeArticles.categorize_article a score = Ok cat
    /\ cat <> "Frameworks & Tools"
    /\ (any_match AnalyzeArticles.production_indicators content = false ->
        cat = first_match
                [("Developer Resources",
                  any_match AnalyzeArticles.resource_indicators content);
                 ("Trends & Analysis",
                  any_match AnalyzeArticles.analysis_indicators content)]
                "Research & Breakthroughs").
Proof.
  intros Hread. unfold AnalyzeArticles.categorize_article.
  rewrite Hread. cbn [bind]. eexists. split; [reflexivity|].
  unfold AnalyzeArticles.categorize_content. cbn [negb first_match].
  rewrite andb_false_r.
  destruct (any_match AnalyzeArticles.production_indicators content);
    destruct (any_match AnalyzeArticles.resource_indicators content);
    destruct (any_match AnalyzeArticles.analysis_indicators content);
    split; (discriminate || done).
Qed.

(** C8: each of the three categorizers is the ordered cascade
    production, frameworks/tools, developer resources, trends/analysis
    with the default [Research & Breakthroughs]; it returns one of the
    five labels, and an article whose text matches a production
    indicator is [Production Use Cases] whatever else matches. *)
Theorem C8_category_priority :
  (forall a score content is_arxiv,
     AnalyzeArticles.read_fields a = Ok (content, is_arxiv) ->
     exists cat,
       AnalyzeArticles.categorize_article a score = Ok cat
       /\ cat ∈ categories
       /\ cat = first_match
                  [("Production Use Cases",
                    any_match AnalyzeArticles.production_indicators content);
                   ("Frameworks & Tools",
                    any_match AnalyzeArticles.framework_indicators content
                    && negb is_arxiv);
                   ("Developer Resources",
                    any_match AnalyzeArticles.resource_indicators content);
                   ("Trends & Analysis",
                    any_match AnalyzeArticles.analysis_indicators content)]
                  "Research & Breakthroughs"
       /\ (any_match AnalyzeArticles.production_indicators content = true ->
           cat = "Production Use Cases"))
  /\ (forall a combined,
        AnalyzeToday.read_text a = Ok combined ->
        exists cat,
          AnalyzeToday.categorize_article a = Ok cat
          /\ cat ∈ categories
          /\ cat = first_match
                     [("Production Use Cases",
                       any_match AnalyzeToday.production_indicators combined);
                      ("Frameworks & Tools",
                       any_match AnalyzeToday.framework_indicators combined);
                      ("Developer Resources",
                       any_match AnalyzeToday.resource_indicators combined);
                      ("Trends & Analysis",
                       any_match AnalyzeToday.analysis_indicators combined)]
                     "Research & Breakthroughs"
          /\ (any_match AnalyzeToday.production_indicators combined = true
              -> cat = "Production Use Cases"))
  /\ (forall a combined url,
        FilterAndGenerate.read_fields a = Ok (combined, url) ->
        exists cat,
          FilterAndGenerate.categorize_article a = Ok cat
          /\ cat ∈ categories
          /\ cat = first_match
                     [("Production Use Cases",
                       any_match FilterAndGenerate.production_indicators
                                 combined);
                      ("Frameworks & Tools",
                       any_match FilterAndGenerate.framework_indicators
                                 combined);
                      ("Developer Resources",
                       any_match FilterAndGenerate.resource_indicators
                                 combined);
                      ("Trends & Analysis",
                       any_match FilterAndGenerate.analysis_indicators
                                 combined)]
                     "Research & Breakthroughs"
          /\ (any_match FilterAndGenerate.production_indicators combined
              = true -> cat = "Production Use Cases")).
Proof.
  split; [|split].
  - intros a score content is_arxiv Hread.
    unfold AnalyzeArticles.categorize_article. rewrite Hread. cbn [bind].
    eexists. split; [reflexivity|].
    unfold AnalyzeArticles.categorize_content, categories.
    cbn [first_match].
    destruct (any_match AnalyzeArticles.production_indicators content);
      destruct (any_match AnalyzeArticles.framework_indicators content
                && negb is_arxiv);
      destruct (any_match AnalyzeArticles.resource_indicators content);
      destruct (any_match AnalyzeArticles.analysis_indicators content);
      repeat split; (discriminate || done || key_in).
  - intros a combined Hread.
    unfold AnalyzeToday.categorize_article. rewrite Hread. cbn [bind].
    eexists. split; [reflexivity|].
    unfold AnalyzeToday.categorize_text, categories. cbn [first_match].
    destruct (any_match AnalyzeToday.production_indicators combined);
      destruct (any_match AnalyzeToday.framework_indicators combined);
      destruct (any_match AnalyzeToday.resource_indicators combined);
      destruct (any_match AnalyzeToday.analysis_indicators combined);
      repeat split; (discriminate || done || key_in).
  - intros a combined url Hread.
    unfold FilterAndGenerate.categorize_article. rewrite Hread.
    cbn [bind]. eexists. split; [reflexivity|].
    unfold FilterAndGenerate.categorize_text, categories.
    cbn [first_match].
    destruct (any_match FilterAndGenerate.production_indicators combined);
      destruct (any_match FilterAndGenerate.framework_indicators combined);
      destruct (any_match FilterAndGenerate.resource_indicators combined);
      destruct (any_match FilterAndGenerate.analysis_indicators combined);
      repeat split; (discriminate || done || key_in).
Qed.
End Categories.

Lemma C7_arxiv_not_framework_witness :
  @AnalyzeArticles.read_fields Reference.runtime Samples.framework_paper
    = Ok ("a framework for agents ", true)
  /\ any_match AnalyzeArticles.framework_indicators "a framework for agents "
     = true
  /\ @AnalyzeArticles.categorize_article Reference.runtime
       Samples.framework_paper (NFloat 7.5)
     = Ok "Research & Breakthroughs".
Proof.
  split; [vm_compute; reflexivity|]. split; [vm_compute; reflexivity|].
  destruct (@C7_arxiv_not_framework_analyze_articles Reference.runtime
              Samples.framework_paper (NFloat 7.5)
              "a framework for agents ")
    as (cat & Hcat & _ & Hfall); [vm_compute; reflexivity|].
  rewrite Hcat, Hfall by (vm_compute; reflexivity).
  vm_compute. reflexivity.
Defined.

(** C7 (as stated) fails in the two other scripts, whose framework rule
    does not look at the url: both categorize an arXiv paper that mentions
    a framework [Frameworks & Tools]. *)
Lemma C7_counterexample_arxiv_framework :
  str_contains "arxiv.org" "https://arxiv.org/abs/2401.00002" = true
  /\ get Samples.framework_paper "url" (PStr "")
     = PStr "https://arxiv.org/abs/2401.00002"
  /\ @AnalyzeToday.categorize_article Reference.runtime
       Samples.framework_paper = Ok "Frameworks & Tools"
  /\ @FilterAndGenerate.categorize_article Reference.runtime
       Samples.framework_paper = Ok "Frameworks & Tools".
Proof. repeat split; vm_compute; reflexivity. Qed.

Lemma C8_category_priority_witness :
  (@AnalyzeArticles.read_fields Reference.runtime (Samples.paper 1)
     = Ok ("agentic workflow planning framework for llm code "
           +:+ "used in production.", true)
   /\ @AnalyzeArticles.categorize_article Reference.runtime
        (Samples.paper 1) (NInt 70) = Ok "Production Use Cases")
  /\ (@AnalyzeToday.read_text Reference.runtime (Samples.paper 1)
        = Ok ("agentic workflow planning framework for llm code "
              +:+ "used in production.")
      /\ any_match AnalyzeToday.framework_indicators
           ("agentic workflow planning framework for llm code "
            +:+ "used in production.") = true
      /\ @AnalyzeToday.categorize_article Reference.runtime (Samples.paper 1)
         = Ok "Production Use Cases")
  /\ (@FilterAndGenerate.read_fields Reference.runtime (Samples.paper 1)
        = Ok ("agentic workflow planning framework for llm code "
              +:+ "used in production.",
              "https://arxiv.org/abs/2401.00003")
      /\ @FilterAndGenerate.categorize_article Reference.runtime
           (Samples.paper 1) = Ok "Production Use Cases").
Proof.
  pose proof (@C8_category_priority Reference.runtime) as (HA & HT & HF).
  split; [|split].
  - split; [vm_compute; reflexivity|].
    destruct (HA (Samples.paper 1) (NInt 70) _ _ eq_refl)
      as (cat & Hcat & _ & _ & Hprod).
    rewrite Hcat, Hprod by (vm_compute; reflexivity). reflexivity.
  - split; [vm_compute; reflexivity|]. split; [vm_compute; reflexivity|].
    destruct (HT (Samples.paper 1) _ eq_refl) as (cat & Hcat & _ & _ & Hprod).
    rewrite Hcat, Hprod by (vm_compute; reflexivity). reflexivity.
  - split; [vm_compute; reflexivity|].
    destruct (HF (Samples.paper 1) _ _ eq_refl)
      as (cat & Hcat & _ & _ & Hprod).
    rewrite Hcat, Hprod by (vm_compute; reflexivity). reflexivity.
Defined.

Section Configuration.
Context {FR : CollectArticles.FeedRuntime}.
Import CollectArticles.



End Configuration.



Section Dependence.
Context {RT : Runtime}.

(** The keys read by some scorer or categorizer. *)
Lemma T_score_article_agree (a b : article) :
  agree_on ["title"; "description"; "url"] a b ->
  AnalyzeToday.score_article a = AnalyzeToday.score_article b.
Proof.
  intros Hagree. unfold AnalyzeToday.score_article.
  rewrite (agree_on_get _ a b "title" _ Hagree) by key_in.
  rewrite (agree_on_get _ a b "description" _ Hagree) by key_in.
  by rewrite (agree_on_get _ a b "url" _ Hagree) by key_in.
Qed.

Lemma T_categorize_article_agree (a b : article) :
  agree_on ["title"; "description"] a b ->
  AnalyzeToday.categorize_article a = AnalyzeToday.categorize_article b.
Proof.
  intros Hagree.
  unfold AnalyzeToday.categorize_article, AnalyzeToday.read_text.
  rewrite (agree_on_get _ a b "title" _ Hagree) by key_in.
  by rewrite (agree_on_get _ a b "description" _ Hagree) by key_in.
Qed.

(** C10: two articles that agree on [title], [summary], [description],
    [link] and [url] get the same score and the same category from each of
    the three scripts, whatever their other fields ([source], [tags],
    [author], [published], ...) hold; the categorizer of
    analyze_articles.py does not depend on the score it is given. *)
Theorem C10_fields_read (a b : article) :
  agree_on ["title"; "summary"; "description"; "link"; "url"] a b ->
  (AnalyzeArticles.score_article a = AnalyzeArticles.score_article b
   /\ forall score score',
        AnalyzeArticles.categorize_article a score
        = AnalyzeArticles.categorize_article b score')
  /\ (AnalyzeToday.score_article a = AnalyzeToday.score_article b
      /\ AnalyzeToday.categorize_article a
         = AnalyzeToday.categorize_article b)
  /\ (FilterAndGenerate.score_article a = FilterAndGenerate.score_article b
      /\ FilterAndGenerate.categorize_article a
         = FilterAndGenerate.categorize_article b).
Proof.
  intros Hagree.
  assert (HA : AnalyzeArticles.read_fields a = AnalyzeArticles.read_fields b)
    by by apply A_read_fields_agree.
  assert (HF : agree_on F_keys a b).
  { eapply agree_on_weaken; [|exact Hagree].
    intros k Hk. unfold F_keys in Hk.
    repeat (apply elem_of_cons in Hk as [->|Hk]; [key_in|]).
    by apply elem_of_nil in Hk. }
  split; [|split]; split.
  - unfold AnalyzeArticles.score_article. by rewrite HA.
  - intros score score'. unfold AnalyzeArticles.categorize_article.
    by rewrite HA.
  - apply T_score_article_agree. exact HF.
  - apply T_categorize_article_agree.
    eapply agree_on_weaken; [|exact HF].
    intros k Hk. unfold F_keys.
    repeat (apply elem_of_cons in Hk as [->|Hk]; [key_in|]).
    by apply elem_of_nil in Hk.
  - by apply F_score_article_agree.
  - by apply F_categorize_article_agree.
Qed.
End Dependence.

Lemma C10_fields_read_witness :
  let other :=
    <["source" := PStr "Another Feed"]> $
    <["tags" := PList [PStr "ml"]]> $
    <["author" := PStr "Someone Else"]> $
    <["published" := PStr "Unknown"]> (Samples.post 1) in
  agree_on ["title"; "summary"; "description"; "link"; "url"]
           (Samples.post 1) other
  /\ other <> Samples.post 1
  /\ @AnalyzeArticles.score_article Reference.runtime other
     = Ok (NInt 60, "agent keywords (4); production focus (1)")
  /\ @AnalyzeToday.score_article Reference.runtime other = Ok 100
  /\ @FilterAndGenerate.score_article Reference.runtime other = Ok 75.
Proof.
  intros other.
  assert (Hagree : agree_on ["title"; "summary"; "description"; "link"; "url"]
                            (Samples.post 1) other).
  { intros k Hk.
    repeat (apply elem_of_cons in Hk as [->|Hk]; [vm_compute; reflexivity|]).
    by apply elem_of_nil in Hk. }
  destruct (@C10_fields_read Reference.runtime (Samples.post 1) other Hagree)
    as ((HA & _) & (HT & _) & (HF & _)).
  split; [exact Hagree|]. split.
  { intros Heq. apply (f_equal (fun m : article => m !! "source")) in Heq.
    vm_compute in Heq. discriminate. }
  rewrite <- HA, <- HT, <- HF. repeat split; vm_compute; reflexivity.
Defined.

(** ** Further properties of the scorers *)

Section ScorerFacts.
Context {RT : Runtime}.

(** X1: [score_article] of analyze_today.py fails only with
    [AttributeError], and exactly when [title] or [url] is present and is
    not a string: a missing key and a [description] of any type are
    accepted.  The score is between 0 and 100; an article whose url does
    not contain [arxiv.org] scores at least 10, an arXiv one at most 95. *)
Theorem X1_analyze_today_score (a : article) :
  match AnalyzeToday.score_article a with
  | Ok score =>
      T_well_typed a
      /\ 0 <= score <= 100
      /\ forall url, get a "url" (PStr "") = PStr url ->
           if str_contains "arxiv.org" (lower url)
           then score <= 95 else 10 <= score
  | Raise e => e = AttributeError /\ ~ T_well_typed a
  end.
Proof.
  destruct (AnalyzeToday.score_article a) as [score|e] eqn:Hscore.
  - split; [apply T_score_article_total; eauto|].
    split; [by eapply T_score_article_range|].
    intros url Hurl. unfold AnalyzeToday.score_article in Hscore.
    inv_bind Hscore. rewrite Hurl in Hscore. cbn [py_lower bind] in Hscore.
    injection Hscore as <-. unfold AnalyzeToday.score_text. cbv zeta.
    pose proof (count_matches_nonneg AnalyzeToday.agentic_keywords
                  (x +:+ " " +:+
                   lower (py_str (get a "description" (PStr ""))))).
    destruct (str_contains "arxiv.org" (lower url)); cbn [negb].
    all: repeat match goal with
                | |- context [if ?b then _ else _] => destruct b
                end; lia.
  - split.
    + unfold AnalyzeToday.score_article in Hscore.
      destruct (get a "title" (PStr "")); cbn in Hscore;
        try (by injection Hscore as <-);
        destruct (get a "url" (PStr "")); cbn in Hscore;
        by (discriminate || injection Hscore as <-).
    + intros [score' Hs]%T_score_article_total. congruence.
Qed.

(** X2: [score_article] of filter_and_generate.py fails only with
    [AttributeError], and exactly when [title], [description] or [url] is
    present and is not a string.  The score never exceeds 80, so the upper
    clamp at 100 is never reached; an article whose url does not contain
    [arxiv.org] scores between 10 and 75. *)
Theorem X2_filter_and_generate_score (a : article) :
  match FilterAndGenerate.score_article a with
  | Ok score =>
      F_well_typed a
      /\ 0 <= score <= 80
      /\ forall url, get a "url" (PStr "") = PStr url ->
           str_contains "arxiv.org" (lower url) = false ->
           10 <= score <= 75
  | Raise e => e = AttributeError /\ ~ F_well_typed a
  end.
Proof.
  destruct (FilterAndGenerate.score_article a) as [score|e] eqn:Hscore.
  - split; [apply F_score_article_total; eauto|].
    unfold FilterAndGenerate.score_article, FilterAndGenerate.read_fields
      in Hscore.
    inv_bind Hscore. destruct x as [combined url'].
    inv_bind Hx. inv_bind Hx. inv_bind Hx. injection Hx as <- <-.
    injection Hscore as <-. unfold FilterAndGenerate.score_text.
    cbv zeta. split.
    + match goal with
      | |- context [str_contains "arxiv.org" ?u] =>
          destruct (str_contains "arxiv.org" u)
      end; cbn [negb];
        repeat match goal with
               | |- context [if ?b then _ else _] => destruct b
               end; lia.
    + intros url Hurl Hother. rewrite Hurl in Hx2.
      injection Hx2 as <-. rewrite Hother. cbn [negb].
      repeat match goal with
             | |- context [if ?b then _ else _] => destruct b
             end; lia.
  - split.
    + unfold FilterAndGenerate.score_article, FilterAndGenerate.read_fields
        in Hscore.
      destruct (get a "title" (PStr "")); cbn in Hscore;
        try (by injection Hscore as <-);
        destruct (get a "description" (PStr "")); cbn in Hscore;
        try (by injection Hscore as <-);
        destruct (get a "url" (PStr "")); cbn in Hscore;
        by (discriminate || injection Hscore as <-).
    + intros [score' Hs]%F_score_article_total. congruence.
Qed.
End ScorerFacts.

(** ** Further properties of [src/analyze_articles.py] *)

Section AnalyzeArticlesMore.
Context {RT : Runtime}.
Import AnalyzeArticles.

Lemma A_score_article_fields (a : article) (score : pynum) (reason : string) :
  score_article a = Ok (score, reason) ->
  exists content is_arxiv,
    read_fields a = Ok (content, is_arxiv)
    /\ score = (score_content content is_arxiv).1.
Proof.
  unfold score_article. intros H. inv_bind H.
  destruct x as [content is_arxiv]. injection H as H.
  exists content, is_arxiv. split; [exact Hx|]. by rewrite H.
Qed.

(** X3: [score_article] of analyze_articles.py returns 0 exactly for the
    articles without an agent keyword.  Every other article gets either an
    integer between 15 and 100, or, when it is an arXiv article without a
    production keyword, the float that is three tenths of its integer
    total. *)
Theorem X3_analyze_articles_zero_iff_gated
    (a : article) (score : pynum) (reason : string) :
  score_article a = Ok (score, reason) ->
  exists content is_arxiv,
    read_fields a = Ok (content, is_arxiv)
    /\ (score = NInt 0 <-> count_matches agent_keywords content = 0)
    /\ (count_matches agent_keywords content <> 0 ->
        (exists z, score = NInt z /\ 15 <= z <= 100)
        \/ (is_arxiv = true
            /\ count_matches production_keywords content = 0
            /\ score = NFloat (py_mul_float (A_raw_score content)
                                           float_0_3))).
Proof.
  intros (content & is_arxiv & Hread & ->)%A_score_article_fields.
  exists content, is_arxiv. split; [exact Hread|].
  destruct (Z.eq_dec (count_matches agent_keywords content) 0) as [Ha|Ha].
  - split; [|done]. rewrite A_score_content_cases.
    by rewrite (proj2 (Z.eqb_eq _ _) Ha).
  - assert (Hcases :
      (exists z, (score_content content is_arxiv).1 = NInt z
                 /\ 15 <= z <= 100)
      \/ (is_arxiv = true
          /\ count_matches production_keywords content = 0
          /\ (score_content content is_arxiv).1
             = NFloat (py_mul_float (A_raw_score content) float_0_3))).
    { destruct (is_arxiv
                && (count_matches production_keywords content =? 0))
        eqn:Hcase.
      - apply andb_true_iff in Hcase as [-> Hp%Z.eqb_eq]. right.
        destruct (A_score_content_float content Ha Hp) as [Hf _].
        by repeat split.
      - left. rewrite A_score_content_cases.
        rewrite (proj2 (Z.eqb_neq _ _) Ha), Hcase.
        pose proof (A_raw_score_range content Ha).
        unfold py_min, py_ltb.
        destruct (Z.ltb_spec 100 (A_raw_score content)); eexists;
          (split; [reflexivity|lia]). }
    split; [|intros _; exact Hcases]. split; [|done].
    intros Hzero. destruct Hcases as [(z & Hz & Hrange)|(_ & _ & Hf)].
    + rewrite Hz in Hzero. injection Hzero as ->. lia.
    + rewrite Hf in Hzero. discriminate.
Qed.

(** X4: analyze_articles.py never selects an arXiv article that has no
    production keyword: the arXiv penalty leaves its score below the
    threshold of 60, however many agent and framework keywords it has. *)
Theorem X4_arxiv_without_production_not_selected
    (a : article) (content : string) :
  read_fields a = Ok (content, true) ->
  count_matches production_keywords content = 0 ->
  forall clock collected out,
    main clock collected = Ok out ->
    forall it, it ∈ articles out -> it_article it <> a.
Proof.
  intros Hread Hproduction clock collected out Hmain it Hit Heq.
  destruct (A_main_articles_scored _ _ _ _ Hmain Hit)
    as [(Hscore & Hkept & _) _].
  apply A_score_article_fields in Hscore
    as (content' & is_arxiv & Hread' & Hs).
  rewrite Heq, Hread in Hread'. injection Hread' as <- <-.
  rewrite Hs in Hkept.
  destruct (Z.eq_dec (count_matches agent_keywords content) 0) as [Ha|Ha].
  - rewrite A_score_content_cases, (proj2 (Z.eqb_eq _ _) Ha) in Hkept.
    discriminate.
  - destruct (A_score_content_float content Ha Hproduction) as [_ H60].
    congruence.
Qed.

Lemma cutoff_time_Ok (now hours cutoff : Z) :
  cutoff_time now hours = Ok cutoff -> cutoff = now - hours * us_per_hour.
Proof.
  unfold cutoff_time. intros H.
  destruct (_ || _); [discriminate|]. destruct (_ || _); [discriminate|].
  by injection H as <-.
Qed.


(** X6: a longer lookback window never rejects what a shorter one
    accepts, as long as its cutoff is a datetime. *)
Theorem X6_is_recent_monotone (now hours hours' : Z) (published : pyval) :
  is_recent now published hours = true ->
  hours <= hours' ->
  cutoff_time now hours' = Ok (now - hours' * us_per_hour) ->
  is_recent now published hours' = true.
Proof.
  intros (s & instant & offset & cutoff & -> & Hiso & Hcutoff & Hle)
    %A_is_recent_true Hhours Hcutoff'.
  apply cutoff_time_Ok in Hcutoff as ->.
  unfold is_recent. rewrite Hiso, Hcutoff'. cbn [bind try_except].
  apply Z.leb_le. unfold us_per_hour in *. lia.
Qed.
End AnalyzeArticlesMore.

Lemma X3_analyze_articles_zero_iff_gated_witness :
  @AnalyzeArticles.score_article Reference.runtime (Samples.paper 1)
    = Ok (NInt 70,
          "agent keywords (4); production focus (1); framework/tool (1); "
          +:+ "arXiv with production relevance")
  /\ exists content is_arxiv,
       @AnalyzeArticles.read_fields Reference.runtime (Samples.paper 1)
         = Ok (content, is_arxiv)
       /\ count_matches AnalyzeArticles.agent_keywords content <> 0.
Proof.
  assert (Hscore :
    @AnalyzeArticles.score_article Reference.runtime (Samples.paper 1)
    = Ok (NInt 70,
          "agent keywords (4); production focus (1); framework/tool (1); "
          +:+ "arXiv with production relevance"))
    by (vm_compute; reflexivity).
  split; [exact Hscore|].
  destruct (@X3_analyze_articles_zero_iff_gated Reference.runtime _ _ _
              Hscore) as (content & is_arxiv & Hread & Hzero & _).
  exists content, is_arxiv. split; [exact Hread|].
  intros Hgate. apply Hzero in Hgate. discriminate.
Defined.

Lemma X4_arxiv_without_production_not_selected_witness :
  @AnalyzeArticles.read_fields Reference.runtime Samples.framework_paper
    = Ok ("a framework for agents ", true)
  /\ count_matches AnalyzeArticles.production_keywords
       "a framework for agents " = 0
  /\ exists out,
       @AnalyzeArticles.main Reference.runtime Samples.clock
         [Samples.framework_paper; Samples.verified_article] = Ok out
       /\ forall it, it ∈ AnalyzeArticles.articles out ->
            AnalyzeArticles.it_article it <> Samples.framework_paper.
Proof.
  split; [vm_compute; reflexivity|]. split; [vm_compute; reflexivity|].
  evaluated
    (match @AnalyzeArticles.main Reference.runtime Samples.clock
             [Samples.framework_paper; Samples.verified_article] with
     | Ok out => length (AnalyzeArticles.articles out) = 1%nat
     | Raise _ => False
     end) as out from Hrun by Hfact.
  exists out. split; [reflexivity|].
  apply (@X4_arxiv_without_production_not_selected Reference.runtime
           Samples.framework_paper "a framework for agents "
           ltac:(vm_compute; reflexivity) ltac:(vm_compute; reflexivity)
           _ _ _ Hrun).
Defined.


Lemma X6_is_recent_monotone_witness :
  @AnalyzeArticles.is_recent Reference.runtime Samples.noon
    (PStr "2024-05-02T06:00:00+00:00") 24 = true
  /\ 24 <= 48
  /\ @AnalyzeArticles.is_recent Reference.runtime Samples.noon
       (PStr "2024-05-02T06:00:00+00:00") 48 = true.
Proof.
  assert (H24 : @AnalyzeArticles.is_recent Reference.runtime Samples.noon
                  (PStr "2024-05-02T06:00:00+00:00") 24 = true)
    by (vm_compute; reflexivity).
  split; [exact H24|]. split; [lia|].
  apply (@X6_is_recent_monotone Reference.runtime Samples.noon 24 48 _ H24);
    [lia|vm_compute; reflexivity].
Defined.

(** ** Further properties of the three [main] functions *)

Section OutputFacts.
Context {RT : Runtime}.

(** X7: the counts that the three scripts write beside the selection are
    consistent: the selected count is the length of the selection, and
    selected <= high scoring <= (recent <=) collected. *)
Theorem X7_output_counts :
  (forall clock collected out,
     AnalyzeArticles.main clock collected = Ok out ->
     AnalyzeArticles.after_arxiv_limit out
       = length (AnalyzeArticles.articles out)
     /\ AnalyzeArticles.total_collected out = length collected
     /\ (AnalyzeArticles.after_arxiv_limit out
         <= AnalyzeArticles.high_scoring out
         <= AnalyzeArticles.recent_articles out)%nat
     /\ (AnalyzeArticles.recent_articles out
         <= AnalyzeArticles.total_collected out)%nat)
  /\ (forall collected out,
        AnalyzeToday.written collected = Ok out ->
        AnalyzeToday.selected_count out
          = length (AnalyzeToday.articles out)
        /\ AnalyzeToday.total_collected out = length collected
        /\ (AnalyzeToday.selected_count out
            <= AnalyzeToday.high_scoring out
            <= AnalyzeToday.total_collected out)%nat)
  /\ (forall collected out,
        FilterAndGenerate.written collected = Ok out ->
        FilterAndGenerate.selected_count out
          = length (FilterAndGenerate.articles out)
        /\ (FilterAndGenerate.selected_count out
            <= FilterAndGenerate.total_scored out
            <= length collected)%nat).
Proof.
  split; [|split].
  - intros clock collected out Hmain. unfold AnalyzeArticles.main in Hmain.
    inv_bind Hmain. inv_bind Hmain. injection Hmain as <-.
    cbn [AnalyzeArticles.after_arxiv_limit AnalyzeArticles.articles
         AnalyzeArticles.total_collected AnalyzeArticles.high_scoring
         AnalyzeArticles.recent_articles].
    apply A_limit_loop_spec in Hx0. rewrite app_nil_l in Hx0. subst x0.
    apply A_score_loop_spec in Hx as [_ Hsub%sublist_length].
    rewrite length_map in Hsub.
    pose proof (sublist_length _ _
                  (cap_filter_sublist A_is_arxiv AnalyzeArticles.arxiv_limit 0
                     (sort_desc AnalyzeArticles.it_score py_ltb x))) as Hcap.
    rewrite !sort_desc_length in *.
    pose proof (sublist_length _ _
                  (recent_from_sublist clock 0 collected)).
    repeat split; (reflexivity || lia).
  - intros collected out Hmain. unfold AnalyzeToday.written in Hmain.
    inv_bind Hmain. inv_bind Hmain. injection Hmain as <-.
    cbn [AnalyzeToday.selected_count AnalyzeToday.articles
         AnalyzeToday.total_collected AnalyzeToday.high_scoring].
    apply T_select_loop_spec in Hx0. rewrite app_nil_l in Hx0. subst x0.
    apply T_score_loop_spec in Hx as [_ Hsub%sublist_length].
    rewrite length_map in Hsub.
    pose proof (sublist_length _ _
                  (cap_filter_sublist T_is_arxiv AnalyzeToday.max_arxiv 0
                     (sort_desc AnalyzeToday.it_score Z.ltb x))) as Hcap.
    rewrite !sort_desc_length in *. rewrite length_take.
    repeat split; (reflexivity || lia).
  - intros collected out Hmain. unfold FilterAndGenerate.written in Hmain.
    inv_bind Hmain. inv_bind Hmain. destruct x0 as [selected counts].
    injection Hmain as <-.
    cbn [FilterAndGenerate.selected_count FilterAndGenerate.articles
         FilterAndGenerate.total_scored].
    apply F_select_loop_spec in Hx0. cbn [fst] in Hx0.
    rewrite app_nil_l in Hx0. subst selected.
    apply F_score_loop_spec in Hx as (kept & Hkept%sublist_length & Hall).
    apply Forall2_length in Hall.
    pose proof (sublist_length _ _
                  (cap_filter_sublist F_is_arxiv FilterAndGenerate.max_arxiv 0
                     (sort_desc FilterAndGenerate.relevance_score Z.ltb x)))
      as Hcap.
    rewrite !sort_desc_length in *. rewrite length_take.
    repeat split; (reflexivity || lia).
Qed.

Lemma T_categorize_text_in (combined : string) :
  AnalyzeToday.categorize_text combined ∈ categories.
Proof.
  unfold AnalyzeToday.categorize_text, categories.
  repeat match goal with
         | |- context [if ?b then _ else _] => destruct b
         end; key_in.
Qed.

Lemma F_categorize_text_in (combined : string) :
  FilterAndGenerate.categorize_text combined ∈ categories.
Proof.
  unfold FilterAndGenerate.categorize_text, categories.
  repeat match goal with
         | |- context [if ?b then _ else _] => destruct b
         end; key_in.
Qed.

Lemma A_categorize_content_in (content : string) (is_arxiv : bool) :
  AnalyzeArticles.categorize_content content is_arxiv ∈ categories.
Proof.
  unfold AnalyzeArticles.categorize_content, categories.
  repeat match goal with
         | |- context [if ?b then _ else _] => destruct b
         end; key_in.
Qed.

(** X8: every item of a selection is an input article together with the
    score the scorer gives it, which is at least 60 and at most 100, and
    the category the categorizer gives it, which is one of the five labels.
    In filter_and_generate.py the item is the input dictionary with the
    keys [relevance_score] and [category] set, and every other key of the
    input is unchanged. *)
Theorem X8_selected_items :
  (forall clock collected out it,
     AnalyzeArticles.main clock collected = Ok out ->
     it ∈ AnalyzeArticles.articles out ->
     AnalyzeArticles.it_article it ∈ collected
     /\ AnalyzeArticles.score_article (AnalyzeArticles.it_article it)
        = Ok (AnalyzeArticles.it_score it, AnalyzeArticles.it_reason it)
     /\ (exists z, AnalyzeArticles.it_score it = NInt z /\ 60 <= z <= 100)
     /\ AnalyzeArticles.categorize_article (AnalyzeArticles.it_article it)
          (AnalyzeArticles.it_score it)
        = Ok (AnalyzeArticles.it_category it)
     /\ AnalyzeArticles.it_category it ∈ categories)
  /\ (forall collected out it,
        AnalyzeToday.written collected = Ok out ->
        it ∈ AnalyzeToday.articles out ->
        AnalyzeToday.it_article it ∈ collected
        /\ AnalyzeToday.score_article (AnalyzeToday.it_article it)
           = Ok (AnalyzeToday.it_score it)
        /\ 60 <= AnalyzeToday.it_score it <= 100
        /\ AnalyzeToday.categorize_article (AnalyzeToday.it_article it)
           = Ok (AnalyzeToday.it_category it)
        /\ AnalyzeToday.it_category it ∈ categories)
  /\ (forall collected out x,
        FilterAndGenerate.written collected = Ok out ->
        x ∈ FilterAndGenerate.articles out ->
        exists a score cat,
          a ∈ collected
          /\ FilterAndGenerate.score_article a = Ok score
          /\ 60 <= score <= 100
          /\ FilterAndGenerate.categorize_article a = Ok cat
          /\ cat ∈ categories
          /\ x = <["category" := PStr cat]>
                   (<["relevance_score" := PInt score]> a)
          /\ forall k, k <> "category" -> k <> "relevance_score" ->
                       x !! k = a !! k).
Proof.
  split; [|split].
  - intros clock collected out it Hmain Hit.
    destruct (A_main_articles_scored _ _ _ _ Hmain Hit)
      as [Hitem Hrecent].
    pose proof (A_scored_item_int it Hitem) as Hint.
    destruct Hitem as (Hscore & _ & Hcat).
    split; [by eapply elem_of_sublist, recent_from_sublist|].
    repeat split; try done.
    unfold AnalyzeArticles.categorize_article in Hcat. inv_bind Hcat.
    destruct x as [content is_arxiv]. injection Hcat as <-.
    apply A_categorize_content_in.
  - intros collected out it (scored & Hscored & Hout)%T_written_spec Hit.
    rewrite Hout in Hit.
    pose proof (elem_of_sublist _ _ _ Hit (sublist_take _ _)) as Hcap.
    pose proof (elem_of_sublist _ _ _ Hcap (cap_filter_sublist _ _ _ _))
      as Hsorted.
    apply sort_desc_elem_of in Hsorted.
    apply T_score_loop_spec in Hscored as [Hall Hsub].
    apply (proj1 (list.Forall_forall _ _) Hall) in Hsorted as Hitem.
    destruct Hitem as (Hscore & Hge & Hcat).
    pose proof (T_score_article_range _ _ Hscore).
    split.
    { eapply elem_of_sublist; [|exact Hsub].
      apply list_elem_of_fmap. eauto. }
    repeat split; try done; try lia.
    unfold AnalyzeToday.categorize_article in Hcat. inv_bind Hcat.
    injection Hcat as <-. apply T_categorize_text_in.
  - intros collected out x (scored & Hscored & Hout)%F_written_spec Hx.
    rewrite Hout in Hx.
    pose proof (elem_of_sublist _ _ _ Hx (sublist_take _ _)) as Hcap.
    pose proof (elem_of_sublist _ _ _ Hcap (cap_filter_sublist _ _ _ _))
      as Hsorted.
    apply sort_desc_elem_of in Hsorted.
    apply F_score_loop_spec in Hscored as (kept & Hkept & Hall).
    apply list_elem_of_lookup in Hsorted as [i Hi].
    destruct (Forall2_lookup_r _ _ _ _ _ Hall Hi)
      as (a & Ha & (score & cat & Hscore & Hge & Hcat & ->)).
    exists a, score, cat.
    pose proof (F_score_article_range _ _ Hscore).
    split.
    { eapply elem_of_sublist; [|exact Hkept].
      apply list_elem_of_lookup. eauto. }
    repeat split; try done; try lia.
    + unfold FilterAndGenerate.categorize_article in Hcat. inv_bind Hcat.
      destruct x as [combined url]. injection Hcat as <-.
      apply F_categorize_text_in.
    + intros k Hk1 Hk2. by rewrite !lookup_insert_ne.
Qed.
End OutputFacts.

Lemma X7_output_counts_witness :
  (exists out,
     @AnalyzeArticles.main Reference.runtime Samples.clock
       (Samples.unverified_article :: Samples.enterprise_article
        :: Samples.five_papers_one_post) = Ok out
     /\ (AnalyzeArticles.total_collected out,
         AnalyzeArticles.recent_articles out,
         AnalyzeArticles.high_scoring out,
         AnalyzeArticles.after_arxiv_limit out) = (8, 6, 6, 4)%nat
     /\ AnalyzeArticles.after_arxiv_limit out
        = length (AnalyzeArticles.articles out))
  /\ (exists out,
        @AnalyzeToday.written Reference.runtime
          (Samples.agent_paper :: Samples.five_papers_one_post) = Ok out
        /\ (AnalyzeToday.total_collected out, AnalyzeToday.high_scoring out,
            AnalyzeToday.selected_count out) = (7, 6, 4)%nat
        /\ AnalyzeToday.selected_count out
           = length (AnalyzeToday.articles out))
  /\ (exists out,
        @FilterAndGenerate.written Reference.runtime
          (Samples.agent_paper :: Samples.five_papers_one_post) = Ok out
        /\ (FilterAndGenerate.total_scored out,
            FilterAndGenerate.selected_count out) = (6, 4)%nat
        /\ FilterAndGenerate.selected_count out
           = length (FilterAndGenerate.articles out)).
Proof.
  pose proof (@X7_output_counts Reference.runtime) as (HA & HT & HF).
  split; [|split].
  - evaluated
      (match @AnalyzeArticles.main Reference.runtime Samples.clock
               (Samples.unverified_article :: Samples.enterprise_article
                :: Samples.five_papers_one_post) with
       | Ok out =>
           (AnalyzeArticles.total_collected out,
            AnalyzeArticles.recent_articles out,
            AnalyzeArticles.high_scoring out,
            AnalyzeArticles.after_arxiv_limit out) = (8, 6, 6, 4)%nat
       | Raise _ => False
       end) as out from Hrun by Hfact.
    exists out. split; [reflexivity|]. split; [exact Hfact|].
    apply (HA _ _ _ Hrun).
  - evaluated
      (match @AnalyzeToday.written Reference.runtime
               (Samples.agent_paper :: Samples.five_papers_one_post) with
       | Ok out =>
           (AnalyzeToday.total_collected out, AnalyzeToday.high_scoring out,
            AnalyzeToday.selected_count out) = (7, 6, 4)%nat
       | Raise _ => False
       end) as out from Hrun by Hfact.
    exists out. split; [reflexivity|]. split; [exact Hfact|].
    apply (HT _ _ Hrun).
  - evaluated
      (match @FilterAndGenerate.written Reference.runtime
               (Samples.agent_paper :: Samples.five_papers_one_post) with
       | Ok out =>
           (FilterAndGenerate.total_scored out,
            FilterAndGenerate.selected_count out) = (6, 4)%nat
       | Raise _ => False
       end) as out from Hrun by Hfact.
    exists out. split; [reflexivity|]. split; [exact Hfact|].
    apply (HF _ _ Hrun).
Defined.

Lemma X8_selected_items_witness :
  exists out x,
    @FilterAndGenerate.written Reference.runtime [Samples.post 1] = Ok out
    /\ FilterAndGenerate.articles out = [x]
    /\ x !! "relevance_score" = Some (PInt 75)
    /\ x !! "category" = Some (PStr "Production Use Cases")
    /\ exists a score cat,
         a ∈ [Samples.post 1]
         /\ @FilterAndGenerate.score_article Reference.runtime a = Ok score
         /\ 60 <= score <= 100
         /\ @FilterAndGenerate.categorize_article Reference.runtime a = Ok cat
         /\ cat ∈ categories
         /\ x = <["category" := PStr cat]>
                  (<["relevance_score" := PInt score]> a).
Proof.
  evaluated
    (match @FilterAndGenerate.written Reference.runtime
             [Samples.post 1] with
     | Ok out =>
         match FilterAndGenerate.articles out with
         | [x] =>
             x !! "relevance_score" = Some (PInt 75)
             /\ x !! "category" = Some (PStr "Production Use Cases")
         | _ => False
         end
     | Raise _ => False
     end) as out from Hrun by Hfact.
  destruct (FilterAndGenerate.articles out) as [|x [|]] eqn:Harticles;
    try contradiction.
  destruct Hfact as [Hscore Hcat].
  exists out, x. split; [reflexivity|]. split; [exact Harticles|].
  split; [exact Hscore|]. split; [exact Hcat|].
  destruct (proj2 (proj2 (@X8_selected_items Reference.runtime))
              [Samples.post 1] out x Hrun
              ltac:(rewrite Harticles; apply list_elem_of_here))
    as (a & score & cat & Ha & Hs & Hrange & Hc & Hin & Hx & _).
  exists a, score, cat.
  exact (conj Ha (conj Hs (conj Hrange (conj Hc (conj Hin Hx))))).
Defined.

(** ** The category counts of [filter_and_generate.py] *)

Section CategoryCounts.
Context {RT : Runtime}.
Import FilterAndGenerate.

(** The loop adds one to the count of the category of each article it
    appends. *)
Lemma F_select_loop_counts (selected : list article)
    (counts : gmap string Z) (arxiv_count : nat) (scored : list article)
    (selected' : list article) (counts' : gmap string Z) :
  select_loop selected counts arxiv_count scored = Ok (selected', counts') ->
  exists added,
    selected' = selected ++ added
    /\ forall cat,
         default 0 (counts' !! cat)
         = default 0 (counts !! cat)
           + Z.of_nat (count_of (has_category cat) added).
Proof.
  revert selected counts arxiv_count.
  induction scored as [|a rest IH]; intros selected counts arxiv_count H.
  - injection H as <- <-. exists []. rewrite app_nil_r.
    split; [reflexivity|]. intros cat. unfold count_of. simpl. lia.
  - cbn [select_loop] in H.
    destruct (max_selected <=? length selected)%nat.
    { injection H as <- <-. exists []. rewrite app_nil_r.
      split; [reflexivity|]. intros cat. unfold count_of. simpl. lia. }
    inv_bind H.
    assert (Haccept : forall n,
      match a !! "category" with
      | Some (PStr category) =>
          select_loop (selected ++ [a])
            (<[category := default 0 (counts !! category) + 1]> counts)
            n rest
      | Some _ => Raise TypeError
      | None => Raise KeyError
      end = Ok (selected', counts') ->
      exists added,
        selected' = selected ++ added
        /\ forall cat,
             default 0 (counts' !! cat)
             = default 0 (counts !! cat)
               + Z.of_nat (count_of (has_category cat) added)).
    { intros n Hn.
      destruct (a !! "category") as [[| | | |category| |]|] eqn:Hcat;
        try discriminate.
      apply IH in Hn as (added & -> & Hcounts).
      exists (a :: added). rewrite <- app_assoc. split; [reflexivity|].
      intros cat. rewrite Hcounts. unfold count_of. cbn [List.filter].
      unfold has_category at 2. rewrite Hcat.
      destruct (String.eqb_spec category cat) as [->|Hne].
      - rewrite lookup_insert_eq. cbn [default from_option id length].
        lia.
      - rewrite lookup_insert_ne by done. lia. }
    destruct x; [destruct (max_arxiv <=? arxiv_count)%nat|]; eauto.
Qed.

(** Every selected article was built by the scoring loop from an article
    of the input. *)
Lemma F_written_articles_scored (collected : list article) (out : output)
    (x : article) :
  written collected = Ok out -> x ∈ articles out ->
  exists a, a ∈ collected /\ F_scored_from a x.
Proof.
  intros (scored & Hscored & Hout)%F_written_spec Hx. rewrite Hout in Hx.
  pose proof (elem_of_sublist _ _ _ Hx (sublist_take _ _)) as Hcap.
  pose proof (elem_of_sublist _ _ _ Hcap (cap_filter_sublist _ _ _ _))
    as Hsorted.
  apply sort_desc_elem_of in Hsorted.
  apply F_score_loop_spec in Hscored as (kept & Hkept & Hall).
  apply list_elem_of_lookup in Hsorted as [i Hi].
  destruct (Forall2_lookup_r _ _ _ _ _ Hall Hi) as (a & Ha & Hfrom).
  exists a. split; [|exact Hfrom].
  eapply elem_of_sublist; [|exact Hkept].
  apply list_elem_of_lookup. eauto.
Qed.

(** An entry of the counts is created at one and only grows. *)
Lemma F_select_loop_positive (scored selected : list article)
    (counts : gmap string Z) (arxiv_count : nat)
    (selected' : list article) (counts' : gmap string Z) :
  select_loop selected counts arxiv_count scored = Ok (selected', counts') ->
  (forall cat n, counts !! cat = Some n -> 0 < n) ->
  forall cat n, counts' !! cat = Some n -> 0 < n.
Proof.
  revert selected counts arxiv_count.
  induction scored as [|a rest IH]; intros selected counts arxiv_count H Hpos.
  - by injection H as <- <-.
  - cbn [select_loop] in H.
    destruct (max_selected <=? length selected)%nat;
      [by injection H as <- <-|].
    inv_bind H.
    assert (Haccept : forall m,
      match a !! "category" with
      | Some (PStr category) =>
          select_loop (selected ++ [a])
            (<[category := default 0 (counts !! category) + 1]> counts)
            m rest
      | Some _ => Raise TypeError
      | None => Raise KeyError
      end = Ok (selected', counts') ->
      forall cat n, counts' !! cat = Some n -> 0 < n).
    { intros m Hm.
      destruct (a !! "category") as [[| | | |category| |]|];
        try discriminate.
      eapply IH; [exact Hm|]. intros cat n.
      destruct (decide (category = cat)) as [->|Hne].
      - rewrite lookup_insert_eq. intros [= <-].
        destruct (counts !! cat) as [n0|] eqn:Hn0; simpl; [|lia].
        specialize (Hpos _ _ Hn0). lia.
      - rewrite lookup_insert_ne by done. apply Hpos. }
    destruct x; [destruct (max_arxiv <=? arxiv_count)%nat|]; eauto.
Qed.

(** X9: the [category_distribution] that filter_and_generate.py writes
    counts the selected articles: the count of a category is the number of
    selected articles that carry it, an entry is never zero (a category
    without selected article has no entry), and every selected article
    carries one of the five labels. *)
Theorem X9_category_distribution (collected : list article) (out : output) :
  written collected = Ok out ->
  (forall cat,
     default 0 (category_distribution out !! cat)
     = Z.of_nat (count_of (has_category cat) (articles out)))
  /\ (forall cat n, category_distribution out !! cat = Some n -> 0 < n)
  /\ (forall x, x ∈ articles out ->
        exists cat, x !! "category" = Some (PStr cat) /\ cat ∈ categories).
Proof.
  intros Hmain.
  assert (Hitems : forall x, x ∈ articles out ->
            exists cat, x !! "category" = Some (PStr cat)
                        /\ cat ∈ categories).
  { intros x Hx.
    destruct (F_written_articles_scored _ _ _ Hmain Hx)
      as (a & _ & (score & cat & _ & _ & Hcat & ->)).
    exists cat. rewrite lookup_insert_eq. split; [reflexivity|].
    unfold categorize_article in Hcat. inv_bind Hcat.
    destruct x as [combined url]. injection Hcat as <-.
    apply F_categorize_text_in. }
  unfold written in Hmain. inv_bind Hmain. inv_bind Hmain.
  destruct x0 as [selected counts]. injection Hmain as <-.
  cbn [category_distribution articles] in *.
  pose proof (F_select_loop_positive _ _ _ _ _ _ Hx0) as Hpositive.
  apply F_select_loop_counts in Hx0 as (added & -> & Hcounts).
  rewrite app_nil_l in *.
  split; [|split; [|exact Hitems]].
  - intros cat. rewrite Hcounts, lookup_empty. simpl. lia.
  - apply Hpositive. intros cat n. by rewrite lookup_empty.
Qed.
End CategoryCounts.

Lemma X9_category_distribution_witness :
  exists out,
    @FilterAndGenerate.written Reference.runtime
      (Samples.novel_paper :: Samples.five_papers_one_post) = Ok out
    /\ FilterAndGenerate.category_distribution out
       = {[ "Production Use Cases" := 4 ]}
    /\ default 0 (FilterAndGenerate.category_distribution out
                    !! "Production Use Cases")
       = Z.of_nat (count_of (has_category "Production Use Cases")
                            (FilterAndGenerate.articles out)).
Proof.
  evaluated
    (match @FilterAndGenerate.written Reference.runtime
             (Samples.novel_paper :: Samples.five_papers_one_post) with
     | Ok out =>
         FilterAndGenerate.category_distribution out
         = {[ "Production Use Cases" := 4 ]}
     | Raise _ => False
     end) as out from Hrun by Hfact.
  exists out. split; [reflexivity|]. split; [exact Hfact|].
  apply (@X9_category_distribution Reference.runtime _ _ Hrun).
Defined.

(** ** Who is left out of a selection *)

Section LeftOut.
Context {A : Type} (key : A -> Z) (p : A -> bool).

Lemma count_of_zero_elem (l : list A) (x : A) :
  count_of p l = 0%nat -> x ∈ l -> p x = false.
Proof.
  unfold count_of. induction l as [|y l IH]; intros Hzero Hx.
  - by apply elem_of_nil in Hx.
  - cbn [List.filter] in Hzero. destruct (p y) eqn:Hy; [discriminate|].
    apply elem_of_cons in Hx as [->|Hx]; [exact Hy|by apply IH].
Qed.

(** In a sorted list the elements the walk skips score no more than the
    elements of [p] it keeps. *)
Lemma cap_filter_skipped (cap count : nat) (l : list A) (x : A) :
  StronglySorted (desc key) l ->
  x ∈ l -> x ∉ cap_filter p cap count l ->
  p x = true
  /\ count_of p (cap_filter p cap count l) = (cap - count)%nat
  /\ forall y, y ∈ cap_filter p cap count l -> p y = true ->
               key x <= key y.
Proof.
  revert count. induction l as [|z l IH]; intros count Hsorted Hx Hout.
  - by apply elem_of_nil in Hx.
  - apply StronglySorted_inv in Hsorted as [Hsorted Hall].
    cbn [cap_filter] in *. destruct (p z) eqn:Hz.
    + destruct (Nat.leb_spec cap count) as [Hfull|Hroom].
      * assert (Hnone : count_of p (cap_filter p cap count l) = 0%nat)
          by (rewrite cap_filter_count; lia).
        split; [|split].
        -- apply elem_of_cons in Hx as [->|Hx]; [exact Hz|].
           by destruct (IH count Hsorted Hx Hout).
        -- lia.
        -- intros y Hy Hpy.
           rewrite (count_of_zero_elem _ _ Hnone Hy) in Hpy. discriminate.
      * apply not_elem_of_cons in Hout as [Hne Hout].
        apply elem_of_cons in Hx as [->|Hx]; [done|].
        destruct (IH (S count) Hsorted Hx Hout) as (Hpx & Hcount & Hkept).
        split; [exact Hpx|]. split.
        -- unfold count_of in *. cbn [List.filter]. rewrite Hz.
           cbn [length]. lia.
        -- intros y [->|Hy]%elem_of_cons Hpy; [|by apply Hkept].
           by apply (proj1 (list.Forall_forall _ _) Hall).
    + apply not_elem_of_cons in Hout as [Hne Hout].
      apply elem_of_cons in Hx as [->|Hx]; [done|].
      destruct (IH count Hsorted Hx Hout) as (Hpx & Hcount & Hkept).
      split; [exact Hpx|]. split.
      * unfold count_of in *. cbn [List.filter]. by rewrite Hz.
      * intros y [->|Hy]%elem_of_cons Hpy; [congruence|by apply Hkept].
Qed.

(** An element of a sorted list that the cut at [n] leaves out scores no
    more than the [n] elements kept. *)
Lemma take_left_out (n : nat) (l : list A) (x : A) :
  StronglySorted (desc key) l ->
  x ∈ l -> x ∉ take n l ->
  length (take n l) = n /\ forall y, y ∈ take n l -> key x <= key y.
Proof.
  intros Hsorted Hx Hout. rewrite <- (take_drop n l) in Hx, Hsorted.
  apply elem_of_app in Hx as [Hx|Hx]; [done|]. split.
  - rewrite length_take. apply list_elem_of_lookup in Hx as [i Hi].
    apply lookup_lt_Some in Hi. rewrite length_drop in Hi. lia.
  - intros y Hy.
    by apply (StronglySorted_app_1_elem_of _ _ _ _ _ Hsorted Hy Hx).
Qed.

Lemma sort_desc_strongly_sorted (l : list A) :
  StronglySorted (desc key) (sort_desc key Z.ltb l).
Proof.
  apply Sorted_StronglySorted; [apply desc_trans|apply sort_desc_sorted].
Qed.

Lemma strongly_sorted_sublist (l1 l2 : list A) :
  l1 `sublist_of` l2 -> StronglySorted (desc key) l2 ->
  StronglySorted (desc key) l1.
Proof.
  intros Hsub Hsorted. apply Sorted_StronglySorted; [apply desc_trans|].
  eapply sorted_sublist; [exact Hsub|by apply StronglySorted_Sorted].
Qed.
End LeftOut.

Section LeftOutOfSelection.
Context {RT : Runtime}.

(** X10: when at most 3 of the scored articles pass the arXiv test of
    the selection loop, the cap drops nothing: analyze_articles.py keeps
    all the scored articles, in sorted order, and the two other scripts
    keep the first 12 and the first 15 of them. *)
Theorem X10_below_cap_nothing_dropped :
  (forall clock collected out scored,
     AnalyzeArticles.main clock collected = Ok out ->
     AnalyzeArticles.score_loop
       (AnalyzeArticles.recent_from clock 0 collected) = Ok scored ->
     (count_of A_is_arxiv scored <= 3)%nat ->
     AnalyzeArticles.articles out
     = sort_desc AnalyzeArticles.it_score py_ltb scored)
  /\ (forall collected out scored,
        AnalyzeToday.written collected = Ok out ->
        AnalyzeToday.score_loop collected = Ok scored ->
        (count_of T_is_arxiv scored <= 3)%nat ->
        AnalyzeToday.articles out
        = take 12 (sort_desc AnalyzeToday.it_score Z.ltb scored))
  /\ (forall collected out scored,
        FilterAndGenerate.written collected = Ok out ->
        FilterAndGenerate.score_loop collected = Ok scored ->
        (count_of F_is_arxiv scored <= 3)%nat ->
        FilterAndGenerate.articles out
        = take 15 (sort_desc FilterAndGenerate.relevance_score Z.ltb
                             scored)).
Proof.
  split; [|split].
  - intros clock collected out scored
      (scored' & Hscored' & ->)%A_main_spec Hscored Hcount.
    rewrite Hscored in Hscored'. injection Hscored' as <-.
    apply cap_filter_all.
    rewrite (count_of_perm _ _ _ (sort_desc_perm _ _ scored)).
    unfold AnalyzeArticles.arxiv_limit. lia.
  - intros collected out scored
      (scored' & Hscored' & ->)%T_written_spec Hscored Hcount.
    rewrite Hscored in Hscored'. injection Hscored' as <-.
    unfold AnalyzeToday.max_selected. f_equal. apply cap_filter_all.
    rewrite (count_of_perm _ _ _ (sort_desc_perm _ _ scored)).
    unfold AnalyzeToday.max_arxiv. lia.
  - intros collected out scored
      (scored' & Hscored' & ->)%F_written_spec Hscored Hcount.
    rewrite Hscored in Hscored'. injection Hscored' as <-.
    unfold FilterAndGenerate.max_selected. f_equal. apply cap_filter_all.
    rewrite (count_of_perm _ _ _ (sort_desc_perm _ _ scored)).
    unfold FilterAndGenerate.max_arxiv. lia.
Qed.

(** X11: in analyze_today.py and filter_and_generate.py a scored article
    that does not pass the arXiv test of the selection loop is left out
    of the selection only when the selection is full (12, resp. 15
    articles) and every selected article scores at least as much. *)
Theorem X11_industry_article_left_out :
  (forall collected out scored it,
     AnalyzeToday.written collected = Ok out ->
     AnalyzeToday.score_loop collected = Ok scored ->
     it ∈ scored -> T_is_arxiv it = false ->
     it ∉ AnalyzeToday.articles out ->
     length (AnalyzeToday.articles out) = 12%nat
     /\ forall s, s ∈ AnalyzeToday.articles out ->
                  AnalyzeToday.it_score it <= AnalyzeToday.it_score s)
  /\ (forall collected out scored x,
        FilterAndGenerate.written collected = Ok out ->
        FilterAndGenerate.score_loop collected = Ok scored ->
        x ∈ scored -> F_is_arxiv x = false ->
        x ∉ FilterAndGenerate.articles out ->
        length (FilterAndGenerate.articles out) = 15%nat
        /\ forall s, s ∈ FilterAndGenerate.articles out ->
                     FilterAndGenerate.relevance_score x
                     <= FilterAndGenerate.relevance_score s).
Proof.
  split.
  - intros collected out scored it
      (scored' & Hscored' & ->)%T_written_spec Hscored Hit Hother Hout.
    rewrite Hscored in Hscored'. injection Hscored' as <-.
    apply (take_left_out AnalyzeToday.it_score); [|  |exact Hout].
    + eapply strongly_sorted_sublist; [apply cap_filter_sublist|].
      apply sort_desc_strongly_sorted.
    + apply cap_filter_keeps; [|exact Hother]. by apply sort_desc_elem_of.
  - intros collected out scored x
      (scored' & Hscored' & ->)%F_written_spec Hscored Hx Hother Hout.
    rewrite Hscored in Hscored'. injection Hscored' as <-.
    apply (take_left_out FilterAndGenerate.relevance_score); [|  |exact Hout].
    + eapply strongly_sorted_sublist; [apply cap_filter_sublist|].
      apply sort_desc_strongly_sorted.
    + apply cap_filter_keeps; [|exact Hother]. by apply sort_desc_elem_of.
Qed.

(** X12: analyze_articles.py leaves a scored article out only when it is
    an arXiv article and three arXiv articles that score at least as much
    are kept. *)
Theorem X12_arxiv_article_left_out
    (clock : nat -> Z) (collected : list article)
    (out : AnalyzeArticles.output) (scored : list AnalyzeArticles.item)
    (it : AnalyzeArticles.item) :
  AnalyzeArticles.main clock collected = Ok out ->
  AnalyzeArticles.score_loop
    (AnalyzeArticles.recent_from clock 0 collected) = Ok scored ->
  it ∈ scored ->
  it ∉ AnalyzeArticles.articles out ->
  A_is_arxiv it = true
  /\ count_of A_is_arxiv (AnalyzeArticles.articles out) = 3%nat
  /\ forall s, s ∈ AnalyzeArticles.articles out -> A_is_arxiv s = true ->
               A_score_Z it <= A_score_Z s.
Proof.
  intros (scored' & Hscored' & ->)%A_main_spec Hscored Hit Hout.
  rewrite Hscored in Hscored'. injection Hscored' as <-.
  destruct (A_score_loop_spec _ _ Hscored) as [Hitems _].
  rewrite (A_sort_int scored Hitems) in *.
  apply (cap_filter_skipped A_score_Z A_is_arxiv
           AnalyzeArticles.arxiv_limit 0); [| |exact Hout].
  - apply sort_desc_strongly_sorted.
  - by apply sort_desc_elem_of.
Qed.
End LeftOutOfSelection.

Lemma X10_below_cap_nothing_dropped_witness :
  exists out scored,
    @AnalyzeToday.written Reference.runtime
      [Samples.paper 1; Samples.post 2; Samples.paper 3] = Ok out
    /\ @AnalyzeToday.score_loop Reference.runtime
         [Samples.paper 1; Samples.post 2; Samples.paper 3] = Ok scored
    /\ (count_of T_is_arxiv scored <= 3)%nat
    /\ AnalyzeToday.articles out
       = take 12 (sort_desc AnalyzeToday.it_score Z.ltb scored)
    /\ ((fun it => get (AnalyzeToday.it_article it) "author" PNone)
          <$> AnalyzeToday.articles out) = [PInt 2; PInt 1; PInt 3].
Proof.
  evaluated
    (match @AnalyzeToday.written Reference.runtime
             [Samples.paper 1; Samples.post 2; Samples.paper 3] with
     | Ok out =>
         match @AnalyzeToday.score_loop Reference.runtime
                 [Samples.paper 1; Samples.post 2; Samples.paper 3] with
         | Ok scored =>
             (count_of T_is_arxiv scored <= 3)%nat
             /\ ((fun it => get (AnalyzeToday.it_article it) "author" PNone)
                   <$> AnalyzeToday.articles out)
                = [PInt 2; PInt 1; PInt 3]
         | Raise _ => False
         end
     | Raise _ => False
     end) as out from Hrun by Hfact.
  name_run Hfact scored Hscored. destruct Hfact as [Hcount Hauthors].
  exists out, scored. split; [reflexivity|]. split; [reflexivity|].
  split; [exact Hcount|]. split; [|exact Hauthors].
  apply (proj1 (proj2 (@X10_below_cap_nothing_dropped Reference.runtime))
           _ _ _ Hrun Hscored Hcount).
Defined.

Lemma X11_industry_article_left_out_witness :
  exists out scored it,
    @AnalyzeToday.written Reference.runtime Samples.sixteen_posts = Ok out
    /\ @AnalyzeToday.score_loop Reference.runtime Samples.sixteen_posts
       = Ok scored
    /\ scored !! 15%nat = Some it
    /\ get (AnalyzeToday.it_article it) "author" PNone = PInt 16
    /\ T_is_arxiv it = false
    /\ (it ∉ AnalyzeToday.articles out)
    /\ length (AnalyzeToday.articles out) = 12%nat.
Proof.
  evaluated
    (match @AnalyzeToday.written Reference.runtime
             Samples.sixteen_posts with
     | Ok out =>
         match @AnalyzeToday.score_loop Reference.runtime
                 Samples.sixteen_posts with
         | Ok scored =>
             match scored !! 15%nat with
             | Some it =>
                 get (AnalyzeToday.it_article it) "author" PNone = PInt 16
                 /\ T_is_arxiv it = false
                 /\ forallb
                      (fun s =>
                         match get (AnalyzeToday.it_article s) "author" PNone
                         with
                         | PInt n => negb (n =? 16)
                         | _ => true
                         end) (AnalyzeToday.articles out) = true
             | None => False
             end
         | Raise _ => False
         end
     | Raise _ => False
     end) as out from Hrun by Hfact.
  name_run Hfact scored Hscored.
  destruct (scored !! 15%nat) as [it|] eqn:Hit; [|contradiction].
  destruct Hfact as (Hauthor & Hother & Hall).
  assert (Hout : it ∉ AnalyzeToday.articles out).
  { intros Hin. rewrite forallb_forall in Hall.
    apply list_elem_of_In, Hall in Hin. rewrite Hauthor in Hin.
    discriminate. }
  exists out, scored, it. split; [reflexivity|]. split; [reflexivity|].
  split; [exact Hit|]. split; [exact Hauthor|]. split; [exact Hother|].
  split; [exact Hout|].
  apply (proj1 (@X11_industry_article_left_out Reference.runtime)
           _ _ _ it Hrun Hscored); [|exact Hother|exact Hout].
  apply list_elem_of_lookup. eauto.
Defined.

Lemma X12_arxiv_article_left_out_witness :
  exists out scored it,
    @AnalyzeArticles.main Reference.runtime Samples.clock
      Samples.five_papers_one_post = Ok out
    /\ @AnalyzeArticles.score_loop Reference.runtime
         (@AnalyzeArticles.recent_from Reference.runtime Samples.clock 0
            Samples.five_papers_one_post) = Ok scored
    /\ scored !! 3%nat = Some it
    /\ get (AnalyzeArticles.it_article it) "author" PNone = PInt 4
    /\ (it ∉ AnalyzeArticles.articles out)
    /\ A_is_arxiv it = true
    /\ count_of A_is_arxiv (AnalyzeArticles.articles out) = 3%nat.
Proof.
  evaluated
    (match @AnalyzeArticles.main Reference.runtime Samples.clock
             Samples.five_papers_one_post with
     | Ok out =>
         match @AnalyzeArticles.score_loop Reference.runtime
                 (@AnalyzeArticles.recent_from Reference.runtime
                    Samples.clock 0 Samples.five_papers_one_post) with
         | Ok scored =>
             match scored !! 3%nat with
             | Some it =>
                 get (AnalyzeArticles.it_article it) "author" PNone = PInt 4
                 /\ forallb
                      (fun s =>
                         match get (AnalyzeArticles.it_article s) "author"
                                   PNone with
                         | PInt n => negb (n =? 4)
                         | _ => true
                         end) (AnalyzeArticles.articles out) = true
             | None => False
             end
         | Raise _ => False
         end
     | Raise _ => False
     end) as out from Hrun by Hfact.
  name_run Hfact scored Hscored.
  destruct (scored !! 3%nat) as [it|] eqn:Hit; [|contradiction].
  destruct Hfact as (Hauthor & Hall).
  assert (Hout : it ∉ AnalyzeArticles.articles out).
  { intros Hin. rewrite forallb_forall in Hall.
    apply list_elem_of_In, Hall in Hin. rewrite Hauthor in Hin.
    discriminate. }
  exists out, scored, it. split; [reflexivity|]. split; [reflexivity|].
  split; [exact Hit|]. split; [exact Hauthor|]. split; [exact Hout|].
  destruct (@X12_arxiv_article_left_out Reference.runtime _ _ _ _ it
              Hrun Hscored) as (Harxiv & Hcount & _);
    [apply list_elem_of_lookup; eauto|exact Hout|].
  by split.
Defined.

(** ** Further properties of [src/collect_articles.py] *)

Section CollectorFacts.
Context {FR : CollectArticles.FeedRuntime}.
Import CollectArticles.

(** The dates [parse_published_date] returns are aware. *)
Lemma parse_field_aware (entry : article) (field : string) (raw : pyval)
    (dt : datetime) :
  parse_field entry field raw = Ok dt ->
  exists instant offset, dt = Aware instant offset.
Proof.
  unfold parse_field. intros H.
  destruct (entry !! (field +:+ "_parsed")) as [st|];
    [destruct (truthy st)|]; inv_bind H; injection H as <-;
    try destruct x; eauto.
Qed.

Lemma parse_fields_aware (entry : article) (fields : list string)
    (dt : datetime) :
  parse_fields entry fields = Some dt ->
  exists instant offset, dt = Aware instant offset.
Proof.
  induction fields as [|field rest IH]; [discriminate|].
  cbn [parse_fields]. destruct (entry !! field) as [raw|]; [|exact IH].
  destruct (parse_field entry field raw) as [dt'|] eqn:Hfield; [|exact IH].
  intros [= <-]. by eapply parse_field_aware.
Qed.

(** What [fetch_entry] appends for an entry. *)
Lemma fetch_entry_Some (feed_url : string) (parsed : parsed_feed)
    (cutoff : Z) (entry a : article) :
  fetch_entry feed_url parsed cutoff entry = Ok (Some a) ->
  exists tags date_verified published,
    terms_of (get entry "tags" (PList [])) = Ok tags
    /\ a = <["title" := get entry "title" (PStr "No Title")]>
            (<["url" := get entry "link" (PStr "")]>
            (<["published" := PStr published]>
            (<["date_verified" := PBool date_verified]>
            (<["description" :=
                 get entry "summary" (get entry "description" (PStr ""))]>
            (<["source" := get (feed parsed) "title" (PStr feed_url)]>
            (<["source_url" := PStr feed_url]>
            (<["author" := get entry "author" (PStr "")]>
            (<["tags" := PList tags]> ∅))))))))
    /\ ((date_verified = false /\ published = "Unknown"
         /\ parse_published_date entry = None)
        \/ (exists instant offset,
              date_verified = true
              /\ parse_published_date entry = Some (Aware instant offset)
              /\ published = isoformat (Aware instant offset)
              /\ cutoff <= instant)).
Proof.
  unfold fetch_entry. intros H.
  destruct (parse_published_date entry) as [[wall|instant offset]|] eqn:Hdate.
  - discriminate.
  - destruct (Z.ltb_spec instant cutoff) as [Hold|Hnew]; [discriminate|].
    inv_bind H. injection H as <-.
    exists x, true, (isoformat (Aware instant offset)).
    split; [exact Hx|]. split; [reflexivity|]. right.
    by exists instant, offset.
  - inv_bind H. injection H as <-. exists x, false, "Unknown".
    split; [exact Hx|]. split; [reflexivity|]. by left.
Qed.

(** X13: [fetch_entry] fails for no other reason than the tags of the
    entry: the date it compares with the cutoff is always aware, so the
    comparison never raises [TypeError], and a missing [title], [link],
    [summary] or [author] is replaced by its default. *)
Theorem X13_fetch_entry_fails_on_tags_only (feed_url : string)
    (parsed : parsed_feed) (cutoff : Z) (entry : article) (e : exn) :
  fetch_entry feed_url parsed cutoff entry = Raise e ->
  terms_of (get entry "tags" (PList [])) = Raise e
  /\ exists tags, entry !! "tags" = Some tags
                  /\ forall l, tags = PList l -> l <> [].
Proof.
  unfold fetch_entry. intros H.
  assert (Htags : terms_of (get entry "tags" (PList [])) = Raise e).
  { destruct (parse_published_date entry) as [[wall|instant offset]|]
      eqn:Hdate.
    - apply parse_fields_aware in Hdate as (? & ? & ?). discriminate.
    - destruct (instant <? cutoff); [discriminate|].
      destruct (terms_of (get entry "tags" (PList []))); cbn [bind] in H;
        [discriminate|by injection H as ->].
    - destruct (terms_of (get entry "tags" (PList []))); cbn [bind] in H;
        [discriminate|by injection H as ->]. }
  split; [exact Htags|]. unfold get in Htags.
  destruct (entry !! "tags") as [tags|]; [|discriminate].
  exists tags. split; [reflexivity|]. intros l -> ->. discriminate.
Qed.

Lemma fetch_entry_ok (feed_url : string) (parsed : parsed_feed)
    (cutoff : Z) (entry a : article) :
  fetch_entry feed_url parsed cutoff entry = Ok (Some a) ->
  collected_ok feed_url cutoff a.
Proof.
  intros (tags & date_verified & published & _ & -> & Hdate)%fetch_entry_Some.
  split; [|split].
  - rewrite !dom_insert_L, dom_empty_L. unfold collected_keys. simpl.
    set_solver.
  - by rewrite !lookup_insert_ne, lookup_insert_eq by done.
  - destruct Hdate as [(-> & -> & _)|(instant & offset & -> & _ & -> & Hle)].
    + left. split.
      * by rewrite !lookup_insert_ne, lookup_insert_eq by done.
      * by rewrite !lookup_insert_ne, lookup_insert_eq by done.
    + right. exists instant, offset. split; [|split; [|exact Hle]].
      * by rewrite !lookup_insert_ne, lookup_insert_eq by done.
      * by rewrite !lookup_insert_ne, lookup_insert_eq by done.
Qed.

Lemma fetch_loop_ok (feed_url : string) (parsed : parsed_feed) (cutoff : Z)
    (articles todo : list article) :
  Forall (collected_ok feed_url cutoff) articles ->
  Forall (collected_ok feed_url cutoff)
         (fetch_loop feed_url parsed cutoff articles todo)
  /\ (length (fetch_loop feed_url parsed cutoff articles todo)
      <= length articles + length todo)%nat.
Proof.
  revert articles. induction todo as [|entry rest IH]; intros articles Hall.
  - cbn [fetch_loop length]. split; [exact Hall|lia].
  - cbn [fetch_loop].
    destruct (fetch_entry feed_url parsed cutoff entry) as [[a|]|] eqn:He.
    + assert (Hall' : Forall (collected_ok feed_url cutoff)
                             (articles ++ [a])).
      { apply Forall_app. split; [exact Hall|].
        constructor; [by eapply fetch_entry_ok|constructor]. }
      destruct (sliceable (get a "title" PNone)).
      * destruct (IH _ Hall') as [Hok Hlen]. split; [exact Hok|].
        rewrite length_app in Hlen. cbn [length] in *. lia.
      * split; [exact Hall'|]. rewrite length_app. cbn [length]. lia.
    + destruct (IH _ Hall) as [Hok Hlen]. split; [exact Hok|].
      cbn [length]. lia.
    + split; [exact Hall|]. cbn [length]. lia.
Qed.
End CollectorFacts.

(** ** The collector's sort *)

Section SortBottom.
Context {A K : Type} (key : A -> K) (ltb : K -> K -> bool) (low : A -> bool).
Hypothesis ltb_low : forall x y, low y = true -> ltb (key x) (key y) = false.
Hypothesis low_ltb :
  forall x y, low x = true -> low y = false -> ltb (key x) (key y) = true.

Lemma insert_desc_low (x : A) (high lows : list A) :
  Forall (fun y => low y = false) high ->
  Forall (fun y => low y = true) lows ->
  low x = true ->
  insert_desc key ltb x (high ++ lows) = high ++ x :: lows.
Proof.
  intros Hhigh Hlows Hx. induction Hhigh as [|y high Hy _ IH].
  - destruct Hlows as [|y lows Hy _]; [reflexivity|].
    cbn [app insert_desc]. by rewrite ltb_low.
  - cbn [app insert_desc]. rewrite low_ltb by done. by rewrite IH.
Qed.

Lemma insert_desc_high (x : A) (high lows : list A) :
  Forall (fun y => low y = true) lows ->
  insert_desc key ltb x (high ++ lows)
  = insert_desc key ltb x high ++ lows.
Proof.
  intros Hlows. induction high as [|y high IH].
  - destruct Hlows as [|y lows Hy _]; [reflexivity|].
    cbn [app insert_desc]. by rewrite ltb_low.
  - cbn [app insert_desc]. destruct (ltb (key x) (key y)); [|reflexivity].
    by rewrite IH.
Qed.

(** The elements of the lowest key end the sorted list, in the order of
    the input. *)
Lemma sort_desc_low_last (l : list A) :
  sort_desc key ltb l
  = sort_desc key ltb (List.filter (fun x => negb (low x)) l)
    ++ List.filter low l.
Proof.
  induction l as [|x l IH]; [reflexivity|].
  cbn [sort_desc foldr List.filter]. fold (sort_desc key ltb l).
  rewrite IH.
  assert (Hlows : Forall (fun y => low y = true) (List.filter low l)).
  { apply List.Forall_forall. intros y Hy. by apply filter_In in Hy as [_ ?]. }
  destruct (low x) eqn:Hx; cbn [negb].
  - apply insert_desc_low; [|exact Hlows|exact Hx].
    apply list.Forall_forall. intros y Hy.
    apply sort_desc_elem_of, list_elem_of_In, filter_In in Hy as [_ Hy].
    by apply negb_true_iff.
  - cbn [sort_desc foldr].
    fold (sort_desc key ltb (List.filter (fun x => negb (low x)) l)).
    by apply insert_desc_high.
Qed.
End SortBottom.

Lemma string_ltb_empty_r (s : string) : String.ltb s "" = false.
Proof. by destruct s. Qed.

Lemma string_ltb_empty_l (s : string) :
  String.eqb s "" = false -> String.ltb "" s = true.
Proof. by destruct s. Qed.

Section CollectorOutput.
Context {FR : CollectArticles.FeedRuntime}.
Import CollectArticles.

(** X14: every article [fetch_articles] returns has exactly the nine keys
    of the collector's record and the url of its feed as [source_url]; it
    is either flagged unverified with the date [Unknown], or flagged
    verified with the printed form of a date at or after the cutoff, so no
    dated article older than the cutoff is collected.  A feed yields at
    most one article for each entry, and none when it cannot be fetched. *)
Theorem X14_fetch_articles_invariant (feed_url : string)
    (fetched : result parsed_feed) (cutoff : Z) :
  Forall (collected_ok feed_url cutoff)
         (fetch_articles feed_url fetched cutoff)
  /\ match fetched with
     | Ok parsed =>
         (length (fetch_articles feed_url fetched cutoff)
          <= length (entries parsed))%nat
     | Raise _ => fetch_articles feed_url fetched cutoff = []
     end.
Proof.
  destruct fetched as [parsed|e]; cbn [fetch_articles].
  - apply (fetch_loop_ok feed_url parsed cutoff [] (entries parsed)).
    constructor.
  - split; [constructor|reflexivity].
Qed.

(** X15: [collect_articles] lists the articles without a verified date
    after all the others and in the order in which the feeds gave them;
    the count it writes is the length of the list, and nothing is added to
    or lost from what the feeds gave. *)
Theorem X15_collect_articles_undated_last (now hours cutoff : Z)
    (feeds : list (string * result parsed_feed)) :
  cutoff_time now hours = Ok cutoff ->
  let fetched :=
    concat (map (fun f => fetch_articles (fst f) (snd f) cutoff) feeds) in
  exists out,
    collect_articles now hours feeds = Ok out
    /\ total_articles out = length fetched
    /\ articles out ≡ₚ fetched
    /\ articles out
       = sort_desc published_key String.ltb
           (List.filter (fun x => negb (undated x)) fetched)
         ++ List.filter undated fetched.
Proof.
  intros Hcutoff fetched. unfold collect_articles. rewrite Hcutoff.
  cbn [bind]. eexists. split; [reflexivity|].
  cbn [total_articles articles]. fold fetched.
  split; [apply sort_desc_length|]. split; [apply sort_desc_perm|].
  apply sort_desc_low_last.
  - intros x y Hy. unfold undated in Hy. apply String.eqb_eq in Hy.
    rewrite Hy. apply string_ltb_empty_r.
  - intros x y Hx Hy. unfold undated in Hx, Hy. apply String.eqb_eq in Hx.
    rewrite Hx. by apply string_ltb_empty_l.
Qed.

(** X16: widening the lookback window never loses an entry: an entry that
    is collected for a cutoff is collected, as the same article, for every
    earlier cutoff, and an entry without a parseable date is collected for
    every cutoff. *)
Theorem X16_fetch_entry_monotone (feed_url : string) (parsed : parsed_feed)
    (cutoff cutoff' : Z) (entry a : article) :
  fetch_entry feed_url parsed cutoff entry = Ok (Some a) ->
  cutoff' <= cutoff \/ parse_published_date entry = None ->
  fetch_entry feed_url parsed cutoff' entry = Ok (Some a).
Proof.
  unfold fetch_entry. intros H Hcase.
  destruct (parse_published_date entry) as [[wall|instant offset]|];
    [discriminate| |exact H].
  destruct Hcase as [Hle|?]; [|discriminate].
  destruct (Z.ltb_spec instant cutoff); [discriminate|].
  destruct (Z.ltb_spec instant cutoff'); [lia|exact H].
Qed.
End CollectorOutput.

(** ** From the collector to the three scripts *)

Section Composition.
Context {RT : Runtime} {FR : CollectArticles.FeedRuntime}.

(** X17: the three scripts read the same text from an article written by
    the collector.  Such an article has no [summary] and no [link], so
    analyze_articles.py falls back on [description] and [url], the keys
    the two other scripts read; whenever it can read the article, its text
    is the text analyze_today.py scores and, when the url is a string, the
    text filter_and_generate.py scores.  Only the arXiv test differs: it
    is made on the url as written by analyze_articles.py and on the
    lower-cased url by filter_and_generate.py. *)
Theorem X17_collected_article_same_text (feed_url : string)
    (parsed : CollectArticles.parsed_feed) (cutoff : Z)
    (entry a : article) (content : string) (is_arxiv : bool) :
  CollectArticles.fetch_entry feed_url parsed cutoff entry = Ok (Some a) ->
  AnalyzeArticles.read_fields a = Ok (content, is_arxiv) ->
  a !! "summary" = None /\ a !! "link" = None
  /\ AnalyzeToday.read_text a = Ok content
  /\ forall url, a !! "url" = Some (PStr url) ->
       is_arxiv = str_contains "arxiv.org" url
       /\ FilterAndGenerate.read_fields a = Ok (content, lower url).
Proof.
  intros (tags & verified & published & _ & -> & _)
    %fetch_entry_Some.
  set (title := get entry "title" (PStr "No Title")).
  set (url0 := get entry "link" (PStr "")).
  set (description :=
         get entry "summary" (get entry "description" (PStr ""))).
  match goal with |- context [AnalyzeArticles.read_fields ?m] => set (a := m)
  end.
  assert (Hsummary : a !! "summary" = None)
    by (unfold a; by rewrite !lookup_insert_ne, lookup_empty by done).
  assert (Hlink : a !! "link" = None)
    by (unfold a; by rewrite !lookup_insert_ne, lookup_empty by done).
  assert (Htitle : a !! "title" = Some title)
    by (unfold a; by rewrite lookup_insert_eq).
  assert (Hurl : a !! "url" = Some url0)
    by (unfold a; by rewrite !lookup_insert_ne, lookup_insert_eq by done).
  assert (Hdescription : a !! "description" = Some description)
    by (unfold a; by rewrite !lookup_insert_ne, lookup_insert_eq by done).
  clearbody a. intros Hread.
  unfold AnalyzeArticles.read_fields, get in Hread.
  rewrite Hsummary, Hlink, Htitle, Hurl, Hdescription in Hread.
  cbn [default from_option id] in Hread.
  destruct title as [| | | |t| |]; try discriminate.
  destruct description as [| | | |d| |]; try discriminate.
  cbn [py_lower bind] in Hread. inv_bind Hread.
  injection Hread as <- <-.
  split; [exact Hsummary|]. split; [exact Hlink|]. split.
  - unfold AnalyzeToday.read_text, get.
    by rewrite Htitle, Hdescription.
  - intros url Hurl'. rewrite Hurl in Hurl'. injection Hurl' as ->.
    cbn [py_in] in Hx. injection Hx as <-. split; [reflexivity|].
    unfold FilterAndGenerate.read_fields, get.
    by rewrite Htitle, Hdescription, Hurl.
Qed.
End Composition.

Lemma X13_fetch_entry_fails_on_tags_only_witness :
  let entry := <["tags" := PInt 5]> Samples.undated_entry in
  @CollectArticles.fetch_entry Reference.feed_runtime
    "https://example.com/feed.xml" (Samples.blog_feed [entry]) 0 entry
  = Raise TypeError
  /\ @CollectArticles.terms_of (get entry "tags" (PList []))
     = Raise TypeError
  /\ @CollectArticles.fetch_articles Reference.feed_runtime
       "https://example.com/feed.xml"
       (Ok (Samples.blog_feed [Samples.undated_entry; entry;
                               Samples.undated_entry])) 0
     = [Samples.unverified_article].
Proof.
  intros entry.
  assert (Hraise :
    @CollectArticles.fetch_entry Reference.feed_runtime
      "https://example.com/feed.xml" (Samples.blog_feed [entry]) 0 entry
    = Raise TypeError) by (vm_compute; reflexivity).
  split; [exact Hraise|]. split.
  - apply (@X13_fetch_entry_fails_on_tags_only Reference.feed_runtime
             _ _ _ _ _ Hraise).
  - vm_compute. reflexivity.
Defined.

Lemma X15_collect_articles_undated_last_witness :
  cutoff_time Samples.noon 24 = Ok 1714564800000000
  /\ exists out,
       @CollectArticles.collect_articles Reference.feed_runtime
         Samples.noon 24
         (Samples.feeds [Samples.undated_entry; Samples.dated_entry])
       = Ok out
       /\ CollectArticles.articles out
          = [Samples.verified_article; Samples.unverified_article].
Proof.
  assert (Hcutoff : cutoff_time Samples.noon 24 = Ok 1714564800000000)
    by (vm_compute; reflexivity).
  split; [exact Hcutoff|].
  destruct (@X15_collect_articles_undated_last Reference.feed_runtime
              Samples.noon 24 _
              (Samples.feeds [Samples.undated_entry; Samples.dated_entry])
              Hcutoff) as (out & Hout & _ & _ & Harticles).
  exists out. split; [exact Hout|]. rewrite Harticles.
  vm_compute. reflexivity.
Defined.

Lemma X16_fetch_entry_monotone_witness :
  @CollectArticles.fetch_entry Reference.feed_runtime
    "https://example.com/feed.xml" (Samples.blog_feed [Samples.dated_entry])
    1714564800000000 Samples.dated_entry = Ok (Some Samples.verified_article)
  /\ 1714478400000000 <= 1714564800000000
  /\ @CollectArticles.fetch_entry Reference.feed_runtime
       "https://example.com/feed.xml"
       (Samples.blog_feed [Samples.dated_entry])
       1714478400000000 Samples.dated_entry
     = Ok (Some Samples.verified_article).
Proof.
  assert (H24 :
    @CollectArticles.fetch_entry Reference.feed_runtime
      "https://example.com/feed.xml" (Samples.blog_feed [Samples.dated_entry])
      1714564800000000 Samples.dated_entry
    = Ok (Some Samples.verified_article)) by (vm_compute; reflexivity).
  split; [exact H24|]. split; [lia|].
  apply (@X16_fetch_entry_monotone Reference.feed_runtime _ _ _ _ _ _ H24).
  left. lia.
Defined.

Lemma X17_collected_article_same_text_witness :
  @CollectArticles.fetch_entry Reference.feed_runtime
    "https://example.com/feed.xml"
    (Samples.blog_feed [Samples.undated_entry]) 0 Samples.undated_entry
  = Ok (Some Samples.unverified_article)
  /\ @AnalyzeArticles.read_fields Reference.runtime
       Samples.unverified_article
     = Ok ("agentic workflow in production deployment "
           +:+ "how one team runs it.", false)
  /\ @AnalyzeToday.read_text Reference.runtime Samples.unverified_article
     = Ok ("agentic workflow in production deployment "
           +:+ "how one team runs it.").
Proof.
  assert (Hfetch :
    @CollectArticles.fetch_entry Reference.feed_runtime
      "https://example.com/feed.xml"
      (Samples.blog_feed [Samples.undated_entry]) 0 Samples.undated_entry
    = Ok (Some Samples.unverified_article)) by (vm_compute; reflexivity).
  assert (Hread :
    @AnalyzeArticles.read_fields Reference.runtime Samples.unverified_article
    = Ok ("agentic workflow in production deployment "
          +:+ "how one team runs it.", false)) by (vm_compute; reflexivity).
  split; [exact Hfetch|]. split; [exact Hread|].
  apply (@X17_collected_article_same_text Reference.runtime
           Reference.feed_runtime _ _ _ _ _ _ _ Hfetch Hread).
Defined.

(** ** The reports *)

Section Partition.
Context {A : Type} (cat_of : A -> string).

(** The categories partition a list whose elements carry one of the five
    labels. *)
Lemma categories_partition (l : list A) :
  Forall (fun x => cat_of x ∈ categories) l ->
  sum_list (map (fun cat =>
                   Z.of_nat (count_of (fun x => String.eqb (cat_of x) cat) l))
                categories)
  = Z.of_nat (length l).
Proof.
  unfold count_of, categories, sum_list. cbn [map foldr].
  induction 1 as [|x l Hx _ IH]; [reflexivity|].
  cbn [List.filter length].
  unfold categories in Hx.
  repeat (apply elem_of_cons in Hx as [->|Hx];
          [cbn [String.eqb Ascii.eqb Bool.eqb andb length]; lia|]).
  by apply elem_of_nil in Hx.
Qed.
End Partition.

Section ReportFacts.
Context {RT : Runtime}.
Import Reports.

(** The grouping loop selects what the limit loop selects and appends
    each selected item to the list of its category. *)
Lemma group_loop_spec (by_category : gmap string (list AnalyzeArticles.item))
    (filtered : list AnalyzeArticles.item) (arxiv_count : nat)
    (scored : list AnalyzeArticles.item)
    (by_category' : gmap string (list AnalyzeArticles.item))
    (filtered' : list AnalyzeArticles.item) :
  group_loop by_category filtered arxiv_count scored
    = Ok (by_category', filtered') ->
  AnalyzeArticles.limit_loop filtered arxiv_count scored = Ok filtered'
  /\ exists added,
       filtered' = filtered ++ added
       /\ (forall cat,
             default [] (by_category' !! cat)
             = default [] (by_category !! cat)
               ++ List.filter (A_in_category cat) added)
       /\ ((forall cat l, by_category !! cat = Some l -> l <> []) ->
           forall cat l, by_category' !! cat = Some l -> l <> []).
Proof.
  revert by_category filtered arxiv_count.
  induction scored as [|it rest IH];
    intros by_category filtered arxiv_count H.
  - injection H as <- <-. split; [reflexivity|]. exists [].
    rewrite app_nil_r. split; [reflexivity|]. split; [|done].
    intros cat. cbn [List.filter]. by rewrite app_nil_r.
  - cbn [group_loop AnalyzeArticles.limit_loop] in *. inv_bind H.
    rewrite Hx. cbn [bind].
    set (category := AnalyzeArticles.it_category it) in *.
    set (grown :=
           <[category :=
               default []
                 (match by_category !! category with
                  | Some _ => by_category
                  | None => <[category := []]> by_category
                  end !! category) ++ [it]]>
             match by_category !! category with
             | Some _ => by_category
             | None => <[category := []]> by_category
             end) in *.
    assert (Hgrown : forall cat,
              default [] (grown !! cat)
              = default [] (by_category !! cat)
                ++ (if String.eqb category cat then [it] else [])).
    { intros cat. unfold grown.
      destruct (String.eqb_spec category cat) as [<-|Hne].
      - rewrite lookup_insert_eq. cbn [default from_option id].
        destruct (by_category !! category) as [l|] eqn:Hl.
        + by rewrite Hl.
        + by rewrite lookup_insert_eq.
      - rewrite lookup_insert_ne by done.
        destruct (by_category !! category);
          rewrite ?lookup_insert_ne by done; by rewrite app_nil_r. }
    assert (Hnonempty :
      (forall cat l, by_category !! cat = Some l -> l <> []) ->
      forall cat l, grown !! cat = Some l -> l <> []).
    { intros Hne cat l. unfold grown.
      destruct (decide (category = cat)) as [<-|Hcat].
      - rewrite lookup_insert_eq. intros [= <-].
        intros Happ. by apply app_eq_nil in Happ as [_ ?].
      - rewrite lookup_insert_ne by done.
        destruct (by_category !! category);
          rewrite ?lookup_insert_ne by done; apply Hne. }
    assert (Haccept : forall n,
      group_loop grown (filtered ++ [it]) n rest
        = Ok (by_category', filtered') ->
      AnalyzeArticles.limit_loop (filtered ++ [it]) n rest = Ok filtered'
      /\ exists added,
           filtered' = filtered ++ added
           /\ (forall cat,
                 default [] (by_category' !! cat)
                 = default [] (by_category !! cat)
                   ++ List.filter (A_in_category cat) added)
           /\ ((forall cat l, by_category !! cat = Some l -> l <> []) ->
               forall cat l, by_category' !! cat = Some l -> l <> [])).
    { intros n Hn. apply IH in Hn as (Hlimit & added & -> & Hlists & Hne).
      split; [exact Hlimit|]. exists (it :: added).
      rewrite <- app_assoc. split; [reflexivity|]. split.
      - intros cat. rewrite Hlists, Hgrown, <- app_assoc. f_equal.
        cbn [List.filter]. unfold A_in_category at 2. fold category.
        by destruct (String.eqb category cat).
      - intros Hbefore. apply Hne. by apply Hnonempty. }
    destruct x; [destruct (AnalyzeArticles.arxiv_limit <=? arxiv_count)%nat|];
      eauto.
Qed.

Lemma breakdown_sum (by_category : gmap string (list AnalyzeArticles.item))
    (cats : list string) :
  sum_list (map (fun line => Z.of_nat line.2)
                (omap (fun category =>
                         match by_category !! category with
                         | Some items => Some (category, length items)
                         | None => None
                         end) cats))
  = sum_list (map (fun cat =>
                     Z.of_nat (length (default [] (by_category !! cat))))
                  cats).
Proof.
  unfold sum_list. induction cats as [|cat cats IH]; [reflexivity|].
  cbn [omap list_omap map]. destruct (by_category !! cat) as [items|];
    cbn [map foldr default from_option id length snd] in *; lia.
Qed.

(** X19: the grouping that [main] of analyze_articles.py prints is a
    partition of what it saves: the loop with [by_category] selects the
    same articles as the limit loop; the list of a category holds the
    selected items of that category in selection order and is never
    empty; the counts of the printed category breakdown add up to the
    number of selected articles; and the printed top articles of a
    category are the first five of its items. *)
Theorem X19_by_category_partition (recent : list article)
    (scored filtered : list AnalyzeArticles.item)
    (by_category : gmap string (list AnalyzeArticles.item)) :
  AnalyzeArticles.score_loop recent = Ok scored ->
  group_loop ∅ [] 0 (sort_desc AnalyzeArticles.it_score py_ltb scored)
    = Ok (by_category, filtered) ->
  AnalyzeArticles.limit_loop [] 0
    (sort_desc AnalyzeArticles.it_score py_ltb scored) = Ok filtered
  /\ (forall cat,
        default [] (by_category !! cat)
        = List.filter (A_in_category cat) filtered)
  /\ (forall cat items, by_category !! cat = Some items -> items <> [])
  /\ sum_list (map (fun line => Z.of_nat line.2)
                   (category_breakdown by_category))
     = Z.of_nat (length filtered)
  /\ (forall cat items, (cat, items) ∈ top_articles by_category ->
        items = take 5 (List.filter (A_in_category cat) filtered)).
Proof.
  intros Hscored Hgroup.
  pose proof (group_loop_spec _ _ _ _ _ _ Hgroup)
    as (Hlimit & added & Hadded & Hlists & Hnonempty).
  rewrite app_nil_l in Hadded. subst added.
  assert (Hlists' : forall cat,
            default [] (by_category !! cat)
            = List.filter (A_in_category cat) filtered).
  { intros cat. by rewrite Hlists, lookup_empty. }
  split; [exact Hlimit|]. split; [exact Hlists'|]. split.
  { apply Hnonempty. intros cat l. by rewrite lookup_empty. }
  split.
  - unfold category_breakdown. rewrite breakdown_sum.
    rewrite <- (categories_partition AnalyzeArticles.it_category filtered).
    + unfold category_order, categories. cbn [map].
      by rewrite !Hlists'.
    + apply A_limit_loop_spec in Hlimit. rewrite app_nil_l in Hlimit.
      apply A_score_loop_spec in Hscored as [Hitems _].
      apply list.Forall_forall. intros it Hit. rewrite Hlimit in Hit.
      pose proof (elem_of_sublist _ _ _ Hit (cap_filter_sublist _ _ _ _))
        as Hin.
      apply sort_desc_elem_of in Hin.
      apply (proj1 (list.Forall_forall _ _) Hitems) in Hin
        as (_ & _ & Hcat).
      unfold AnalyzeArticles.categorize_article in Hcat. inv_bind Hcat.
      destruct x as [content is_arxiv]. injection Hcat as <-.
      apply A_categorize_content_in.
  - intros cat items Hin. unfold top_articles in Hin.
    apply list_elem_of_omap in Hin as (cat' & _ & Hsome).
    destruct (by_category !! cat') as [l|] eqn:Hl; [|discriminate].
    injection Hsome as -> <-. f_equal.
    by rewrite <- Hlists', Hl.
Qed.

Lemma category_counts_fold (selected : list AnalyzeToday.item)
    (counts : gmap string Z) (cat : string) :
  default 0
    (fold_left
       (fun counts item =>
          let cat := AnalyzeToday.it_category item in
          <[cat := default 0 (counts !! cat) + 1]> counts)
       selected counts !! cat)
  = default 0 (counts !! cat)
    + Z.of_nat (count_of (T_in_category cat) selected).
Proof.
  revert counts. induction selected as [|it rest IH]; intros counts.
  - unfold count_of. simpl. lia.
  - cbn [fold_left]. rewrite IH. unfold count_of. cbn [List.filter].
    unfold T_in_category at 2.
    destruct (String.eqb_spec (AnalyzeToday.it_category it) cat)
      as [->|Hne].
    + rewrite lookup_insert_eq. cbn [default from_option id length]. lia.
    + rewrite lookup_insert_ne by done. lia.
Qed.

(** X20: the category counts that [main] of analyze_today.py prints count
    the selection: the count of a category is the number of selected
    articles in it, and the counts of the five categories add up to the
    selected count that [main] writes to the file. *)
Theorem X20_analyze_today_category_counts (collected : list article)
    (out : AnalyzeToday.output) :
  AnalyzeToday.written collected = Ok out ->
  let counts := category_counts (AnalyzeToday.articles out) in
  (forall cat,
     default 0 (counts !! cat)
     = Z.of_nat (count_of (T_in_category cat) (AnalyzeToday.articles out)))
  /\ sum_list (map (fun cat => default 0 (counts !! cat)) categories)
     = Z.of_nat (AnalyzeToday.selected_count out).
Proof.
  intros Hmain counts.
  assert (Hcount : forall cat,
            default 0 (counts !! cat)
            = Z.of_nat (count_of (T_in_category cat)
                                 (AnalyzeToday.articles out))).
  { intros cat. unfold counts, category_counts.
    rewrite category_counts_fold, lookup_empty. simpl. lia. }
  split; [exact Hcount|].
  assert (Hlabels :
    Forall (fun it => AnalyzeToday.it_category it ∈ categories)
           (AnalyzeToday.articles out)).
  { destruct (T_written_spec _ _ Hmain) as (scored & Hscored & Hout).
    apply T_score_loop_spec in Hscored as [Hitems _].
    apply list.Forall_forall. intros it Hit. rewrite Hout in Hit.
    pose proof (elem_of_sublist _ _ _ Hit (sublist_take _ _)) as Hcap.
    pose proof (elem_of_sublist _ _ _ Hcap (cap_filter_sublist _ _ _ _))
      as Hin.
    apply sort_desc_elem_of in Hin.
    apply (proj1 (list.Forall_forall _ _) Hitems) in Hin as (_ & _ & Hcat).
    unfold AnalyzeToday.categorize_article in Hcat. inv_bind Hcat.
    injection Hcat as <-. apply T_categorize_text_in. }
  assert (Hselected : AnalyzeToday.selected_count out
                      = length (AnalyzeToday.articles out)).
  { unfold AnalyzeToday.written in Hmain. inv_bind Hmain. inv_bind Hmain.
    by injection Hmain as <-. }
  rewrite Hselected,
    <- (categories_partition AnalyzeToday.it_category _ Hlabels).
  unfold categories. cbn [map]. by rewrite !Hcount.
Qed.
End ReportFacts.

Lemma X19_by_category_partition_witness :
  exists scored by_category filtered,
    @AnalyzeArticles.score_loop Reference.runtime
      Samples.five_papers_one_post = Ok scored
    /\ Reports.group_loop ∅ [] 0
         (sort_desc AnalyzeArticles.it_score py_ltb scored)
       = Ok (by_category, filtered)
    /\ Reports.category_breakdown by_category
       = [("Production Use Cases", 4%nat)]
    /\ sum_list (map (fun line => Z.of_nat line.2)
                     (Reports.category_breakdown by_category))
       = Z.of_nat (length filtered).
Proof.
  evaluated
    (match @AnalyzeArticles.score_loop Reference.runtime
             Samples.five_papers_one_post with
     | Ok scored =>
         match Reports.group_loop ∅ [] 0
                 (sort_desc AnalyzeArticles.it_score py_ltb scored) with
         | Ok grouped =>
             Reports.category_breakdown grouped.1
             = [("Production Use Cases", 4%nat)]
         | Raise _ => False
         end
     | Raise _ => False
     end) as scored from Hscored by Hfact.
  name_run Hfact grouped Hgroup. destruct grouped as [by_category filtered].
  exists scored, by_category, filtered. split; [reflexivity|].
  split; [exact Hgroup|]. split; [exact Hfact|].
  destruct (@X19_by_category_partition Reference.runtime _ _ _ _
              Hscored Hgroup) as (_ & _ & _ & Hsum & _).
  exact Hsum.
Defined.

Lemma X20_analyze_today_category_counts_witness :
  exists out,
    @AnalyzeToday.written Reference.runtime Samples.five_papers_one_post
      = Ok out
    /\ Reports.category_counts (AnalyzeToday.articles out)
       = {[ "Production Use Cases" := 4 ]}
    /\ sum_list (map (fun cat =>
                        default 0
                          (Reports.category_counts (AnalyzeToday.articles out)
                             !! cat)) categories)
       = Z.of_nat (AnalyzeToday.selected_count out).
Proof.
  evaluated
    (match @AnalyzeToday.written Reference.runtime
             Samples.five_papers_one_post with
     | Ok out =>
         Reports.category_counts (AnalyzeToday.articles out)
         = {[ "Production Use Cases" := 4 ]}
     | Raise _ => False
     end) as out from Hrun by Hfact.
  exists out. split; [reflexivity|]. split; [exact Hfact|].
  apply (@X20_analyze_today_category_counts Reference.runtime _ _ Hrun).
Defined.

(** ** The report after the file is written *)

Section ClosingReport.
Context {RT : Runtime}.

(** The file a run of [main] leaves behind is what [written] returns. *)
Lemma T_main_file (collected : list article) (out : AnalyzeToday.output) :
  file (AnalyzeToday.main collected) = Some out
  <-> AnalyzeToday.written collected = Ok out.
Proof.
  unfold AnalyzeToday.main.
  destruct (AnalyzeToday.written collected) as [out'|e]; cbn [file].
  - split; by intros [= ->].
  - split; discriminate.
Qed.

Lemma F_main_file (collected : list article)
    (out : FilterAndGenerate.output) :
  file (FilterAndGenerate.main collected) = Some out
  <-> FilterAndGenerate.written collected = Ok out.
Proof.
  unfold FilterAndGenerate.main.
  destruct (FilterAndGenerate.written collected) as [out'|e]; cbn [file].
  - split; by intros [= ->].
  - split; discriminate.
Qed.




End ClosingReport.

